(** * poker-hand-evaluator: a shallow embedding of the hand evaluator

    The development follows the two source files of the repository:
    [index.js] (the CommonJS module, embedded in [Module Node]) and
    [inject/hand-evaluator.js] (the browser build, embedded in
    [Module Browser]).  [Module Js] holds the fragment of the host
    language both files rest on: values, strings, plain objects used as
    lookup tables, arrays, the stable [Array.prototype.sort] and binary64
    numbers. *)

From Stdlib Require Import ZArith List Bool Lia Permutation Sorted.
From Stdlib Require Import Ascii String.
From Stdlib Require Import Floats Uint63.
Import ListNotations.

#[local] Open Scope Z_scope.
#[local] Set Warnings "-inexact-float".

(* ================================================================== *)
(** * The host language *)
(* ================================================================== *)

Module Js.

(** Values a caller can hand to the exported functions.  Strings are
    sequences of code units below 256; [JsObj] stands for any object
    that is not an array of the modelled shape. *)
Inductive JsVal : Type :=
| JsUndefined
| JsNull
| JsBool (b : bool)
| JsNum (x : float)
| JsStr (s : string)
| JsObj.

(** [ToBoolean]. *)
Definition truthy (v : JsVal) : bool :=
  match v with
  | JsUndefined | JsNull => false
  | JsBool b => b
  | JsNum x => negb (PrimFloat.is_nan x || PrimFloat.is_zero x)
  | JsStr s => negb (String.eqb s EmptyString)
  | JsObj => true
  end.

Definition is_string (v : JsVal) : bool :=
  match v with JsStr _ => true | _ => false end.

(** The outcome of a call: a returned value, a thrown [TypeError], or a
    result this development does not determine.  The last one stands for
    hands that hold a card whose rank is not a number: the comparator of
    the sort then yields [NaN], the order of the ranks is in general the
    implementation's choice, and the tiebreaker would not be a list of
    integers. *)
Inductive Outcome (A : Type) : Type :=
| Returns (a : A)
| Throws
| Unspecified.
Arguments Returns {A} a.
Arguments Throws {A}.
Arguments Unspecified {A}.

(** ** Strings *)

Definition str_length (s : string) : Z := Z.of_nat (String.length s).

(** Relative index of [String.prototype.slice]: negative counts from the
    end, and the result is clamped to [0 .. len]. *)
Definition rel_index (len i : Z) : Z :=
  if i <? 0 then Z.max (len + i) 0 else Z.min i len.

(** [s.slice(start, end)]; [None] for an omitted [end]. *)
Definition slice (s : string) (start : Z) (end_ : option Z) : string :=
  let len := str_length s in
  let from := rel_index len start in
  let to := match end_ with None => len | Some e => rel_index len e end in
  String.substring (Z.to_nat from) (Z.to_nat (Z.max (to - from) 0)) s.

(** Case mapping of one code unit: the ASCII letters and the accented
    letters of the upper half.  [toLowerCase] never leaves the range;
    the three code units whose upper-case form does (223, 181, 255) are
    kept as they are by [upper_ascii]. *)
Definition lower_ascii (c : ascii) : ascii :=
  let n := N_of_ascii c in
  if ((65 <=? n) && (n <=? 90))%N then ascii_of_N (n + 32)
  else if ((192 <=? n) && (n <=? 222) && negb (n =? 215))%N
       then ascii_of_N (n + 32)
  else c.

Definition upper_ascii (c : ascii) : ascii :=
  let n := N_of_ascii c in
  if ((97 <=? n) && (n <=? 122))%N then ascii_of_N (n - 32)
  else if ((224 <=? n) && (n <=? 254) && negb (n =? 247))%N
       then ascii_of_N (n - 32)
  else c.

Fixpoint toLowerCase (s : string) : string :=
  match s with
  | EmptyString => EmptyString
  | String c r => String (lower_ascii c) (toLowerCase r)
  end.

Fixpoint toUpperCase (s : string) : string :=
  match s with
  | EmptyString => EmptyString
  | String c r => String (upper_ascii c) (toUpperCase r)
  end.

(** ** Plain objects used as lookup tables *)

(** What reading a property yields when it is not [undefined]: a number
    stored on the object itself, or a member found on [Object.prototype]
    (a function, or the prototype object for [__proto__]). *)
Inductive PropVal : Type :=
| Own (i : Z)
| Inherited (name : string).

Definition propval_eqb (a b : PropVal) : bool :=
  match a, b with
  | Own i, Own j => Z.eqb i j
  | Inherited n, Inherited m => String.eqb n m
  | _, _ => false
  end.

(** Property names every plain object inherits. *)
Definition Object_prototype : list string :=
  [ "constructor"; "__defineGetter__"; "__defineSetter__"; "hasOwnProperty";
    "__lookupGetter__"; "__lookupSetter__"; "isPrototypeOf";
    "propertyIsEnumerable"; "toString"; "valueOf"; "__proto__";
    "toLocaleString" ]%string.

Definition Table : Type := list (string * Z).

Fixpoint own (o : Table) (key : string) : option Z :=
  match o with
  | [] => None
  | (k, v) :: r => if String.eqb k key then Some v else own r key
  end.

(** [o[key]]: the own property if there is one, else the inherited one;
    [None] is [undefined]. *)
Definition get (o : Table) (key : string) : option PropVal :=
  match own o key with
  | Some v => Some (Own v)
  | None =>
      if existsb (String.eqb key) Object_prototype
      then Some (Inherited key) else None
  end.

(** [xs.map((x, i) => [x, i])] followed by [Object.fromEntries], and
    equally [xs.forEach((x, i) => { o[x] = i })] on a fresh [{}]: a later
    duplicate key would overwrite an earlier one, and the tables built
    here have none. *)
Fixpoint index_from (i : Z) (xs : list string) : Table :=
  match xs with
  | [] => []
  | x :: r => (x, i) :: index_from (i + 1) r
  end.

(** ** Arrays *)

(** [xs[i]] for an integer [i]; [None] is [undefined]. *)
Definition at_index {A : Type} (xs : list A) (i : Z) : option A :=
  if i <? 0 then None else nth_error xs (Z.to_nat i).

(** [Array.prototype.sort] with comparator [cmp]: the sort is stable, so
    for a consistent comparator the result is that of insertion sort. *)
Fixpoint insert_by {A : Type} (cmp : A -> A -> Z) (x : A) (l : list A)
  : list A :=
  match l with
  | [] => [x]
  | y :: r => if cmp x y <=? 0 then x :: y :: r else y :: insert_by cmp x r
  end.

Fixpoint sort_by {A : Type} (cmp : A -> A -> Z) (l : list A) : list A :=
  match l with
  | [] => []
  | x :: r => insert_by cmp x (sort_by cmp r)
  end.

(** [new Set(xs).size] for integers. *)
Definition Set_size (xs : list Z) : Z :=
  Z.of_nat (List.length (nodup Z.eq_dec xs)).

(** ** Numbers *)

(** The binary64 value of an integer (exact below 2^53 in magnitude). *)
Definition of_Z (z : Z) : float :=
  if z <? 0 then PrimFloat.opp (PrimFloat.of_uint63 (Uint63.of_Z (- z)))
  else PrimFloat.of_uint63 (Uint63.of_Z z).

(** [ToNumber] of a property value: inherited members are objects whose
    string form is not numeric. *)
Definition to_number (p : PropVal) : float :=
  match p with
  | Own i => of_Z i
  | Inherited _ => PrimFloat.nan
  end.

(** [Math.max] and [Math.min] of two numbers: [NaN] is contagious and
    [+0] is larger than [-0]. *)
Definition Math_max (x y : float) : float :=
  if PrimFloat.is_nan x || PrimFloat.is_nan y then PrimFloat.nan
  else if PrimFloat.ltb x y then y
  else if PrimFloat.ltb y x then x
  else if PrimFloat.is_zero x && PrimFloat.get_sign x then y
  else x.

Definition Math_min (x y : float) : float :=
  if PrimFloat.is_nan x || PrimFloat.is_nan y then PrimFloat.nan
  else if PrimFloat.ltb x y then x
  else if PrimFloat.ltb y x then y
  else if PrimFloat.is_zero x && PrimFloat.get_sign x then x
  else y.

End Js.

Import Js.

(* ================================================================== *)
(** * Data model *)
(* ================================================================== *)

(** What [parseCard] builds: [{ rank: r, suit: s }] with whatever the two
    table lookups produced. *)
Record Parsed : Type := mkParsed { p_rank : PropVal; p_suit : PropVal }.

(** A card of the data model: both fields are integers. *)
Record Card : Type := mkCard { rank : Z; suit : Z }.

Definition valid_card (c : Card) : Prop :=
  0 <= rank c <= 12 /\ 0 <= suit c <= 3.

(** The parse result that stands for a card of the data model, and the
    card a parse result stands for, if it is one. *)
Definition parsed_of (c : Card) : Parsed :=
  mkParsed (Own (rank c)) (Own (suit c)).

Definition card_of (p : Parsed) : option Card :=
  match p_rank p, p_suit p with
  | Own r, Own s => Some (mkCard r s)
  | _, _ => None
  end.

Fixpoint cards_of (ps : list Parsed) : option (list Card) :=
  match ps with
  | [] => Some []
  | p :: r =>
      match card_of p, cards_of r with
      | Some c, Some cs => Some (c :: cs)
      | _, _ => None
      end
  end.

(** The object [evaluate5] returns: [{ rank, tiebreaker, name }]. *)
Record HandEvaluation : Type :=
  mkHand { hrank : Z; tiebreaker : list Z; name : string }.

(** An entry of [groups]: [{ rank, count }]. *)
Record Group : Type := mkGroup { g_rank : Z; count : Z }.

(** A property of an options object: missing ([undefined]), [null], or
    a value of the documented type. *)
Inductive Field (A : Type) : Type :=
| Absent
| IsNull
| Present (a : A).
Arguments Absent {A}.
Arguments IsNull {A}.
Arguments Present {A} a.

(** The argument of [winProbability]. *)
Record Opts : Type :=
  mkOpts { holeCards : Field (list JsVal);
           boardCards : Field (list JsVal);
           numOpponents : Field float }.

(** ** Pieces both source files spell the same way *)

(** [xs.filter(Boolean)] after [xs.map(parseCard)]: [null] is dropped,
    every object is kept. *)
Fixpoint filter_Boolean {A : Type} (xs : list (option A)) : list A :=
  match xs with
  | [] => []
  | Some x :: r => x :: filter_Boolean r
  | None :: r => filter_Boolean r
  end.

(** The rank-frequency object [freq], as its properties in creation
    order; the keys are the decimal strings of the ranks and are kept as
    the integers [parseInt] reads back.  [freq_incr] is the statement
    [freq[r] = (freq[r] || 0) + 1]: a stored count is at least 1, and a
    key that is written again keeps its place. *)
Fixpoint freq_incr (freq : list (Z * Z)) (r : Z) : list (Z * Z) :=
  match freq with
  | [] => [(r, 1)]
  | (k, v) :: rest =>
      if k =? r then (k, v + 1) :: rest else (k, v) :: freq_incr rest r
  end.

Definition freq_of (ranks : list Z) : list (Z * Z) :=
  fold_left freq_incr ranks [].

(** Own-property order: array-index keys ascending, then the other keys
    in creation order. *)
Definition is_array_index (k : Z) : bool :=
  (0 <=? k) && (k <? 2 ^ 32 - 1).

Definition Object_entries (o : list (Z * Z)) : list (Z * Z) :=
  sort_by (fun a b => fst a - fst b)
          (filter (fun e => is_array_index (fst e)) o)
  ++ filter (fun e => negb (is_array_index (fst e))) o.

Definition Object_keys (o : list (Z * Z)) : list Z :=
  map fst (Object_entries o).

Fixpoint freq_get (o : list (Z * Z)) (k : Z) : option Z :=
  match o with
  | [] => None
  | (k', v) :: rest => if k' =? k then Some v else freq_get rest k
  end.

(** [for (let i = lo; i < hi; i++) body], threading the loop state. *)
Fixpoint for_loop {St : Type} (i steps : nat)
         (body : nat -> St -> Outcome St) (s : St) : Outcome St :=
  match steps with
  | O => Returns s
  | S k =>
      match body i s with
      | Returns s' => for_loop (S i) k body s'
      | Throws => Throws
      | Unspecified => Unspecified
      end
  end.

Definition for_range {St : Type} (lo hi : nat)
           (body : nat -> St -> Outcome St) (s : St) : Outcome St :=
  for_loop lo (hi - lo) body s.

(** [a.tiebreaker[i] ?? -1], and equally
    [a.tiebreaker[i] != null ? a.tiebreaker[i] : -1]. *)
Definition tb_at (t : list Z) (i : nat) : Z :=
  match nth_error t i with Some v => v | None => -1 end.

(* ================================================================== *)
(** * index.js *)
(* ================================================================== *)

Module Node.

Definition RANKS : list string :=
  ["2"; "3"; "4"; "5"; "6"; "7"; "8"; "9"; "T"; "J"; "Q"; "K"; "A"]%string.
Definition SUITS : list string := ["s"; "h"; "d"; "c"]%string.
Definition RANK_IDX : Table := index_from 0 RANKS.
Definition SUIT_IDX : Table := index_from 0 SUITS.

Module HAND_RANK.
Definition HIGH_CARD : Z := 0.
Definition ONE_PAIR : Z := 1.
Definition TWO_PAIR : Z := 2.
Definition THREE_OF_A_KIND : Z := 3.
Definition STRAIGHT : Z := 4.
Definition FLUSH : Z := 5.
Definition FULL_HOUSE : Z := 6.
Definition FOUR_OF_A_KIND : Z := 7.
Definition STRAIGHT_FLUSH : Z := 8.
End HAND_RANK.

Definition parseCard (str : JsVal) : option Parsed :=
  if negb (truthy str) || negb (is_string str) then None
  else match str with
  | JsStr s =>
      if str_length s <? 2 then None
      else
        let rank := if str_length s =? 3 then slice s 0 (Some 2)
                    else slice s 0 (Some (-1)) in
        let suit := toLowerCase (slice s (-1) None) in
        match get RANK_IDX rank, get SUIT_IDX suit with
        | Some r, Some s => Some (mkParsed r s)
        | _, _ => None
        end
  | _ => None
  end.

(** [RANKS[card.rank] + SUITS[card.suit]]: an index out of range reads
    [undefined], which [+] turns into text next to a string and into
    [NaN] next to another [undefined]. *)
Definition cardToString (card : Card) : JsVal :=
  match at_index RANKS (rank card), at_index SUITS (suit card) with
  | Some r, Some s => JsStr (r ++ s)
  | Some r, None => JsStr (r ++ "undefined")
  | None, Some s => JsStr ("undefined" ++ s)
  | None, None => JsNum PrimFloat.nan
  end.

(** The straight detection of [evaluate5]: [(isStraight, straightHigh)]. *)
Definition straight_of (ranks : list Z) (uniqueRanks : Z) : bool * Z :=
  if uniqueRanks =? 5 then
    match ranks with
    | r0 :: r1 :: r2 :: r3 :: r4 :: _ =>
        let st := if r0 - r4 =? 4 then (true, r0) else (false, -1) in
        if (r0 =? 12) && (r1 =? 3) && (r2 =? 2) && (r3 =? 1) && (r4 =? 0)
        then (true, 3) else st
    | _ => (false, -1)
    end
  else (false, -1).

(** [Object.entries(freq).sort(...).map(...)]. *)
Definition groups_of (ranks : list Z) : list Group :=
  map (fun e => mkGroup (fst e) (snd e))
      (sort_by (fun a b => if snd b - snd a =? 0 then fst b - fst a
                           else snd b - snd a)
               (Object_entries (freq_of ranks))).

(** [first && groups[1].count === k]; [None] when [groups[1]] is read
    and is [undefined]. *)
Definition and_second (first : bool) (rest : list Group) (k : Z)
  : option bool :=
  if first then
    match rest with
    | [] => None
    | g1 :: _ => Some (count g1 =? k)
    end
  else Some false.

Definition evaluate5 (cards : list Card) : Outcome HandEvaluation :=
  let sorted := sort_by (fun a b => rank b - rank a) cards in
  let ranks := map rank sorted in
  let suits := map suit sorted in
  let isFlush := Set_size suits =? 1 in
  let uniqueRanks := Set_size ranks in
  let '(isStraight, straightHigh) := straight_of ranks uniqueRanks in
  let groups := groups_of ranks in
  if isFlush && isStraight then
    Returns (mkHand HAND_RANK.STRAIGHT_FLUSH [straightHigh]
               (if straightHigh =? 12 then "Royal Flush"
                else "Straight Flush"))
  else
    match groups with
    | [] => Throws
    | g0 :: rest =>
        if count g0 =? 4 then
          Returns (mkHand HAND_RANK.FOUR_OF_A_KIND (map g_rank groups)
                     "Four of a Kind")
        else
          match and_second (count g0 =? 3) rest 2 with
          | None => Throws
          | Some true =>
              Returns (mkHand HAND_RANK.FULL_HOUSE (map g_rank groups)
                         "Full House")
          | Some false =>
              if isFlush then
                Returns (mkHand HAND_RANK.FLUSH ranks "Flush")
              else if isStraight then
                Returns (mkHand HAND_RANK.STRAIGHT [straightHigh] "Straight")
              else if count g0 =? 3 then
                Returns (mkHand HAND_RANK.THREE_OF_A_KIND (map g_rank groups)
                           "Three of a Kind")
              else
                match and_second (count g0 =? 2) rest 2 with
                | None => Throws
                | Some true =>
                    Returns (mkHand HAND_RANK.TWO_PAIR (map g_rank groups)
                               "Two Pair")
                | Some false =>
                    if count g0 =? 2 then
                      Returns (mkHand HAND_RANK.ONE_PAIR (map g_rank groups)
                                 "One Pair")
                    else
                      Returns (mkHand HAND_RANK.HIGH_CARD ranks "High Card")
                end
          end
    end.

(** The [for] loop of [compareHands] from index [i], with [steps]
    iterations left. *)
Fixpoint compare_from (a b : list Z) (i steps : nat) : Z :=
  match steps with
  | O => 0
  | S k =>
      let av := tb_at a i in
      let bv := tb_at b i in
      if negb (av =? bv) then av - bv else compare_from a b (S i) k
  end.

Definition compareHands (a b : HandEvaluation) : Z :=
  if negb (hrank a =? hrank b) then hrank a - hrank b
  else
    let len := Nat.max (List.length (tiebreaker a))
                       (List.length (tiebreaker b)) in
    compare_from (tiebreaker a) (tiebreaker b) 0 len.

(** The innermost statement of [evaluate7]. *)
Definition consider (cards : list Card) (a b c d e : nat)
           (best : option HandEvaluation) : Outcome (option HandEvaluation) :=
  match nth_error cards a, nth_error cards b, nth_error cards c,
        nth_error cards d, nth_error cards e with
  | Some ca, Some cb, Some cc, Some cd, Some ce =>
      match evaluate5 [ca; cb; cc; cd; ce] with
      | Returns hand =>
          match best with
          | None => Returns (Some hand)
          | Some bst =>
              if compareHands hand bst >? 0 then Returns (Some hand)
              else Returns best
          end
      | Throws => Throws
      | Unspecified => Unspecified
      end
  | _, _, _, _, _ => Throws
  end.

(** The five nested loops of [evaluate7] over the parsed cards; they
    run with [n >= 5], so no bound [n - k] is negative. *)
Definition best_of (cards : list Card) : Outcome (option HandEvaluation) :=
  let n := List.length cards in
  for_range 0 (n - 4) (fun a =>
    for_range (a + 1) (n - 3) (fun b =>
      for_range (b + 1) (n - 2) (fun c =>
        for_range (c + 1) (n - 1) (fun d =>
          for_range (d + 1) n (fun e =>
            consider cards a b c d e))))) None.

(** [evaluate7]: [Returns None] is [null].  The length guard counts
    every kept parse result; a kept result whose rank is not a number
    leads to [Unspecified]. *)
Definition evaluate7 (cardStrings : list JsVal)
  : Outcome (option HandEvaluation) :=
  let cards := filter_Boolean (map parseCard cardStrings) in
  if (List.length cards <? 5)%nat then Returns None
  else
    match cards_of cards with
    | Some cs => best_of cs
    | None => Unspecified
    end.

Section Equity.

(** [Math.pow], which the language only approximates. *)
Variable Math_pow : float -> float -> float.

Definition preFlopStrength (holeCards : Field (list JsVal)) : float :=
  match holeCards with
  | Absent | IsNull => 0.5%float
  | Present hc =>
      if (List.length hc <? 2)%nat then 0.5%float
      else
        match filter_Boolean (map parseCard hc) with
        | c1 :: c2 :: _ =>
            let hi := Math_max (to_number (p_rank c1)) (to_number (p_rank c2)) in
            let lo := Math_min (to_number (p_rank c1)) (to_number (p_rank c2)) in
            let suited := propval_eqb (p_suit c1) (p_suit c2) in
            let isPair := PrimFloat.eqb hi lo in
            let gap := (hi - lo)%float in
            let score :=
              if isPair then
                let score := (hi * 2)%float in
                let score :=
                  if PrimFloat.eqb hi 12 then 20%float
                  else if PrimFloat.eqb hi 11 then 16%float
                  else if PrimFloat.eqb hi 10 then 14%float
                  else if PrimFloat.eqb hi 9 then 12%float
                  else score in
                Math_max 5 score
              else
                let score := (hi * 0.5)%float in
                let score := (score + (if suited then 2 else 0))%float in
                let score :=
                  (score + (if PrimFloat.leb gap 1 then 1 else 0))%float in
                (score - Math_max 0 (gap - 3))%float in
            Math_max 0.05 (Math_min 0.98 (score / 20))
        | _ => 0.5%float
        end
  end.

Definition TABLE : list float :=
  [0.10; 0.38; 0.55; 0.68; 0.72; 0.77; 0.86; 0.93; 0.97]%float.

Definition winProbability (opts : Opts) : Outcome float :=
  (* destructuring defaults apply to [undefined] only *)
  let holeCards := match holeCards opts with
                   | Absent => Present [] | f => f end in
  let boardCards := match boardCards opts with
                    | Absent => Present [] | f => f end in
  let numOpponents := match numOpponents opts with
                      | Absent => 1%float
                      | IsNull => 0%float   (* [null - 1] is [-1] *)
                      | Present x => x end in
  let finish (equity : float) :=
    Math_max 0.01
      (equity * Math_pow 0.88 (Math_max 0 (numOpponents - 1)))%float in
  match holeCards with
  | Present hc =>
      if (List.length hc <? 2)%nat then Returns 0.5%float
      else
        match boardCards with
        | Present bc =>
            if (List.length bc =? 0)%nat then
              Returns (finish (preFlopStrength (Present hc)))
            else
              match evaluate7 (hc ++ bc) with
              | Returns result =>
                  let equity :=
                    match result with
                    | Some h =>
                        match at_index TABLE (hrank h) with
                        | Some p => p
                        | None => 0.5%float
                        end
                    | None => 0.5%float
                    end in
                  Returns (finish equity)
              | Throws => Throws
              | Unspecified => Unspecified
              end
        | _ => Throws      (* [boardCards.length] of [null] *)
        end
  | _ => Throws            (* [holeCards.length] of [null] *)
  end.

End Equity.

End Node.

(* ================================================================== *)
(** * inject/hand-evaluator.js *)
(* ================================================================== *)

Module Browser.

Definition RANKS : list string :=
  ["2"; "3"; "4"; "5"; "6"; "7"; "8"; "9"; "T"; "J"; "Q"; "K"; "A"]%string.
Definition SUITS : list string := ["s"; "h"; "d"; "c"]%string.
Definition RANK_IDX : Table := index_from 0 RANKS.
Definition SUIT_IDX : Table := index_from 0 SUITS.

Module HAND_RANK.
Definition HIGH_CARD : Z := 0.
Definition ONE_PAIR : Z := 1.
Definition TWO_PAIR : Z := 2.
Definition THREE_OF_A_KIND : Z := 3.
Definition STRAIGHT : Z := 4.
Definition FLUSH : Z := 5.
Definition FULL_HOUSE : Z := 6.
Definition FOUR_OF_A_KIND : Z := 7.
Definition STRAIGHT_FLUSH : Z := 8.
End HAND_RANK.

Definition parseCard (str : JsVal) : option Parsed :=
  if negb (truthy str) || negb (is_string str) then None
  else match str with
  | JsStr s =>
      if str_length s <? 2 then None
      else
        let rank := if str_length s =? 3 then slice s 0 (Some 2)
                    else slice s 0 (Some (-1)) in
        let suit := toLowerCase (slice s (-1) None) in
        match get RANK_IDX rank, get SUIT_IDX suit with
        | Some r, Some s => Some (mkParsed r s)
        | _, _ => None
        end
  | _ => None
  end.

Definition cardToString (card : Card) : JsVal :=
  match at_index RANKS (rank card), at_index SUITS (suit card) with
  | Some r, Some s => JsStr (r ++ s)
  | Some r, None => JsStr (r ++ "undefined")
  | None, Some s => JsStr ("undefined" ++ s)
  | None, None => JsNum PrimFloat.nan
  end.

Definition straight_of (ranks : list Z) (uniqueRanks : Z) : bool * Z :=
  if uniqueRanks =? 5 then
    match ranks with
    | r0 :: r1 :: r2 :: r3 :: r4 :: _ =>
        let st := if r0 - r4 =? 4 then (true, r0) else (false, -1) in
        if (r0 =? 12) && (r1 =? 3) && (r2 =? 2) && (r3 =? 1) && (r4 =? 0)
        then (true, 3) else st
    | _ => (false, -1)
    end
  else (false, -1).

(** [Object.keys(freq).map(...).sort(...)]: the groups are built first
    and sorted afterwards.  Every key comes from [freq], so [freq[r]] is
    never [undefined]. *)
Definition groups_of (ranks : list Z) : list Group :=
  let freq := freq_of ranks in
  sort_by (fun a b => if count b - count a =? 0 then g_rank b - g_rank a
                      else count b - count a)
          (map (fun r => mkGroup r (match freq_get freq r with
                                    | Some c => c
                                    | None => 0
                                    end))
               (Object_keys freq)).

Definition and_second (first : bool) (rest : list Group) (k : Z)
  : option bool :=
  if first then
    match rest with
    | [] => None
    | g1 :: _ => Some (count g1 =? k)
    end
  else Some false.

Definition evaluate5 (cards : list Card) : Outcome HandEvaluation :=
  let sorted := sort_by (fun a b => rank b - rank a) cards in
  let ranks := map rank sorted in
  let suits := map suit sorted in
  let isFlush := Set_size suits =? 1 in
  let uniqueRanks := Set_size ranks in
  let '(isStraight, straightHigh) := straight_of ranks uniqueRanks in
  let groups := groups_of ranks in
  if isFlush && isStraight then
    Returns (mkHand HAND_RANK.STRAIGHT_FLUSH [straightHigh]
               (if straightHigh =? 12 then "Royal Flush"
                else "Straight Flush"))
  else
    match groups with
    | [] => Throws
    | g0 :: rest =>
        if count g0 =? 4 then
          Returns (mkHand HAND_RANK.FOUR_OF_A_KIND (map g_rank groups)
                     "Four of a Kind")
        else
          match and_second (count g0 =? 3) rest 2 with
          | None => Throws
          | Some true =>
              Returns (mkHand HAND_RANK.FULL_HOUSE (map g_rank groups)
                         "Full House")
          | Some false =>
              if isFlush then
                Returns (mkHand HAND_RANK.FLUSH ranks "Flush")
              else if isStraight then
                Returns (mkHand HAND_RANK.STRAIGHT [straightHigh] "Straight")
              else if count g0 =? 3 then
                Returns (mkHand HAND_RANK.THREE_OF_A_KIND (map g_rank groups)
                           "Three of a Kind")
              else
                match and_second (count g0 =? 2) rest 2 with
                | None => Throws
                | Some true =>
                    Returns (mkHand HAND_RANK.TWO_PAIR (map g_rank groups)
                               "Two Pair")
                | Some false =>
                    if count g0 =? 2 then
                      Returns (mkHand HAND_RANK.ONE_PAIR (map g_rank groups)
                                 "One Pair")
                    else
                      Returns (mkHand HAND_RANK.HIGH_CARD ranks "High Card")
                end
          end
    end.

Fixpoint compare_from (a b : list Z) (i steps : nat) : Z :=
  match steps with
  | O => 0
  | S k =>
      let av := tb_at a i in
      let bv := tb_at b i in
      if negb (av =? bv) then av - bv else compare_from a b (S i) k
  end.

Definition compareHands (a b : HandEvaluation) : Z :=
  if negb (hrank a =? hrank b) then hrank a - hrank b
  else
    let len := Nat.max (List.length (tiebreaker a))
                       (List.length (tiebreaker b)) in
    compare_from (tiebreaker a) (tiebreaker b) 0 len.

Definition consider (cards : list Card) (a b c d e : nat)
           (best : option HandEvaluation) : Outcome (option HandEvaluation) :=
  match nth_error cards a, nth_error cards b, nth_error cards c,
        nth_error cards d, nth_error cards e with
  | Some ca, Some cb, Some cc, Some cd, Some ce =>
      match evaluate5 [ca; cb; cc; cd; ce] with
      | Returns hand =>
          match best with
          | None => Returns (Some hand)
          | Some bst =>
              if compareHands hand bst >? 0 then Returns (Some hand)
              else Returns best
          end
      | Throws => Throws
      | Unspecified => Unspecified
      end
  | _, _, _, _, _ => Throws
  end.

Definition best_of (cards : list Card) : Outcome (option HandEvaluation) :=
  let n := List.length cards in
  for_range 0 (n - 4) (fun a =>
    for_range (a + 1) (n - 3) (fun b =>
      for_range (b + 1) (n - 2) (fun c =>
        for_range (c + 1) (n - 1) (fun d =>
          for_range (d + 1) n (fun e =>
            consider cards a b c d e))))) None.

Definition evaluate7 (cardStrings : list JsVal)
  : Outcome (option HandEvaluation) :=
  let cards := filter_Boolean (map parseCard cardStrings) in
  if (List.length cards <? 5)%nat then Returns None
  else
    match cards_of cards with
    | Some cs => best_of cs
    | None => Unspecified
    end.

Section Equity.

Variable Math_pow : float -> float -> float.

Definition preFlopStrength (holeCards : Field (list JsVal)) : float :=
  match holeCards with
  | Absent | IsNull => 0.5%float
  | Present hc =>
      if (List.length hc <? 2)%nat then 0.5%float
      else
        let parsed := filter_Boolean (map parseCard hc) in
        if (List.length parsed <? 2)%nat then 0.5%float
        else
          match nth_error parsed 0, nth_error parsed 1 with
          | Some c1, Some c2 =>
            let hi := Math_max (to_number (p_rank c1)) (to_number (p_rank c2)) in
            let lo := Math_min (to_number (p_rank c1)) (to_number (p_rank c2)) in
            let suited := propval_eqb (p_suit c1) (p_suit c2) in
            let isPair := PrimFloat.eqb hi lo in
            let gap := (hi - lo)%float in
            let score :=
              if isPair then
                let score := (hi * 2)%float in
                let score :=
                  if PrimFloat.eqb hi 12 then 20%float
                  else if PrimFloat.eqb hi 11 then 16%float
                  else if PrimFloat.eqb hi 10 then 14%float
                  else if PrimFloat.eqb hi 9 then 12%float
                  else score in
                Math_max 5 score
              else
                let score := (hi * 0.5)%float in
                let score := (score + (if suited then 2 else 0))%float in
                let score :=
                  (score + (if PrimFloat.leb gap 1 then 1 else 0))%float in
                (score - Math_max 0 (gap - 3))%float in
            Math_max 0.05 (Math_min 0.98 (score / 20))
          | _, _ => 0.5%float (* not reached: [parsed] has two entries *)
          end
  end.

Definition TABLE : list float :=
  [0.10; 0.38; 0.55; 0.68; 0.72; 0.77; 0.86; 0.93; 0.97]%float.

Definition winProbability (opts : Opts) : Outcome float :=
  (* [opts.holeCards || []]: an array is truthy, also when empty *)
  let holeCards := match holeCards opts with
                   | Present hc => hc | _ => [] end in
  let boardCards := match boardCards opts with
                    | Present bc => bc | _ => [] end in
  (* [opts.numOpponents != null ? opts.numOpponents : 1] *)
  let numOpponents := match numOpponents opts with
                      | Present x => x | _ => 1%float end in
  let finish (equity : float) :=
    Math_max 0.01
      (equity * Math_pow 0.88 (Math_max 0 (numOpponents - 1)))%float in
  if (List.length holeCards <? 2)%nat then Returns 0.5%float
  else if (List.length boardCards =? 0)%nat then
    Returns (finish (preFlopStrength (Present holeCards)))
  else
    match evaluate7 (holeCards ++ boardCards) with
    | Returns result =>
        let equity :=
          match result with
          | Some h =>
              match at_index TABLE (hrank h) with
              | Some p => p
              | None => 0.5%float
              end
          | None => 0.5%float
          end in
        Returns (finish equity)
    | Throws => Throws
    | Unspecified => Unspecified
    end.

End Equity.

End Browser.

(* ================================================================== *)
(** * Definitions used to state and prove the properties *)
(* ================================================================== *)

(** The specification's [normalize]: upper-case the rank part of a
    token (everything before the trailing suit character) and lower-case
    the suit character. *)
Definition normalize (t : string) : string :=
  (toUpperCase (slice t 0 (Some (-1))) ++ toLowerCase (slice t (-1) None))%string.

(** Descending order on integers, the comparator [(a, b) => b - a]. *)
Definition desc (x y : Z) : Z := y - x.

(** The count stored under a key of [freq], 0 when the key is missing. *)
Definition tally (o : list (Z * Z)) (k : Z) : Z :=
  match freq_get o k with Some v => v | None => 0 end.

(** Sum of the counts of [freq], and of a list of groups. *)
Definition total (o : list (Z * Z)) : Z := fold_right Z.add 0 (map snd o).
Definition entry_of (g : Group) : Z * Z := (g_rank g, count g).
Definition group_of (e : Z * Z) : Group := mkGroup (fst e) (snd e).

(** [evaluate5] applied to the cards a list of tokens denotes, as in the
    specification's examples [classify(["As", ...])]. *)
Definition classify_tokens (tokens : list string) : Outcome HandEvaluation :=
  match cards_of (filter_Boolean (map Node.parseCard (map JsStr tokens))) with
  | Some cs => Node.evaluate5 cs
  | None => Unspecified
  end.

(** Lexicographic order on tiebreakers read through [tb_at], that is,
    padded with -1 beyond their length. *)
Definition lex_gt (a b : list Z) : Prop :=
  exists j, (forall k, (k < j)%nat -> tb_at a k = tb_at b k) /\
            tb_at b j < tb_at a j.
Definition lex_eq (a b : list Z) : Prop :=
  forall j, tb_at a j = tb_at b j.

(** The comparison of two tiebreakers, as [compareHands] runs it. *)
Definition compare_tb (a b : list Z) : Z :=
  Node.compare_from a b 0 (Nat.max (List.length a) (List.length b)).

Definition geZ (a b : Z) : Prop := b <= a.

(** A loop body run over a list of indices. *)
Fixpoint run {X St : Type} (body : X -> St -> Outcome St) (xs : list X)
         (s : St) : Outcome St :=
  match xs with
  | [] => Returns s
  | x :: r =>
      match body x s with
      | Returns s' => run body r s'
      | Throws => Throws
      | Unspecified => Unspecified
      end
  end.

(** The index tuples the five nested loops of [evaluate7] visit, in the
    order they visit them, for [n] cards. *)
Definition combos (n : nat) : list (nat * nat * nat * nat * nat) :=
  flat_map (fun a =>
    flat_map (fun b =>
      flat_map (fun c =>
        flat_map (fun d =>
          map (fun e => (a, b, c, d, e))
              (seq (d + 1) (n - (d + 1))))
          (seq (c + 1) (n - 1 - (c + 1))))
        (seq (b + 1) (n - 2 - (b + 1))))
      (seq (a + 1) (n - 3 - (a + 1))))
    (seq 0 (n - 4 - 0)).

(** The cards at an index tuple. *)
Definition pick (cards : list Card) (t : nat * nat * nat * nat * nat)
  : list Card :=
  let '(a, b, c, d, e) := t in
  filter_Boolean [nth_error cards a; nth_error cards b; nth_error cards c;
                  nth_error cards d; nth_error cards e].

(** The innermost statement of [evaluate7] at an index tuple. *)
Definition consider_at (cards : list Card) (t : nat * nat * nat * nat * nat)
  : option HandEvaluation -> Outcome (option HandEvaluation) :=
  let '(a, b, c, d, e) := t in Node.consider cards a b c d e.

(** The update of the running best: [if (!best || compareHands(hand,
    best) > 0) best = hand]. *)
Definition keep_better (best hand : HandEvaluation) : HandEvaluation :=
  if Node.compareHands hand best >? 0 then hand else best.

Definition running_best (best : option HandEvaluation) (hand : HandEvaluation)
  : option HandEvaluation :=
  match best with
  | None => Some hand
  | Some b => Some (keep_better b hand)
  end.

(** The raw score of a pocket pair of rank [r] as the specification
    words it: twice the rank, the four top pairs overridden, floored
    at 5. *)
Definition pair_score (r : Z) : Z :=
  Z.max 5 (if r =? 12 then 20
           else if r =? 11 then 16
           else if r =? 10 then 14
           else if r =? 9 then 12
           else 2 * r).

(** The specification's category-to-equity table, 0.5 when the
    selection failed. *)
Definition table_entry (k : Z) : float :=
  match k with
  | 0 => 0.10 | 1 => 0.38 | 2 => 0.55 | 3 => 0.68 | 4 => 0.72
  | 5 => 0.77 | 6 => 0.86 | 7 => 0.93 | 8 => 0.97
  | _ => 0.5
  end%float.

Definition category_equity (result : option HandEvaluation) : float :=
  match result with
  | Some h => table_entry (hrank h)
  | None => 0.5%float
  end.

(** The [numOpponents] property of a call: given, or left out. *)
Definition opponents_field (n : option float) : Field float :=
  match n with Some x => Present x | None => Absent end.

(** The specification's default: one opponent when none is given. *)
Definition opponents (n : option float) : float :=
  match n with Some x => x | None => 1%float end.

(** A power function by repeated multiplication, meant for whole
    exponents from 0 to 64: the instance of [Math.pow] the closed
    examples below are run with. *)
Fixpoint pow_iter (x : float) (fuel : nat) (y : float) : float :=
  if PrimFloat.leb y 0 then 1%float
  else match fuel with
       | O => 1%float
       | S k => (x * pow_iter x k (y - 1))%float
       end.

Definition pow_by_products (x y : float) : float := pow_iter x 64 y.


(** The specification's flush: all suits identical. *)
Definition all_same_suit (cs : list Card) : Prop :=
  forall c c', In c cs -> In c' cs -> suit c = suit c'.

(** Highest and lowest rank of a hand. *)
Definition is_highest (rs : list Z) (hi : Z) : Prop :=
  In hi rs /\ forall r, In r rs -> r <= hi.
Definition is_lowest (rs : list Z) (lo : Z) : Prop :=
  In lo rs /\ forall r, In r rs -> lo <= r.

(** The specification's two straight shapes over five cards, with the
    straight-high [h]: all ranks distinct, and either highest minus
    lowest is 4 with [h] the highest rank, or the ranks are exactly
    A,5,4,3,2 with [h] = 3. *)
Definition straight_shape (cs : list Card) (h : Z) : Prop :=
  let rs := map rank cs in
  NoDup rs /\
  ((exists hi lo, is_highest rs hi /\ is_lowest rs lo /\
                  hi - lo = 4 /\ h = hi) \/
   (Permutation rs [12; 3; 2; 1; 0] /\ h = 3)).

(* ================================================================== *)
(** * Definitions used by the further properties *)
(* ================================================================== *)

(** The order [evaluate5] sorts its groups into: more cards first, and
    among equal counts the higher rank first. *)
Definition group_before (a b : Group) : Prop :=
  count b < count a \/ (count a = count b /\ g_rank b < g_rank a).

(** Number of cards of rank [r] among [ranks]. *)
Definition occ (ranks : list Z) (r : Z) : Z :=
  Z.of_nat (count_occ Z.eq_dec ranks r).



(** The ways five cards can split into groups of equal rank, as the
    list of group sizes in descending order. *)
Definition profiles : list (list Z) :=
  [[5]; [4; 1]; [3; 2]; [3; 1; 1]; [2; 2; 1]; [2; 1; 1; 1]; [1; 1; 1; 1; 1]].

(** Some rank occurs [k] times; two different ranks occur twice each. *)
Definition has_count (ranks : list Z) (k : Z) : Prop :=
  exists r, occ ranks r = k.

Definition two_pairs (ranks : list Z) : Prop :=
  exists r r', r <> r' /\ occ ranks r = 2 /\ occ ranks r' = 2.


(** The display name that goes with a category, given the tiebreaker
    (which tells the ace-high straight flush apart). *)
Definition name_of (category : Z) (tb : list Z) : string :=
  match category with
  | 8 => match tb with
         | [12] => "Royal Flush"
         | _ => "Straight Flush"
         end
  | 7 => "Four of a Kind"
  | 6 => "Full House"
  | 5 => "Flush"
  | 4 => "Straight"
  | 3 => "Three of a Kind"
  | 2 => "Two Pair"
  | 1 => "One Pair"
  | _ => "High Card"
  end.

(** The number of tiebreaker entries that goes with a category. *)
Definition tiebreaker_length (category : Z) : nat :=
  match category with
  | 8 | 4 => 1
  | 7 | 6 => 2
  | 3 | 2 => 3
  | 1 => 4
  | _ => 5
  end.


(** All cards of a list have one rank. *)
Definition same_rank (cs : list Card) : Prop :=
  forall c c', In c cs -> In c' cs -> rank c = rank c'.


(** The cards [evaluate7] works on: the tokens that parse to a card of
    the data model, in the order given. *)
Definition kept_cards (tokens : list JsVal) : list Card :=
  flat_map (fun t => match Node.parseCard t with
                     | Some p => match card_of p with
                                 | Some c => [c]
                                 | None => []
                                 end
                     | None => []
                     end) tokens.

(** Every token parses to [null] or to a card of the data model. *)
Definition plain_tokens (tokens : list JsVal) : Prop :=
  Forall (fun t => Node.parseCard t = None \/
                   exists c, Node.parseCard t = Some (parsed_of c)) tokens.

(** Ascending order on indices. *)
Definition asc (x y : nat) : Z := Z.of_nat x - Z.of_nat y.


(** The value [preFlopStrength] computes from the ranks of two cards
    and from whether they are of one suit. *)
Definition strength_by (r1 r2 : Z) (suited : bool) : float :=
  let hi := Math_max (of_Z r1) (of_Z r2) in
  let lo := Math_min (of_Z r1) (of_Z r2) in
  let isPair := PrimFloat.eqb hi lo in
  let gap := (hi - lo)%float in
  let score :=
    if isPair then
      let score := (hi * 2)%float in
      let score :=
        if PrimFloat.eqb hi 12 then 20%float
        else if PrimFloat.eqb hi 11 then 16%float
        else if PrimFloat.eqb hi 10 then 14%float
        else if PrimFloat.eqb hi 9 then 12%float
        else score in
      Math_max 5 score
    else
      let score := (hi * 0.5)%float in
      let score := (score + (if suited then 2 else 0))%float in
      let score := (score + (if PrimFloat.leb gap 1 then 1 else 0))%float in
      (score - Math_max 0 (gap - 3))%float in
  Math_max 0.05 (Math_min 0.98 (score / 20)).

(** The thirteen ranks. *)
Definition ranks13 : list Z := [0; 1; 2; 3; 4; 5; 6; 7; 8; 9; 10; 11; 12].

(** A test that holds for every pair of ranks. *)
Definition for_all_ranks (test : Z -> Z -> bool) : bool :=
  forallb (fun r1 => forallb (test r1) ranks13) ranks13.

(** [x <= y] on numbers, as a proposition. *)
Definition fle (x y : float) : Prop := PrimFloat.leb x y = true.

(* ================================================================== *)
(** * Card codec *)
(* ================================================================== *)

Lemma own_In (o : Table) (key : string) (v : Z) :
  own o key = Some v -> In (key, v) o.
Proof.
  induction o as [| [k w] o IH]; simpl; [discriminate |].
  destruct (String.eqb k key) eqn:E.
  - intros [= ->]. apply String.eqb_eq in E. subst. now left.
  - intros H. right. now apply IH.
Qed.

Lemma get_Own (o : Table) (key : string) (v : Z) :
  get o key = Some (Own v) -> In (key, v) o.
Proof.
  unfold get. destruct (own o key) eqn:E.
  - intros [= ->]. now apply own_In.
  - destruct (existsb _ _); discriminate.
Qed.

Lemma substring_length (s : string) (n m : nat) :
  (n + m <= String.length s)%nat ->
  String.length (String.substring n m s) = m.
Proof.
  revert n m. induction s as [| c s IH]; intros n m H; simpl in *.
  - destruct n, m; simpl in *; try lia; reflexivity.
  - destruct n as [| n].
    + destruct m as [| m]; simpl; [reflexivity |].
      f_equal. apply (IH 0%nat). lia.
    + apply IH. lia.
Qed.

(** The rank part of a token that is not three characters long is one
    character shorter than the token. *)
Lemma rank_part_length (s : string) :
  (1 <= String.length s)%nat ->
  String.length (slice s 0 (Some (-1))) = (String.length s - 1)%nat.
Proof.
  intros H. unfold slice, rel_index, str_length. simpl.
  rewrite Z.max_l by lia.
  replace (Z.min 0 (Z.of_nat (String.length s))) with 0 by lia.
  rewrite Z.max_l by lia.
  rewrite substring_length; simpl; lia.
Qed.

Lemma slice_prefix_length (s : string) (k : Z) :
  0 <= k <= str_length s ->
  String.length (slice s 0 (Some k)) = Z.to_nat k.
Proof.
  intros H. unfold slice, rel_index.
  change (0 <? 0) with false. cbv iota.
  destruct (k <? 0) eqn:E; [apply Z.ltb_lt in E; lia |].
  rewrite substring_length; unfold str_length in *; lia.
Qed.

Lemma RANK_IDX_keys (k : string) (v : Z) :
  In (k, v) Node.RANK_IDX -> String.length k = 1%nat /\ 0 <= v <= 12.
Proof.
  unfold Node.RANK_IDX, Node.RANKS. simpl.
  intros H. repeat (destruct H as [[= <- <-] | H]; [split; [reflexivity | lia] |]).
  contradiction.
Qed.

Lemma SUIT_IDX_keys (k : string) (v : Z) :
  In (k, v) Node.SUIT_IDX -> 0 <= v <= 3.
Proof.
  unfold Node.SUIT_IDX, Node.SUITS. simpl.
  intros H. repeat (destruct H as [[= <- <-] | H]; [lia |]).
  contradiction.
Qed.

(** A token whose parse has a numeric rank has exactly two characters:
    a character of [RANKS] and a character that lower-cases to one of
    [SUITS]. *)
Lemma parseCard_numeric_shape (t : string) (c : Card) :
  Node.parseCard (JsStr t) = Some (parsed_of c) ->
  exists a b,
    t = String a (String b EmptyString) /\
    In (String a EmptyString, rank c) Node.RANK_IDX /\
    In (String (lower_ascii b) EmptyString, suit c) Node.SUIT_IDX.
Proof.
  destruct t as [| a [| b t']];
    [ simpl; discriminate | simpl; discriminate | ].
  destruct t' as [| c3 t''].
  - (* two characters *)
    assert (E : Node.parseCard (JsStr (String a (String b EmptyString)))
                = match get Node.RANK_IDX (String a EmptyString),
                        get Node.SUIT_IDX (String (lower_ascii b) EmptyString)
                  with
                  | Some r, Some s => Some (mkParsed r s)
                  | _, _ => None
                  end) by reflexivity.
    rewrite E. clear E. unfold parsed_of.
    destruct (get Node.RANK_IDX (String a EmptyString)) as [r |] eqn:Er;
      [| discriminate].
    destruct (get Node.SUIT_IDX (String (lower_ascii b) EmptyString))
      as [s |] eqn:Es; [| discriminate].
    intros [= -> ->]. exists a, b.
    repeat split; now apply get_Own.
  - (* three characters or more: the rank part is too long to be a key *)
    unfold Node.parseCard, parsed_of. intros H. exfalso.
    set (t := String a (String b (String c3 t''))) in *.
    assert (Hlen : (3 <= String.length t)%nat) by (simpl; lia).
    replace (negb (truthy (JsStr t)) || negb (is_string (JsStr t)))
      with false in H by reflexivity.
    assert (Hlt : (str_length t <? 2) = false)
      by (apply Z.ltb_ge; unfold str_length; lia).
    rewrite Hlt in H.
    set (rk := if str_length t =? 3 then slice t 0 (Some 2)
               else slice t 0 (Some (-1))) in H.
    assert (Hrk : (2 <= String.length rk)%nat).
    { unfold rk. destruct (str_length t =? 3) eqn:E3.
      - rewrite slice_prefix_length; unfold str_length; lia.
      - rewrite rank_part_length by lia. 
        apply Z.eqb_neq in E3. unfold str_length in E3. lia. }
    destruct (get Node.RANK_IDX rk) as [r |] eqn:Er; [| discriminate].
    destruct (get Node.SUIT_IDX _) as [s |]; [| discriminate].
    injection H as -> _.
    apply get_Own, RANK_IDX_keys in Er. lia.
Qed.

(** The card of a parsed numeric token is a card of the data model. *)
Lemma parseCard_numeric_valid (t : string) (c : Card) :
  Node.parseCard (JsStr t) = Some (parsed_of c) -> valid_card c.
Proof.
  intros H. apply parseCard_numeric_shape in H.
  destruct H as (a & b & _ & Hr & Hs).
  apply RANK_IDX_keys in Hr. apply SUIT_IDX_keys in Hs.
  unfold valid_card. lia.
Qed.

Lemma valid_card_cases (c : Card) :
  valid_card c ->
  In (rank c) [0;1;2;3;4;5;6;7;8;9;10;11;12] /\ In (suit c) [0;1;2;3].
Proof.
  unfold valid_card. intros [Hr Hs]. simpl. split; lia.
Qed.

(** C6. Round trip of the codec.  Formatting a card of the data model
    (rank 0..12, suit 0..3) and parsing the token gives the card back;
    and for a token [t] that parses to a card, formatting that card
    gives [normalize t]: the rank character upper-cased and the suit
    character lower-cased. *)
Theorem codec_round_trip (c : Card) (t : string) (c' : Card) :
  (valid_card c ->
   exists s, Node.cardToString c = JsStr s /\
             Node.parseCard (JsStr s) = Some (parsed_of c)) /\
  (Node.parseCard (JsStr t) = Some (parsed_of c') ->
   Node.cardToString c' = JsStr (normalize t)).
Proof.
  split.
  - intros H. apply valid_card_cases in H. destruct c as [r s].
    simpl in H. destruct H as [Hr Hs].
    repeat (destruct Hr as [<- | Hr];
            [ repeat (destruct Hs as [<- | Hs];
                      [ eexists; split; reflexivity |]); contradiction |]).
    contradiction.
  - intros H. apply parseCard_numeric_shape in H.
    destruct H as (a & b & -> & Hr & Hs).
    destruct c' as [r s]. simpl in Hr, Hs.
    unfold Node.RANK_IDX, Node.RANKS in Hr.
    unfold Node.SUIT_IDX, Node.SUITS in Hs. simpl in Hr, Hs.
    assert (Hn : normalize (String a (String b EmptyString))
                 = String (upper_ascii a) (String (lower_ascii b) EmptyString))
      by reflexivity.
    rewrite Hn. clear Hn.
    repeat (destruct Hr as [[= <- <-] | Hr];
            [ repeat (destruct Hs as [[= <- <-] | Hs];
                      [ reflexivity |]); contradiction |]).
    contradiction.
Qed.

Lemma codec_round_trip_witness :
  (exists s, Node.cardToString (mkCard 12 0) = JsStr s /\
             Node.parseCard (JsStr s) = Some (parsed_of (mkCard 12 0))) /\
  Node.cardToString (mkCard 8 3) = JsStr (normalize "TC").
Proof.
  destruct (codec_round_trip (mkCard 12 0) "TC" (mkCard 8 3)) as [H1 H2].
  split.
  - apply H1. unfold valid_card. simpl. lia.
  - apply H2. reflexivity.
Defined.

(** Inputs [parseCard] turns away, and the short-hand guard of
    [evaluate7]. *)
Lemma parseCard_not_string (v : JsVal) :
  is_string v = false -> Node.parseCard v = None.
Proof.
  intros H. unfold Node.parseCard. rewrite H.
  rewrite orb_true_r. reflexivity.
Qed.

Lemma parseCard_short (s : string) :
  str_length s < 2 -> Node.parseCard (JsStr s) = None.
Proof.
  intros H. unfold Node.parseCard.
  destruct (negb (truthy (JsStr s)) || negb (is_string (JsStr s)));
    [reflexivity |].
  apply Z.ltb_lt in H. rewrite H. reflexivity.
Qed.

Lemma parseCard_unknown_suit (s : string) :
  get Node.SUIT_IDX (toLowerCase (slice s (-1) None)) = None ->
  Node.parseCard (JsStr s) = None.
Proof.
  intros H. unfold Node.parseCard.
  destruct (negb (truthy (JsStr s)) || negb (is_string (JsStr s)));
    [reflexivity |].
  destruct (str_length s <? 2); [reflexivity |].
  rewrite H. destruct (get Node.RANK_IDX _); reflexivity.
Qed.

Lemma parseCard_examples :
  Node.parseCard (JsStr "") = None /\
  Node.parseCard (JsStr "Xx") = None /\
  Node.parseCard JsNull = None /\
  Node.parseCard (JsStr "10s") = None.
Proof. repeat split. Qed.

Lemma evaluate7_too_few (tokens : list JsVal) :
  (List.length (filter_Boolean (map Node.parseCard tokens)) < 5)%nat ->
  Node.evaluate7 tokens = Returns None.
Proof.
  intros H. unfold Node.evaluate7.
  apply Nat.ltb_lt in H. rewrite H. reflexivity.
Qed.

Lemma evaluate7_three_cards :
  Node.evaluate7 [JsStr "As"; JsStr "Kh"; JsStr "Qd"] = Returns None.
Proof. reflexivity. Qed.

(** C7. The rank lookup reads [RANK_IDX[rank]] on a plain object, so a
    rank prefix that names a member of [Object.prototype] is not
    [undefined]: the token ["constructors"] is not turned away, the
    object built for it carries the inherited member as its rank, and
    five such tokens pass the length guard of [evaluate7]. *)
Theorem parseCard_inherited_rank :
  Node.parseCard (JsStr "constructors")
    = Some (mkParsed (Inherited "constructor") (Own 0)) /\
  Node.evaluate7 (repeat (JsStr "constructors") 5) <> Returns None.
Proof.
  split; [reflexivity |]. vm_compute. discriminate.
Qed.

(* ================================================================== *)
(** * Sorting *)
(* ================================================================== *)

Section Sorting.

Context {A : Type}.
Variable cmp : A -> A -> Z.

Lemma insert_by_perm (x : A) (l : list A) :
  Permutation (insert_by cmp x l) (x :: l).
Proof.
  induction l as [| y l IH]; simpl; [reflexivity |].
  destruct (cmp x y <=? 0); [reflexivity |].
  rewrite IH. apply perm_swap.
Qed.

Lemma sort_by_perm (l : list A) : Permutation (sort_by cmp l) l.
Proof.
  induction l as [| x l IH]; simpl; [reflexivity |].
  rewrite insert_by_perm. now constructor.
Qed.

Lemma sort_by_length (l : list A) :
  List.length (sort_by cmp l) = List.length l.
Proof. apply Permutation_length, sort_by_perm. Qed.

(** Sorting commutes with a map that respects the comparators. *)
Lemma insert_by_map {B : Type} (cmp' : B -> B -> Z) (f : A -> B) :
  (forall a b, cmp' (f a) (f b) = cmp a b) ->
  forall x l, map f (insert_by cmp x l) = insert_by cmp' (f x) (map f l).
Proof.
  intros Hf x l. induction l as [| y l IH]; simpl; [reflexivity |].
  rewrite Hf. destruct (cmp x y <=? 0); simpl; [reflexivity |].
  now rewrite IH.
Qed.

Lemma sort_by_map {B : Type} (cmp' : B -> B -> Z) (f : A -> B) :
  (forall a b, cmp' (f a) (f b) = cmp a b) ->
  forall l, map f (sort_by cmp l) = sort_by cmp' (map f l).
Proof.
  intros Hf l. induction l as [| x l IH]; simpl; [reflexivity |].
  rewrite (insert_by_map cmp' f Hf). now rewrite IH.
Qed.

End Sorting.

(** On integers, two insertions in descending order commute, so the
    sorted list depends on the multiset only. *)
Lemma insert_desc_comm (x y : Z) (l : list Z) :
  insert_by desc x (insert_by desc y l) = insert_by desc y (insert_by desc x l).
Proof.
  unfold desc.
  induction l as [| z l IH]; simpl.
  - destruct (y - x <=? 0) eqn:E1, (x - y <=? 0) eqn:E2; try reflexivity;
      rewrite ?Z.leb_le, ?Z.leb_gt in *;
      [ assert (x = y) by lia; subst; reflexivity | lia ].
  - destruct (z - y <=? 0) eqn:E1, (z - x <=? 0) eqn:E2; simpl;
      destruct (y - x <=? 0) eqn:E3, (x - y <=? 0) eqn:E4; simpl;
      rewrite ?E1, ?E2, ?E3, ?E4; simpl;
      rewrite ?Z.leb_le, ?Z.leb_gt in *;
      try reflexivity; try lia;
      try (assert (x = y) by lia; subst; reflexivity);
      f_equal; exact IH.
Qed.

Lemma sort_desc_perm_eq (l l' : list Z) :
  Permutation l l' -> sort_by desc l = sort_by desc l'.
Proof.
  induction 1; simpl.
  - reflexivity.
  - now f_equal.
  - apply insert_desc_comm.
  - congruence.
Qed.

Lemma sorted_ranks (cs : list Card) :
  map rank (sort_by (fun a b => rank b - rank a) cs)
  = sort_by desc (map rank cs).
Proof. apply sort_by_map. reflexivity. Qed.

Lemma Set_size_perm (l l' : list Z) :
  Permutation l l' -> Set_size l = Set_size l'.
Proof.
  intros H. unfold Set_size. f_equal.
  apply Permutation_length, NoDup_Permutation; try apply NoDup_nodup.
  intros x. rewrite !nodup_In. split; apply Permutation_in; auto.
  now apply Permutation_sym.
Qed.

(** [evaluate5] reads its input through the sorted ranks and the set
    of suits only. *)
Lemma evaluate5_perm (cs cs' : list Card) :
  Permutation cs cs' -> Node.evaluate5 cs = Node.evaluate5 cs'.
Proof.
  intros H. unfold Node.evaluate5.
  rewrite !sorted_ranks.
  rewrite (sort_desc_perm_eq (map rank cs) (map rank cs'))
    by now apply Permutation_map.
  set (by_rank := fun a b : Card => rank b - rank a).
  rewrite (Set_size_perm (map suit (sort_by by_rank cs))
                         (map suit (sort_by by_rank cs'))).
  - reflexivity.
  - apply Permutation_map.
    rewrite !sort_by_perm. exact H.
Qed.

(* ================================================================== *)
(** * The rank-frequency table and the groups *)
(* ================================================================== *)

Lemma freq_incr_total (o : list (Z * Z)) (r : Z) :
  total (freq_incr o r) = total o + 1.
Proof.
  unfold total. induction o as [| [k v] o IH]; simpl; [lia |].
  destruct (k =? r); simpl; lia.
Qed.

Lemma freq_incr_get (o : list (Z * Z)) (r k : Z) :
  tally (freq_incr o r) k = tally o k + (if k =? r then 1 else 0).
Proof.
  unfold tally. induction o as [| [k' v] o IH]; simpl.
  - destruct (r =? k) eqn:E, (k =? r) eqn:E'; try lia;
      rewrite ?Z.eqb_eq, ?Z.eqb_neq in *; lia.
  - destruct (k' =? r) eqn:E; simpl.
    + apply Z.eqb_eq in E. subst k'.
      destruct (r =? k) eqn:E1, (k =? r) eqn:E2; try lia;
        rewrite ?Z.eqb_eq, ?Z.eqb_neq in *; lia.
    + destruct (k' =? k) eqn:E1.
      * apply Z.eqb_eq in E1. subst k'. rewrite E. lia.
      * exact IH.
Qed.

Lemma freq_incr_keys (o : list (Z * Z)) (r k : Z) :
  In k (map fst (freq_incr o r)) <-> k = r \/ In k (map fst o).
Proof.
  induction o as [| [k' v] o IH]; simpl.
  - intuition.
  - destruct (k' =? r) eqn:E; simpl.
    + apply Z.eqb_eq in E. subst k'. intuition.
    + rewrite IH. intuition.
Qed.

Lemma freq_incr_NoDup (o : list (Z * Z)) (r : Z) :
  NoDup (map fst o) -> NoDup (map fst (freq_incr o r)).
Proof.
  induction o as [| [k v] o IH]; simpl; intros H.
  - constructor; [intros [] | constructor].
  - inversion H as [| ? ? Hk Ho]; subst.
    destruct (k =? r) eqn:E; simpl.
    + now constructor.
    + constructor; [| now apply IH].
      rewrite freq_incr_keys. apply Z.eqb_neq in E. intuition.
Qed.

Lemma freq_fold (l : list Z) (acc : list (Z * Z)) :
  NoDup (map fst acc) ->
  let o := fold_left freq_incr l acc in
  NoDup (map fst o) /\
  total o = total acc + Z.of_nat (List.length l) /\
  forall k, tally o k = tally acc k + Z.of_nat (count_occ Z.eq_dec l k).
Proof.
  revert acc. induction l as [| r l IH]; intros acc H; simpl.
  - repeat split; [assumption | lia | intros; lia].
  - destruct (IH (freq_incr acc r) (freq_incr_NoDup acc r H))
      as (H1 & H2 & H3).
    repeat split; [assumption | rewrite H2, freq_incr_total; lia |].
    intros k. rewrite H3, freq_incr_get.
    destruct (Z.eq_dec r k) as [-> | Hn].
    + rewrite Z.eqb_refl. lia.
    + destruct (k =? r) eqn:E; [apply Z.eqb_eq in E; congruence | lia].
Qed.

Lemma freq_of_spec (l : list Z) :
  NoDup (map fst (freq_of l)) /\
  total (freq_of l) = Z.of_nat (List.length l) /\
  forall k, tally (freq_of l) k = Z.of_nat (count_occ Z.eq_dec l k).
Proof.
  destruct (freq_fold l [] (NoDup_nil _)) as (H1 & H2 & H3).
  repeat split; [exact H1 | exact H2 | exact H3].
Qed.

Lemma freq_get_In (o : list (Z * Z)) (k v : Z) :
  NoDup (map fst o) -> In (k, v) o -> freq_get o k = Some v.
Proof.
  induction o as [| [k' v'] o IH]; simpl; intros Hn Hin; [contradiction |].
  inversion Hn as [| ? ? Hk Ho]; subst.
  destruct Hin as [[= -> ->] | Hin].
  - now rewrite Z.eqb_refl.
  - destruct (k' =? k) eqn:E.
    + apply Z.eqb_eq in E. subst k'. exfalso. apply Hk.
      change k with (fst (k, v)). now apply in_map.
    + now apply IH.
Qed.

Lemma filter_split_perm {A : Type} (f : A -> bool) (l : list A) :
  Permutation (filter f l ++ filter (fun x => negb (f x)) l) l.
Proof.
  induction l as [| x l IH]; simpl; [reflexivity |].
  destruct (f x); simpl.
  - now constructor.
  - rewrite <- Permutation_middle. now constructor.
Qed.

Lemma Object_entries_perm (o : list (Z * Z)) :
  Permutation (Object_entries o) o.
Proof.
  unfold Object_entries. rewrite sort_by_perm. apply filter_split_perm.
Qed.

Lemma total_perm (o o' : list (Z * Z)) :
  Permutation o o' -> total o = total o'.
Proof.
  unfold total. induction 1; simpl; lia.
Qed.

Lemma map_entry_group (l : list (Z * Z)) :
  map entry_of (map group_of l) = l.
Proof.
  rewrite map_map. rewrite <- (map_id l) at 2.
  apply map_ext. now intros [k v].
Qed.

(** The groups are the entries of [freq] in a different order. *)
Lemma groups_of_perm (ranks : list Z) :
  Permutation (map entry_of (Node.groups_of ranks)) (freq_of ranks).
Proof.
  unfold Node.groups_of.
  change (fun e : Z * Z => mkGroup (fst e) (snd e)) with group_of.
  rewrite map_entry_group, sort_by_perm. apply Object_entries_perm.
Qed.

Lemma groups_of_total (ranks : list Z) :
  total (map entry_of (Node.groups_of ranks)) = Z.of_nat (List.length ranks).
Proof.
  rewrite (total_perm _ _ (groups_of_perm ranks)).
  apply freq_of_spec.
Qed.

(** The count of a group is the number of cards of its rank. *)
Lemma groups_of_count (ranks : list Z) (g : Group) :
  In g (Node.groups_of ranks) ->
  count g = Z.of_nat (count_occ Z.eq_dec ranks (g_rank g)).
Proof.
  intros H.
  assert (Hin : In (entry_of g) (freq_of ranks)).
  { apply (Permutation_in _ (groups_of_perm ranks)). now apply in_map. }
  destruct (freq_of_spec ranks) as (Hn & _ & Ht).
  specialize (Ht (g_rank g)). unfold tally in Ht.
  rewrite (freq_get_In _ _ _ Hn Hin) in Ht. exact Ht.
Qed.

(** With five cards the group list is never short where [evaluate5]
    reads it: there is a first group, and a second one whenever the
    first holds three or two cards. *)
Lemma groups_of_five (ranks : list Z) :
  List.length ranks = 5%nat ->
  exists g0 rest,
    Node.groups_of ranks = g0 :: rest /\
    (count g0 <> 5 -> exists g1 rest', rest = g1 :: rest').
Proof.
  intros H. pose proof (groups_of_total ranks) as Ht. rewrite H in Ht.
  destruct (Node.groups_of ranks) as [| g0 rest].
  - unfold total in Ht. simpl in Ht. lia.
  - exists g0, rest. split; [reflexivity |].
    intros Hc. destruct rest as [| g1 rest']; [| eauto].
    unfold total in Ht. simpl in Ht. lia.
Qed.

Lemma Set_size_NoDup (l : list Z) :
  Set_size l = Z.of_nat (List.length l) <-> NoDup l.
Proof.
  unfold Set_size. split; intros H.
  - apply (@NoDup_incl_NoDup Z (nodup Z.eq_dec l) l).
    + apply NoDup_nodup.
    + lia.
    + intros x. apply nodup_In.
  - now rewrite nodup_fixed_point.
Qed.

(** With all ranks distinct every group holds one card. *)
Lemma groups_of_distinct (ranks : list Z) (g : Group) :
  NoDup ranks -> In g (Node.groups_of ranks) -> count g <= 1.
Proof.
  intros Hn Hg. rewrite (groups_of_count ranks g Hg).
  pose proof (proj1 (NoDup_count_occ Z.eq_dec ranks) Hn (g_rank g)). lia.
Qed.

(* ================================================================== *)
(** * The 5-card classifier *)
(* ================================================================== *)

Lemma insert_desc_HdRel (y x : Z) (l : list Z) :
  x <= y -> HdRel geZ y l -> HdRel geZ y (insert_by desc x l).
Proof.
  intros Hxy Hl. destruct l as [| z l]; simpl.
  - now constructor.
  - destruct (desc x z <=? 0); constructor; [exact Hxy |].
    now inversion Hl.
Qed.

Lemma insert_desc_sorted (x : Z) (l : list Z) :
  Sorted geZ l -> Sorted geZ (insert_by desc x l).
Proof.
  induction 1 as [| y l Hs IH Hh]; simpl.
  - repeat constructor.
  - destruct (desc x y <=? 0) eqn:E; unfold desc in E.
    + apply Z.leb_le in E. repeat constructor; auto. unfold geZ. lia.
    + apply Z.leb_gt in E. constructor; [exact IH |].
      apply insert_desc_HdRel; [lia | exact Hh].
Qed.

Lemma sort_desc_sorted (l : list Z) : Sorted geZ (sort_by desc l).
Proof.
  induction l as [| x l IH]; simpl; [constructor |].
  now apply insert_desc_sorted.
Qed.

(** The sorted ranks of five cards. *)
Lemma ranks_of_five (cs : list Card) :
  List.length cs = 5%nat ->
  exists r0 r1 r2 r3 r4,
    sort_by desc (map rank cs) = [r0; r1; r2; r3; r4] /\
    r1 <= r0 /\ r2 <= r1 /\ r3 <= r2 /\ r4 <= r3.
Proof.
  intros H.
  pose proof (sort_desc_sorted (map rank cs)) as Hs.
  pose proof (sort_by_length desc (map rank cs)) as Hl.
  rewrite length_map, H in Hl.
  destruct (sort_by desc (map rank cs))
    as [| r0 [| r1 [| r2 [| r3 [| r4 [| r5 l]]]]]]; try discriminate.
  exists r0, r1, r2, r3, r4. split; [reflexivity |].
  repeat match goal with
         | Hs : Sorted _ (_ :: _) |- _ => inversion_clear Hs
         | Hh : HdRel _ _ (_ :: _) |- _ => inversion_clear Hh
         end.
  unfold geZ in *. lia.
Qed.

Lemma NoDup_five (r0 r1 r2 r3 r4 : Z) :
  r1 <= r0 -> r2 <= r1 -> r3 <= r2 -> r4 <= r3 ->
  (NoDup [r0; r1; r2; r3; r4] <-> r1 < r0 /\ r2 < r1 /\ r3 < r2 /\ r4 < r3).
Proof.
  intros H1 H2 H3 H4. split.
  - intros Hn.
    repeat match goal with
           | Hn : NoDup (_ :: _) |- _ => inversion_clear Hn
           end.
    simpl in *. lia.
  - intros Hlt. repeat constructor; simpl; lia.
Qed.

(** [isFlush] is the specification's "all five suits identical". *)
Lemma nodup_const (x : Z) (l : list Z) :
  (forall y, In y l -> y = x) -> l <> [] -> nodup Z.eq_dec l = [x].
Proof.
  induction l as [| y l IH]; intros Hall Hne; [contradiction |].
  assert (y = x) by (apply Hall; now left). subst y.
  simpl. destruct (in_dec Z.eq_dec x l) as [Hin | Hnin].
  - apply IH; [intros z Hz; apply Hall; now right |].
    intros ->. contradiction.
  - destruct l as [| z l]; [reflexivity |].
    exfalso. apply Hnin. left. apply Hall. right. now left.
Qed.

Lemma isFlush_spec (cs : list Card) :
  cs <> [] ->
  ((Set_size (map suit cs) =? 1) = true <-> all_same_suit cs).
Proof.
  intros Hne. rewrite Z.eqb_eq. unfold Set_size, all_same_suit. split.
  - intros H c c' Hc Hc'.
    destruct (nodup Z.eq_dec (map suit cs)) as [| x [| y l]] eqn:E;
      simpl in H; try lia.
    assert (Hx : forall d, In d cs -> suit d = x).
    { intros d Hd.
      assert (Hin : In (suit d) (nodup Z.eq_dec (map suit cs)))
        by (apply nodup_In; now apply in_map).
      rewrite E in Hin. simpl in Hin. intuition. }
    now rewrite (Hx c Hc), (Hx c' Hc').
  - intros H. destruct cs as [| c cs]; [contradiction |].
    rewrite (nodup_const (suit c)); [reflexivity | | discriminate].
    intros y Hy. apply in_map_iff in Hy. destruct Hy as (d & <- & Hd).
    apply H; [exact Hd | now left].
Qed.

(** The straight detection, against the specification's two shapes. *)
Lemma straight_of_spec (cs : list Card) (h : Z) :
  List.length cs = 5%nat ->
  let ranks := sort_by desc (map rank cs) in
  Node.straight_of ranks (Set_size ranks) = (true, h) <-> straight_shape cs h.
Proof.
  intros Hlen ranks.
  destruct (ranks_of_five cs Hlen) as (r0 & r1 & r2 & r3 & r4 & Er & Hs).
  assert (Hp : Permutation ranks (map rank cs)) by apply sort_by_perm.
  assert (Hin : forall r, In r (map rank cs) <->
                          r = r0 \/ r = r1 \/ r = r2 \/ r = r3 \/ r = r4).
  { intros r. split; intros H.
    - apply (Permutation_in _ (Permutation_sym Hp)) in H.
      unfold ranks in H. rewrite Er in H. simpl in H. intuition.
    - apply (Permutation_in _ Hp). unfold ranks. rewrite Er. simpl. intuition. }
  assert (Hnd : NoDup (map rank cs) <-> Set_size ranks = 5).
  { rewrite <- (Permutation_NoDup' Hp).
    rewrite <- Set_size_NoDup. unfold ranks. rewrite Er. simpl. reflexivity. }
  assert (Hnd5 : NoDup (map rank cs) <->
                 r1 < r0 /\ r2 < r1 /\ r3 < r2 /\ r4 < r3).
  { rewrite <- (Permutation_NoDup' Hp). unfold ranks. rewrite Er.
    apply NoDup_five; lia. }
  unfold straight_shape, Node.straight_of.
  fold ranks in Er. rewrite Er in *. clear Hp.
  split.
  - intros H.
    destruct (Set_size [r0; r1; r2; r3; r4] =? 5) eqn:E5; [| discriminate].
    apply Z.eqb_eq in E5. split; [now apply Hnd |].
    destruct ((r0 =? 12) && (r1 =? 3) && (r2 =? 2) && (r3 =? 1) && (r4 =? 0))
      eqn:Ew.
    + right. injection H as <-.
      repeat (apply andb_prop in Ew; destruct Ew as [Ew ?]).
      repeat match goal with
             | E : (_ =? _) = true |- _ => apply Z.eqb_eq in E
             end. subst.
      split; [| reflexivity].
      rewrite <- Er. apply Permutation_sym, sort_by_perm.
    + left. destruct (r0 - r4 =? 4) eqn:E4; [| discriminate].
      injection H as <-. apply Z.eqb_eq in E4.
      exists r0, r4. unfold is_highest, is_lowest.
      repeat split; try (apply Hin; intuition); try exact E4;
        intros r Hr; apply Hin in Hr; lia.
  - intros [Hn [(hi & lo & [Hhi Hmax] & [Hlo Hmin] & Hd & ->) | [Hw ->]]].
    + apply Hnd in Hn. rewrite Hn. simpl (5 =? 5).
      apply Hin in Hhi. apply Hin in Hlo.
      assert (r0 <= hi) by (apply Hmax, Hin; intuition).
      assert (lo <= r4) by (apply Hmin, Hin; intuition).
      assert (hi = r0) by lia. assert (lo = r4) by lia. subst hi lo.
      destruct ((r0 =? 12) && (r1 =? 3) && (r2 =? 2) && (r3 =? 1) && (r4 =? 0))
        eqn:Ew.
      * repeat (apply andb_prop in Ew; destruct Ew as [Ew ?]).
        repeat match goal with
               | E : (_ =? _) = true |- _ => apply Z.eqb_eq in E
               end. lia.
      * apply Z.eqb_eq in Hd. now rewrite Hd.
    + apply Hnd in Hn. rewrite Hn. simpl (5 =? 5).
      apply sort_desc_perm_eq in Hw.
      change (sort_by desc (map rank cs)) with ranks in Hw.
      rewrite Er in Hw. simpl in Hw.
      injection Hw as -> -> -> -> ->. reflexivity.
Qed.

(** Rewrite [evaluate5 cs] so that it reads the sorted ranks and the
    suits of [cs] themselves. *)
Ltac open_evaluate5 cs :=
  unfold Node.evaluate5;
  rewrite (sorted_ranks cs);
  rewrite (Set_size_perm
             (map suit (sort_by (fun a b : Card => rank b - rank a) cs))
             (map suit cs))
    by (apply Permutation_map, sort_by_perm).

Lemma five_nonempty (cs : list Card) : List.length cs = 5%nat -> cs <> [].
Proof. now destruct cs. Qed.

(** First branch: a flush that is a straight. *)
Lemma evaluate5_straight_flush (cs : list Card) (h : Z) :
  List.length cs = 5%nat -> all_same_suit cs -> straight_shape cs h ->
  Node.evaluate5 cs
  = Returns (mkHand Node.HAND_RANK.STRAIGHT_FLUSH [h]
               (if h =? 12 then "Royal Flush" else "Straight Flush")).
Proof.
  intros Hlen Hf Hs. open_evaluate5 cs.
  apply (straight_of_spec cs h Hlen) in Hs. rewrite Hs.
  apply (isFlush_spec cs (five_nonempty cs Hlen)) in Hf. rewrite Hf.
  reflexivity.
Qed.

(** Fifth branch: a straight that is not a flush.  The two branches
    before it need a group of four or three cards, and five distinct
    ranks leave one card per group. *)
Lemma evaluate5_straight (cs : list Card) (h : Z) :
  List.length cs = 5%nat -> ~ all_same_suit cs -> straight_shape cs h ->
  Node.evaluate5 cs
  = Returns (mkHand Node.HAND_RANK.STRAIGHT [h] "Straight").
Proof.
  intros Hlen Hf Hs.
  assert (Hnd : NoDup (sort_by desc (map rank cs))).
  { apply (Permutation_NoDup' (sort_by_perm desc (map rank cs))).
    exact (proj1 Hs). }
  open_evaluate5 cs.
  apply (straight_of_spec cs h Hlen) in Hs. rewrite Hs.
  destruct (Set_size (map suit cs) =? 1) eqn:Ef.
  - apply (isFlush_spec cs (five_nonempty cs Hlen)) in Ef. contradiction.
  - simpl.
    pose proof (groups_of_distinct (sort_by desc (map rank cs))) as Hc.
    specialize (fun g => Hc g Hnd).
    destruct (groups_of_five (sort_by desc (map rank cs)))
      as (g0 & rest & Eg & _);
      [now rewrite sort_by_length, length_map |].
    rewrite Eg in *.
    assert (H0 : count g0 <= 1) by (apply Hc; now left).
    destruct (count g0 =? 4) eqn:E4; [apply Z.eqb_eq in E4; lia |].
    destruct (count g0 =? 3) eqn:E3; [apply Z.eqb_eq in E3; lia |].
    reflexivity.
Qed.

(** Five cards always classify: [evaluate5] returns, the category is one
    of the nine, and a straight category is only reported for one of the
    two straight shapes. *)
Lemma evaluate5_returns (cs : list Card) :
  List.length cs = 5%nat ->
  exists e,
    Node.evaluate5 cs = Returns e /\
    0 <= hrank e <= 8 /\
    (hrank e = Node.HAND_RANK.STRAIGHT \/
     hrank e = Node.HAND_RANK.STRAIGHT_FLUSH ->
     exists h, straight_shape cs h /\ tiebreaker e = [h]).
Proof.
  intros Hlen.
  pose proof (fun h => straight_of_spec cs h Hlen) as Hspec.
  cbv zeta in Hspec.
  open_evaluate5 cs.
  destruct (Node.straight_of _ _) as [b h] eqn:Es.
  destruct (groups_of_five (sort_by desc (map rank cs)))
    as (g0 & rest & Eg & Hsec);
    [now rewrite sort_by_length, length_map |].
  rewrite Eg.
  assert (Hst : b = true -> straight_shape cs h)
    by (intros ->; now apply Hspec).
  assert (Hrest : rest = [] -> count g0 = 5).
  { intros ->. destruct (Z.eq_dec (count g0) 5) as [E | E]; [exact E |].
    destruct (Hsec E) as (? & ? & [=]). }
  unfold Node.and_second.
  destruct (Set_size (map suit cs) =? 1), b; simpl;
    try (eexists; split; [reflexivity |]; simpl;
         split; [unfold Node.HAND_RANK.STRAIGHT_FLUSH; lia |];
         intros _; exists h; split; [now apply Hst | reflexivity]);
    destruct (count g0 =? 4) eqn:E4;
    try (eexists; split; [reflexivity |]; simpl;
         split; [unfold Node.HAND_RANK.FOUR_OF_A_KIND; lia |];
         intros [? | ?]; discriminate);
    (destruct rest as [| g1 rest'];
     [ rewrite (Hrest eq_refl); simpl
     | destruct (count g0 =? 3) eqn:E3;
       [ destruct (count g1 =? 2) |];
       try (destruct (count g0 =? 2) eqn:E2;
            [ destruct (count g1 =? 2) |]) ]);
    eexists; (split; [reflexivity |]); simpl;
    (split; [cbv; split; discriminate |]);
    try (intros [? | ?]; discriminate);
    intros _; exists h; (split; [now apply Hst | reflexivity]).
Qed.

(** C5. Five valid cards always classify into one of the nine
    categories 0..8, and the whole result (category, tiebreaker and
    name) is the same for every ordering of the same five cards. *)
Theorem classify_permutation_invariant (cs cs' : list Card) :
  List.length cs = 5%nat -> Forall valid_card cs -> Permutation cs cs' ->
  exists e,
    Node.evaluate5 cs = Returns e /\
    Node.evaluate5 cs' = Returns e /\
    In (hrank e) [0; 1; 2; 3; 4; 5; 6; 7; 8].
Proof.
  intros Hlen _ Hp.
  destruct (evaluate5_returns cs Hlen) as (e & He & Hr & _).
  exists e. split; [exact He |]. split.
  - now rewrite <- (evaluate5_perm cs cs' Hp).
  - simpl. lia.
Qed.

Lemma classify_permutation_invariant_witness :
  exists e,
    Node.evaluate5 [mkCard 12 1; mkCard 12 2; mkCard 0 0; mkCard 0 3; mkCard 5 1]
      = Returns e /\
    Node.evaluate5 [mkCard 5 1; mkCard 0 3; mkCard 12 2; mkCard 0 0; mkCard 12 1]
      = Returns e /\
    In (hrank e) [0; 1; 2; 3; 4; 5; 6; 7; 8].
Proof.
  apply classify_permutation_invariant.
  - reflexivity.
  - repeat constructor; simpl; lia.
  - apply Permutation_sym.
    apply (perm_trans (l' := [mkCard 12 1; mkCard 5 1; mkCard 0 3;
                              mkCard 12 2; mkCard 0 0])).
    + change (Permutation ([mkCard 5 1; mkCard 0 3; mkCard 12 2; mkCard 0 0]
                           ++ [mkCard 12 1])
                          ([mkCard 12 1] ++ [mkCard 5 1; mkCard 0 3;
                                             mkCard 12 2; mkCard 0 0])).
      apply Permutation_app_comm.
    + constructor.
      change (Permutation ([mkCard 5 1; mkCard 0 3]
                           ++ [mkCard 12 2; mkCard 0 0])
                          ([mkCard 12 2; mkCard 0 0]
                           ++ [mkCard 0 3; mkCard 5 1])).
      rewrite Permutation_app_comm. apply Permutation_app_head.
      apply perm_swap.
Defined.

(** C2. Straight detection over five valid cards.  A straight category
    (Straight or StraightFlush) is reported exactly for the two shapes
    of [straight_shape]: all five ranks distinct and either highest
    minus lowest equal to 4, with the highest rank as straight-high, or
    the ranks A,5,4,3,2, with straight-high 3; the tiebreaker is the
    straight-high alone.  The wheel 5s 4h 3d 2c As is a Straight with
    tiebreaker [3]. *)
Theorem straight_detection (cs : list Card) :
  List.length cs = 5%nat -> Forall valid_card cs ->
  (forall h, straight_shape cs h ->
     exists e, Node.evaluate5 cs = Returns e /\
               (hrank e = Node.HAND_RANK.STRAIGHT \/
                hrank e = Node.HAND_RANK.STRAIGHT_FLUSH) /\
               tiebreaker e = [h]) /\
  (forall e, Node.evaluate5 cs = Returns e ->
     hrank e = Node.HAND_RANK.STRAIGHT \/
     hrank e = Node.HAND_RANK.STRAIGHT_FLUSH ->
     exists h, straight_shape cs h /\ tiebreaker e = [h]) /\
  classify_tokens ["5s"; "4h"; "3d"; "2c"; "As"]%string
  = Returns (mkHand Node.HAND_RANK.STRAIGHT [3] "Straight").
Proof.
  intros Hlen _. split; [| split].
  - intros h Hs.
    destruct (Set_size (map suit cs) =? 1) eqn:Ef.
    + apply (isFlush_spec cs (five_nonempty cs Hlen)) in Ef.
      eexists. split; [apply (evaluate5_straight_flush cs h); assumption |].
      split; [now right | reflexivity].
    + assert (Hnf : ~ all_same_suit cs).
      { intros Hf. apply (isFlush_spec cs (five_nonempty cs Hlen)) in Hf.
        congruence. }
      eexists. split; [apply (evaluate5_straight cs h); assumption |].
      split; [now left | reflexivity].
  - intros e He Hcat.
    destruct (evaluate5_returns cs Hlen) as (e' & He' & _ & Hst).
    rewrite He in He'. injection He' as <-. now apply Hst.
  - reflexivity.
Qed.

Lemma straight_detection_witness :
  exists e,
    Node.evaluate5 [mkCard 7 0; mkCard 5 1; mkCard 6 1; mkCard 4 3; mkCard 3 2]
      = Returns e /\
    (hrank e = Node.HAND_RANK.STRAIGHT \/
     hrank e = Node.HAND_RANK.STRAIGHT_FLUSH) /\
    tiebreaker e = [7].
Proof.
  apply (straight_detection
           [mkCard 7 0; mkCard 5 1; mkCard 6 1; mkCard 4 3; mkCard 3 2]).
  - reflexivity.
  - repeat constructor; simpl; lia.
  - split.
    + repeat constructor; simpl; lia.
    + left. exists 7, 3. unfold is_highest, is_lowest. simpl.
      repeat split; try lia; intuition lia.
Defined.

(** C3. Five valid cards that are a flush (all suits identical) and a
    straight classify as StraightFlush, never as Flush or Straight, with
    the straight-high as the only tiebreaker entry; the name is "Royal
    Flush" exactly when the straight-high is 12 and "Straight Flush"
    otherwise.  As Ks Qs Js Ts is a StraightFlush with tiebreaker [12]
    named "Royal Flush". *)
Theorem straight_flush_precedence (cs : list Card) (h : Z) :
  List.length cs = 5%nat -> Forall valid_card cs ->
  all_same_suit cs -> straight_shape cs h ->
  (exists e,
     Node.evaluate5 cs = Returns e /\
     hrank e = Node.HAND_RANK.STRAIGHT_FLUSH /\
     tiebreaker e = [h] /\
     (name e = "Royal Flush"%string <-> h = 12) /\
     (name e = "Straight Flush"%string <-> h <> 12)) /\
  classify_tokens ["As"; "Ks"; "Qs"; "Js"; "Ts"]%string
  = Returns (mkHand Node.HAND_RANK.STRAIGHT_FLUSH [12] "Royal Flush").
Proof.
  intros Hlen _ Hf Hs. split; [| reflexivity].
  eexists. split; [apply (evaluate5_straight_flush cs h); assumption |].
  simpl. repeat split; try reflexivity;
    destruct (h =? 12) eqn:E;
    rewrite ?Z.eqb_eq, ?Z.eqb_neq in E; intros; try congruence;
    try discriminate.
Qed.

Lemma straight_flush_precedence_witness :
  (exists e,
     Node.evaluate5 [mkCard 3 2; mkCard 2 2; mkCard 1 2; mkCard 0 2; mkCard 12 2]
       = Returns e /\
     hrank e = Node.HAND_RANK.STRAIGHT_FLUSH /\
     tiebreaker e = [3] /\
     (name e = "Royal Flush"%string <-> 3 = 12) /\
     (name e = "Straight Flush"%string <-> 3 <> 12)) /\
  classify_tokens ["As"; "Ks"; "Qs"; "Js"; "Ts"]%string
  = Returns (mkHand Node.HAND_RANK.STRAIGHT_FLUSH [12] "Royal Flush").
Proof.
  apply (straight_flush_precedence
           [mkCard 3 2; mkCard 2 2; mkCard 1 2; mkCard 0 2; mkCard 12 2] 3).
  - reflexivity.
  - repeat constructor; simpl; lia.
  - intros c c' Hc Hc'. simpl in Hc, Hc'.
    repeat (destruct Hc as [<- | Hc]; [| ]);
      repeat (destruct Hc' as [<- | Hc']; [| ]);
      try reflexivity; contradiction.
  - split.
    + repeat constructor; simpl; lia.
    + right. split; [| reflexivity].
      change (Permutation ([3; 2; 1; 0] ++ [12]) ([12] ++ [3; 2; 1; 0])).
      apply Permutation_app_comm.
Defined.

(* ================================================================== *)
(** * The comparator *)
(* ================================================================== *)

Lemma tb_at_beyond (t : list Z) (i : nat) :
  (List.length t <= i)%nat -> tb_at t i = -1.
Proof.
  intros H. unfold tb_at.
  now rewrite (proj2 (nth_error_None t i) H).
Qed.

Lemma compare_from_antisym (a b : list Z) (i n : nat) :
  Node.compare_from a b i n = - Node.compare_from b a i n.
Proof.
  revert i. induction n as [| n IH]; intros i; simpl; [reflexivity |].
  rewrite (Z.eqb_sym (tb_at b i)).
  destruct (tb_at a i =? tb_at b i); simpl; [apply IH | lia].
Qed.

(** The loop stops at the first index where the two entries differ. *)
Lemma compare_from_pos (a b : list Z) (i n : nat) :
  Node.compare_from a b i n > 0 <->
  exists j, (i <= j < i + n)%nat /\
            (forall k, (i <= k < j)%nat -> tb_at a k = tb_at b k) /\
            tb_at b j < tb_at a j.
Proof.
  revert i. induction n as [| n IH]; intros i; simpl.
  - split; [lia |]. intros (j & Hj & _). lia.
  - destruct (tb_at a i =? tb_at b i) eqn:E; simpl.
    + apply Z.eqb_eq in E. rewrite IH. split.
      * intros (j & Hj & Hpre & Hgt). exists j.
        repeat split; try lia.
        intros k Hk. destruct (Nat.eq_dec k i) as [-> | Hne];
          [exact E | apply Hpre; lia].
      * intros (j & Hj & Hpre & Hgt).
        destruct (Nat.eq_dec j i) as [-> | Hne]; [lia |].
        exists j. repeat split; try lia.
        intros k Hk. apply Hpre. lia.
    + apply Z.eqb_neq in E. split.
      * intros Hgt. exists i. repeat split; try lia.
      * intros (j & Hj & Hpre & Hgt).
        destruct (Nat.eq_dec j i) as [-> | Hne]; [lia |].
        exfalso. apply E, Hpre. lia.
Qed.

Lemma compare_from_zero (a b : list Z) (i n : nat) :
  Node.compare_from a b i n = 0 <->
  forall k, (i <= k < i + n)%nat -> tb_at a k = tb_at b k.
Proof.
  revert i. induction n as [| n IH]; intros i; simpl.
  - split; [intros _ k Hk; lia | reflexivity].
  - destruct (tb_at a i =? tb_at b i) eqn:E; simpl.
    + apply Z.eqb_eq in E. rewrite IH. split; intros H k Hk.
      * destruct (Nat.eq_dec k i) as [-> | Hne]; [exact E | apply H; lia].
      * apply H. lia.
    + apply Z.eqb_neq in E. split.
      * intros H. lia.
      * intros H. exfalso. apply E, H. lia.
Qed.

Lemma compare_tb_pos (a b : list Z) : compare_tb a b > 0 <-> lex_gt a b.
Proof.
  unfold compare_tb, lex_gt. rewrite compare_from_pos. split.
  - intros (j & _ & Hpre & Hgt). exists j. split; [| exact Hgt].
    intros k Hk. apply Hpre. lia.
  - intros (j & Hpre & Hgt). exists j. repeat split; try lia.
    + destruct (Nat.lt_ge_cases j (Nat.max (List.length a) (List.length b)))
        as [Hlt | Hge]; [lia |].
      rewrite (tb_at_beyond a j), (tb_at_beyond b j) in Hgt; lia.
    + intros k Hk. apply Hpre. lia.
Qed.

Lemma compare_tb_zero (a b : list Z) : compare_tb a b = 0 <-> lex_eq a b.
Proof.
  unfold compare_tb, lex_eq. rewrite compare_from_zero. split.
  - intros H j.
    destruct (Nat.lt_ge_cases j (Nat.max (List.length a) (List.length b)))
      as [Hlt | Hge]; [apply H; lia |].
    rewrite (tb_at_beyond a j), (tb_at_beyond b j); lia.
  - intros H k _. apply H.
Qed.

Lemma compare_tb_antisym (a b : list Z) : compare_tb a b = - compare_tb b a.
Proof.
  unfold compare_tb. rewrite (Nat.max_comm (List.length a)).
  apply compare_from_antisym.
Qed.

Lemma compare_tb_nonneg (a b : list Z) :
  compare_tb a b >= 0 <-> lex_gt a b \/ lex_eq a b.
Proof.
  rewrite <- compare_tb_pos, <- compare_tb_zero. lia.
Qed.

Lemma lex_eq_trans (a b c : list Z) : lex_eq a b -> lex_eq b c -> lex_eq a c.
Proof. unfold lex_eq. intros H1 H2 j. now rewrite H1. Qed.

Lemma lex_gt_eq (a b c : list Z) : lex_gt a b -> lex_eq b c -> lex_gt a c.
Proof.
  intros (j & Hpre & Hgt) He. exists j. split.
  - intros k Hk. now rewrite Hpre, He.
  - now rewrite <- He.
Qed.

Lemma lex_eq_gt (a b c : list Z) : lex_eq a b -> lex_gt b c -> lex_gt a c.
Proof.
  intros He (j & Hpre & Hgt). exists j. split.
  - intros k Hk. now rewrite He, Hpre.
  - now rewrite He.
Qed.

Lemma lex_gt_trans (a b c : list Z) : lex_gt a b -> lex_gt b c -> lex_gt a c.
Proof.
  intros (j1 & Hp1 & Hg1) (j2 & Hp2 & Hg2).
  destruct (Nat.lt_trichotomy j1 j2) as [Hlt | [-> | Hgt]].
  - exists j1. split.
    + intros k Hk. rewrite Hp1, Hp2; [reflexivity | lia | lia].
    + rewrite <- (Hp2 j1 Hlt). exact Hg1.
  - exists j2. split.
    + intros k Hk. rewrite Hp1, Hp2; [reflexivity | lia | lia].
    + lia.
  - exists j2. split.
    + intros k Hk. rewrite Hp1, Hp2; [reflexivity | lia | lia].
    + rewrite (Hp1 j2 Hgt). exact Hg2.
Qed.

Lemma compareHands_eq (a b : HandEvaluation) :
  Node.compareHands a b
  = if hrank a =? hrank b then compare_tb (tiebreaker a) (tiebreaker b)
    else hrank a - hrank b.
Proof.
  unfold Node.compareHands, compare_tb.
  now destruct (hrank a =? hrank b).
Qed.

Lemma compareHands_antisym (a b : HandEvaluation) :
  Node.compareHands a b = - Node.compareHands b a.
Proof.
  rewrite !compareHands_eq, (Z.eqb_sym (hrank b)).
  destruct (hrank a =? hrank b); [apply compare_tb_antisym | lia].
Qed.

Lemma compareHands_refl (x : HandEvaluation) : Node.compareHands x x = 0.
Proof. pose proof (compareHands_antisym x x). lia. Qed.

(** The two transitivity laws the maximum search rests on. *)
Lemma compareHands_trans_gt_ge (a b c : HandEvaluation) :
  Node.compareHands a b > 0 -> Node.compareHands b c >= 0 ->
  Node.compareHands a c > 0.
Proof.
  rewrite !compareHands_eq.
  destruct (hrank a =? hrank b) eqn:E1, (hrank b =? hrank c) eqn:E2,
           (hrank a =? hrank c) eqn:E3;
    rewrite ?Z.eqb_eq, ?Z.eqb_neq in *; try lia.
  rewrite compare_tb_pos, compare_tb_nonneg, compare_tb_pos.
  intros H1 [H2 | H2]; [eapply lex_gt_trans | eapply lex_gt_eq]; eauto.
Qed.

Lemma compareHands_trans_ge (a b c : HandEvaluation) :
  Node.compareHands a b >= 0 -> Node.compareHands b c >= 0 ->
  Node.compareHands a c >= 0.
Proof.
  rewrite !compareHands_eq.
  destruct (hrank a =? hrank b) eqn:E1, (hrank b =? hrank c) eqn:E2,
           (hrank a =? hrank c) eqn:E3;
    rewrite ?Z.eqb_eq, ?Z.eqb_neq in *; try lia.
  rewrite !compare_tb_nonneg.
  intros [H1 | H1] [H2 | H2];
    [ left; eapply lex_gt_trans | left; eapply lex_gt_eq
    | left; eapply lex_eq_gt | right; eapply lex_eq_trans ]; eauto.
Qed.

(** C4. [compareHands] orders hand evaluations: it is reflexive
    ([compareHands x x] is 0), antisymmetric (swapping the arguments
    negates the sign), transitive, decided by the category difference
    when the categories differ, and otherwise by the lexicographic
    comparison of the tiebreakers in which a missing entry reads -1,
    below every rank 0..12. *)
Theorem compareHands_total_order :
  (forall x, Node.compareHands x x = 0) /\
  (forall a b, Z.sgn (Node.compareHands a b)
               = - Z.sgn (Node.compareHands b a)) /\
  (forall a b c, Node.compareHands a b > 0 -> Node.compareHands b c > 0 ->
                 Node.compareHands a c > 0) /\
  (forall a b, hrank a <> hrank b ->
               Node.compareHands a b = hrank a - hrank b) /\
  (forall a b, hrank a = hrank b ->
     (Node.compareHands a b > 0 <-> lex_gt (tiebreaker a) (tiebreaker b)) /\
     (Node.compareHands a b = 0 <-> lex_eq (tiebreaker a) (tiebreaker b)) /\
     (Node.compareHands a b < 0 <-> lex_gt (tiebreaker b) (tiebreaker a))) /\
  (forall t i r, (List.length t <= i)%nat -> 0 <= r <= 12 ->
                 tb_at t i = -1 /\ tb_at t i < r).
Proof.
  repeat split.
  - apply compareHands_refl.
  - intros a b. rewrite (compareHands_antisym a b). apply Z.sgn_opp.
  - intros a b c H1 H2. apply (compareHands_trans_gt_ge a b c); lia.
  - intros a b H. rewrite compareHands_eq.
    apply Z.eqb_neq in H. now rewrite H.
  - rewrite compareHands_eq. apply Z.eqb_eq in H. rewrite H.
    apply compare_tb_pos.
  - rewrite compareHands_eq. apply Z.eqb_eq in H. rewrite H.
    apply compare_tb_pos.
  - rewrite compareHands_eq. apply Z.eqb_eq in H. rewrite H.
    apply compare_tb_zero.
  - rewrite compareHands_eq. apply Z.eqb_eq in H. rewrite H.
    apply compare_tb_zero.
  - rewrite compareHands_eq. apply Z.eqb_eq in H. rewrite H.
    rewrite compare_tb_antisym. intros Hlt. apply compare_tb_pos. lia.
  - rewrite compareHands_eq. apply Z.eqb_eq in H. rewrite H.
    rewrite compare_tb_antisym. intros Hlt. apply compare_tb_pos in Hlt. lia.
  - now apply tb_at_beyond.
  - rewrite tb_at_beyond by assumption. lia.
Qed.

Lemma compareHands_total_order_witness :
  Node.compareHands (mkHand 3 [12; 1; 0] "Three of a Kind")
                    (mkHand 3 [11] "Three of a Kind") > 0.
Proof.
  destruct compareHands_total_order as (_ & _ & Ht & _).
  apply (Ht _ (mkHand 3 [11; 1; 0] "Three of a Kind") _); reflexivity.
Defined.

(* ================================================================== *)
(** * The best-hand selector *)
(* ================================================================== *)

Section Loops.

Context {St : Type}.

Lemma for_loop_run (body : nat -> St -> Outcome St) (i n : nat) (s : St) :
  for_loop i n body s = run body (seq i n) s.
Proof.
  revert i s. induction n as [| n IH]; intros i s; simpl; [reflexivity |].
  destruct (body i s); auto.
Qed.

Lemma run_ext {X : Type} (f g : X -> St -> Outcome St) (xs : list X) (s : St) :
  (forall x s, f x s = g x s) -> run f xs s = run g xs s.
Proof.
  intros H. revert s. induction xs as [| x xs IH]; intros s; simpl;
    [reflexivity |].
  rewrite H. destruct (g x s); auto.
Qed.

Lemma run_app {X : Type} (body : X -> St -> Outcome St) (xs ys : list X)
      (s : St) :
  run body (xs ++ ys) s
  = match run body xs s with
    | Returns s' => run body ys s'
    | Throws => Throws
    | Unspecified => Unspecified
    end.
Proof.
  revert s. induction xs as [| x xs IH]; intros s; simpl; [reflexivity |].
  destruct (body x s); auto.
Qed.

Lemma run_flat_map {X Y : Type} (body : Y -> St -> Outcome St)
      (g : X -> list Y) (xs : list X) (s : St) :
  run body (flat_map g xs) s = run (fun x => run body (g x)) xs s.
Proof.
  revert s. induction xs as [| x xs IH]; intros s; [reflexivity |].
  change (flat_map g (x :: xs)) with (g x ++ flat_map g xs).
  rewrite run_app. simpl. destruct (run body (g x) s); auto.
Qed.

Lemma run_map {X Y : Type} (body : Y -> St -> Outcome St)
      (f : X -> Y) (xs : list X) (s : St) :
  run body (map f xs) s = run (fun x => body (f x)) xs s.
Proof.
  revert s. induction xs as [| x xs IH]; intros s; simpl; [reflexivity |].
  destruct (body (f x) s); auto.
Qed.

End Loops.

(** The five nested loops visit [combos] in order. *)
Lemma best_of_run (cards : list Card) :
  Node.best_of cards
  = run (consider_at cards) (combos (List.length cards)) None.
Proof.
  unfold Node.best_of, combos, for_range.
  rewrite run_flat_map, for_loop_run. apply run_ext. intros a s.
  rewrite run_flat_map, for_loop_run. apply run_ext. intros b s1.
  rewrite run_flat_map, for_loop_run. apply run_ext. intros c s2.
  rewrite run_flat_map, for_loop_run. apply run_ext. intros d s3.
  rewrite run_map, for_loop_run. apply run_ext. intros e s4.
  reflexivity.
Qed.

(** [combos n] holds exactly the strictly increasing index tuples
    below [n]. *)
Lemma combos_In (n a b c d e : nat) :
  In (a, b, c, d, e) (combos n) <-> (a < b < c /\ c < d < e /\ e < n)%nat.
Proof.
  unfold combos. rewrite in_flat_map. split.
  - intros (a' & Ha & H). rewrite in_flat_map in H.
    destruct H as (b' & Hb & H). rewrite in_flat_map in H.
    destruct H as (c' & Hc & H). rewrite in_flat_map in H.
    destruct H as (d' & Hd & H). rewrite in_map_iff in H.
    destruct H as (e' & [= -> -> -> -> ->] & He).
    rewrite in_seq in *. lia.
  - intros H. exists a. split; [apply in_seq; lia |].
    rewrite in_flat_map. exists b. split; [apply in_seq; lia |].
    rewrite in_flat_map. exists c. split; [apply in_seq; lia |].
    rewrite in_flat_map. exists d. split; [apply in_seq; lia |].
    rewrite in_map_iff. exists e. split; [reflexivity | apply in_seq; lia].
Qed.

Lemma combos_first (n : nat) :
  (5 <= n)%nat -> exists ts, combos n = (0, 1, 2, 3, 4)%nat :: ts.
Proof.
  intros H. unfold combos.
  replace (n - 4 - 0)%nat with (S (n - 5)) by lia. simpl.
  replace (n - 3 - 1)%nat with (S (n - 5)) by lia. simpl.
  replace (n - 2 - 2)%nat with (S (n - 5)) by lia. simpl.
  replace (n - 1 - 3)%nat with (S (n - 5)) by lia. simpl.
  replace (n - 4)%nat with (S (n - 5)) by lia. simpl.
  eexists. reflexivity.
Qed.

(** An index tuple in range picks five cards, and the innermost
    statement updates the running best with their classification. *)
Lemma pick_in_range (cards : list Card) (a b c d e : nat) :
  (a < b < c /\ c < d < e /\ e < List.length cards)%nat ->
  exists ca cb cc cd ce,
    nth_error cards a = Some ca /\ nth_error cards b = Some cb /\
    nth_error cards c = Some cc /\ nth_error cards d = Some cd /\
    nth_error cards e = Some ce /\
    pick cards (a, b, c, d, e) = [ca; cb; cc; cd; ce].
Proof.
  intros H. unfold pick.
  destruct (nth_error cards a) as [ca |] eqn:Ea;
    [| apply nth_error_None in Ea; lia].
  destruct (nth_error cards b) as [cb |] eqn:Eb;
    [| apply nth_error_None in Eb; lia].
  destruct (nth_error cards c) as [cc |] eqn:Ec;
    [| apply nth_error_None in Ec; lia].
  destruct (nth_error cards d) as [cd |] eqn:Ed;
    [| apply nth_error_None in Ed; lia].
  destruct (nth_error cards e) as [ce |] eqn:Ee;
    [| apply nth_error_None in Ee; lia].
  exists ca, cb, cc, cd, ce. repeat split.
Qed.

Lemma consider_at_in_range (cards : list Card)
      (t : nat * nat * nat * nat * nat) (best : option HandEvaluation) :
  In t (combos (List.length cards)) ->
  exists hand,
    Node.evaluate5 (pick cards t) = Returns hand /\
    consider_at cards t best = Returns (running_best best hand).
Proof.
  destruct t as [[[[a b] c] d] e]. rewrite combos_In. intros H.
  destruct (pick_in_range cards a b c d e H)
    as (ca & cb & cc & cd & ce & Ea & Eb & Ec & Ed & Ee & Ep).
  destruct (evaluate5_returns [ca; cb; cc; cd; ce] eq_refl)
    as (hand & Hh & _).
  exists hand. rewrite Ep. split; [exact Hh |].
  unfold consider_at, Node.consider. rewrite Ea, Eb, Ec, Ed, Ee, Hh.
  destruct best as [b0 |]; simpl; [| reflexivity].
  unfold keep_better. now destruct (Node.compareHands hand b0 >? 0).
Qed.

(** Running the innermost statement over in-range tuples folds
    [running_best] over their classifications. *)
Lemma run_consider (cards : list Card)
      (ts : list (nat * nat * nat * nat * nat))
      (best : option HandEvaluation) :
  (forall t, In t ts -> In t (combos (List.length cards))) ->
  exists hands,
    Forall2 (fun t h => Node.evaluate5 (pick cards t) = Returns h) ts hands /\
    run (consider_at cards) ts best
    = Returns (fold_left running_best hands best).
Proof.
  revert best. induction ts as [| t ts IH]; intros best Hin.
  - exists []. split; [constructor | reflexivity].
  - destruct (consider_at_in_range cards t best) as (hand & Hh & Hc);
      [apply Hin; now left |].
    destruct (IH (running_best best hand)) as (hands & Hf & Hr);
      [intros t' Ht'; apply Hin; now right |].
    exists (hand :: hands). split; [now constructor |].
    simpl. rewrite Hc. exact Hr.
Qed.

(** The running best after a scan: it dominates the seed and every hand
    scanned, and it is either the seed, never beaten, or the first
    scanned hand that beats the seed and every hand before it. *)
Lemma keep_better_scan (hands : list HandEvaluation) (b : HandEvaluation) :
  let E := fold_left keep_better hands b in
  Node.compareHands E b >= 0 /\
  (forall h, In h hands -> Node.compareHands E h >= 0) /\
  (E = b \/
   exists k, nth_error hands k = Some E /\
             Node.compareHands E b > 0 /\
             forall j h, (j < k)%nat -> nth_error hands j = Some h ->
                         Node.compareHands E h > 0).
Proof.
  revert b. induction hands as [| h hs IH]; intros b; simpl.
  - rewrite compareHands_refl. split; [lia |]. split; [intros ? [] | now left].
  - destruct (IH (keep_better b h)) as (Hb & Hall & Hpos).
    set (E := fold_left keep_better hs (keep_better b h)) in *.
    unfold keep_better in Hb, Hpos.
    destruct (Node.compareHands h b >? 0) eqn:Ecmp.
    + (* [h] replaces the running best *)
      rewrite Z.gtb_ltb in Ecmp. apply Z.ltb_lt in Ecmp.
      assert (HEb : Node.compareHands E b > 0).
      { pose proof (compareHands_antisym E h).
        pose proof (compareHands_antisym b E).
        pose proof (compareHands_antisym h b).
        destruct (Z_gt_le_dec (Node.compareHands E b) 0) as [? | Hle];
          [assumption |].
        exfalso.
        assert (Node.compareHands h E > 0)
          by (apply (compareHands_trans_gt_ge h b E); lia).
        lia. }
      split; [lia |]. split.
      * intros x [<- | Hx]; [exact Hb | now apply Hall].
      * right. destruct Hpos as [-> | (k & Hk & Hgt & Hbefore)].
        -- exists 0%nat. repeat split; [exact HEb | intros j x Hj; lia].
        -- exists (S k). repeat split; [exact Hk | exact HEb |].
           intros [| j] x Hj Hx; simpl in Hx.
           ++ now injection Hx as <-.
           ++ apply (Hbefore j); [lia | exact Hx].
    + (* the running best stays *)
      rewrite Z.gtb_ltb in Ecmp. apply Z.ltb_ge in Ecmp.
      assert (Hbh : Node.compareHands b h >= 0)
        by (rewrite (compareHands_antisym b h); lia).
      split; [exact Hb |]. split.
      * intros x [<- | Hx]; [| now apply Hall].
        now apply (compareHands_trans_ge E b h).
      * destruct Hpos as [-> | (k & Hk & Hgt & Hbefore)]; [now left |].
        right. exists (S k). repeat split; [exact Hk | exact Hgt |].
        intros [| j] x Hj Hx; simpl in Hx.
        -- injection Hx as <-.
           now apply (compareHands_trans_gt_ge E b h).
        -- apply (Hbefore j); [lia | exact Hx].
Qed.

(** Seeded by the first hand, the scan ends on the first hand that is
    strictly greater than all hands before it and at least as great as
    every hand of the list. *)
Lemma running_best_first_maximum (h0 : HandEvaluation)
      (hs : list HandEvaluation) :
  exists E k,
    fold_left running_best (h0 :: hs) None = Some E /\
    nth_error (h0 :: hs) k = Some E /\
    (forall j h, (j < k)%nat -> nth_error (h0 :: hs) j = Some h ->
                 Node.compareHands E h > 0) /\
    (forall h, In h (h0 :: hs) -> Node.compareHands E h >= 0).
Proof.
  assert (Hfold : forall l b,
             fold_left running_best l (Some b)
             = Some (fold_left keep_better l b)).
  { induction l as [| x l IHl]; intros b; simpl; [reflexivity | apply IHl]. }
  destruct (keep_better_scan hs h0) as (Hb & Hall & Hpos).
  set (E := fold_left keep_better hs h0) in *.
  assert (Hdom : forall h, In h (h0 :: hs) -> Node.compareHands E h >= 0)
    by (intros h [<- | Hh]; [exact Hb | now apply Hall]).
  destruct Hpos as [HE | (k & Hk & Hgt & Hbefore)].
  - exists E, 0%nat. simpl. rewrite Hfold. fold E.
    repeat split; [now rewrite HE | intros j h Hj; lia | exact Hdom].
  - exists E, (S k). simpl. rewrite Hfold. fold E.
    repeat split; [exact Hk | | exact Hdom].
    intros [| j] h Hj Hh; simpl in Hh.
    + now injection Hh as <-.
    + apply (Hbefore j); [lia | exact Hh].
Qed.

Lemma Forall2_In_left {A B : Type} (R : A -> B -> Prop)
      (l : list A) (l' : list B) (x : A) :
  Forall2 R l l' -> In x l -> exists y, In y l' /\ R x y.
Proof.
  induction 1 as [| a b l l' Hab _ IH]; intros Hin; [contradiction |].
  destruct Hin as [<- | Hin].
  - exists b. split; [now left | exact Hab].
  - destruct (IH Hin) as (y & Hy & Hr). exists y. split; [now right | exact Hr].
Qed.

(** Tokens that all parse to cards leave [evaluate7] with exactly those
    cards. *)
Lemma parsed_tokens (tokens : list JsVal) (cards : list Card) :
  Forall2 (fun t c => Node.parseCard t = Some (parsed_of c)) tokens cards ->
  filter_Boolean (map Node.parseCard tokens) = map parsed_of cards /\
  cards_of (map parsed_of cards) = Some cards /\
  List.length cards = List.length tokens.
Proof.
  induction 1 as [| t c tokens cards Ht _ (IH1 & IH2 & IH3)]; simpl.
  - repeat split.
  - rewrite Ht, IH1, IH2, IH3. destruct c. repeat split.
Qed.

(** C1. For five or more tokens (in particular 5 to 7) that all parse
    to cards, [evaluate7] returns a hand [E] that compares greater than
    or equal to the classification of every 5-card subset of the parsed
    cards, taken in any order.  [E] is the running best of the scan over
    the combinations in index-ascending nested order, seeded by the
    first combination: the classification of the first combination that
    is strictly greater than every combination before it and not less
    than any combination at all. *)
Theorem selectBest_first_maximum (tokens : list JsVal) (cards : list Card) :
  (5 <= List.length tokens)%nat ->
  Forall2 (fun t c => Node.parseCard t = Some (parsed_of c)) tokens cards ->
  exists E hands k,
    Node.evaluate7 tokens = Returns (Some E) /\
    Forall2 (fun t h => Node.evaluate5 (pick cards t) = Returns h)
            (combos (List.length cards)) hands /\
    fold_left running_best hands None = Some E /\
    nth_error hands k = Some E /\
    (forall j h, (j < k)%nat -> nth_error hands j = Some h ->
                 Node.compareHands E h > 0) /\
    (forall h, In h hands -> Node.compareHands E h >= 0) /\
    (forall a b c d e S,
        (a < b < c /\ c < d < e /\ e < List.length cards)%nat ->
        Permutation S (pick cards (a, b, c, d, e)) ->
        exists h, Node.evaluate5 S = Returns h /\
                  Node.compareHands E h >= 0).
Proof.
  intros Hlen Hparse.
  destruct (parsed_tokens tokens cards Hparse) as (Hf & Hc & Hn).
  destruct (run_consider cards (combos (List.length cards)) None)
    as (hands & Hhands & Hrun); [auto |].
  destruct (combos_first (List.length cards)) as (ts & Hts); [lia |].
  destruct hands as [| h0 hs];
    [rewrite Hts in Hhands; inversion Hhands |].
  destruct (running_best_first_maximum h0 hs)
    as (E & k & HE & Hk & Hbefore & Hdom).
  exists E, (h0 :: hs), k.
  split; [| split; [exact Hhands | split; [exact HE | split; [exact Hk |
            split; [exact Hbefore | split; [exact Hdom |]]]]]].
  - unfold Node.evaluate7. rewrite Hf, length_map, Hc.
    replace (List.length cards <? 5)%nat with false
      by (symmetry; apply Nat.ltb_ge; lia).
    rewrite best_of_run, Hrun, HE. reflexivity.
  - intros a b c d e S Hidx HS.
    assert (Hin : In (a, b, c, d, e) (combos (List.length cards)))
      by now apply combos_In.
    destruct (Forall2_In_left _ _ _ _ Hhands Hin) as (h & Hh & Hev).
    exists h. split; [| now apply Hdom].
    now rewrite (evaluate5_perm S _ HS).
Qed.

Lemma selectBest_first_maximum_witness :
  exists E,
    Node.evaluate7 (map JsStr ["As"; "Kh"; "Qd"; "Jc"; "Ts"; "3h"; "7d"]%string)
    = Returns (Some E).
Proof.
  destruct (selectBest_first_maximum
              (map JsStr ["As"; "Kh"; "Qd"; "Jc"; "Ts"; "3h"; "7d"]%string)
              [mkCard 12 0; mkCard 11 1; mkCard 10 2; mkCard 9 3;
               mkCard 8 0; mkCard 1 1; mkCard 5 2])
    as (E & _ & _ & HE & _).
  - simpl. lia.
  - repeat constructor.
  - exists E. exact HE.
Defined.

(** The specification's 7-card example: the Broadway straight. *)
Lemma evaluate7_broadway :
  Node.evaluate7 (map JsStr ["As"; "Kh"; "Qd"; "Jc"; "Ts"; "3h"; "7d"]%string)
  = Returns (Some (mkHand Node.HAND_RANK.STRAIGHT [12] "Straight")).
Proof. vm_compute. reflexivity. Qed.

(* ================================================================== *)
(** * The equity estimator *)
(* ================================================================== *)

(** The table lookup [TABLE[result.rank] ?? 0.5] is the specification's
    table. *)
Lemma TABLE_lookup (k : Z) :
  match at_index Node.TABLE k with Some p => p | None => 0.5%float end
  = table_entry k.
Proof.
  unfold at_index. destruct (k <? 0) eqn:E.
  - apply Z.ltb_lt in E. destruct k; try lia. reflexivity.
  - apply Z.ltb_ge in E.
    destruct (Z_le_gt_dec k 8) as [Hle | Hgt].
    + assert (H : In k [0; 1; 2; 3; 4; 5; 6; 7; 8]) by (simpl; lia).
      simpl in H.
      repeat (destruct H as [<- | H]; [reflexivity |]). contradiction.
    + assert (Hn : nth_error Node.TABLE (Z.to_nat k) = None)
        by (apply nth_error_None; simpl; lia).
      rewrite Hn.
      destruct k as [| p | p]; try lia.
      do 4 (destruct p as [p | p |]; try lia; try reflexivity).
Qed.

(** C9, as the specification states it, fails: the score 20/20 = 1.0 of
    a pair of aces does not leave [preFlopStrength], which clamps its
    result to at most 0.98. *)
Lemma preFlopStrength_aces_not_one :
  Node.preFlopStrength (Present [JsStr "As"; JsStr "Ah"]) <> 1%float.
Proof.
  intros H.
  apply (f_equal (fun x => PrimFloat.eqb x 1)) in H.
  vm_compute in H. discriminate.
Qed.

(** C9, amended.  Two hole tokens that parse to cards of equal rank [r]
    score [pair_score r] (twice the rank, AA 20, KK 16, QQ 14, JJ 12,
    at least 5); the result is that score divided by 20 and clamped to
    [0.05, 0.98].  For As Ah the score is 20 and the result is 0.98. *)
Theorem preFlopStrength_pocket_pair (t1 t2 : JsVal) (c1 c2 : Card) :
  Node.parseCard t1 = Some (parsed_of c1) ->
  Node.parseCard t2 = Some (parsed_of c2) ->
  rank c1 = rank c2 ->
  Node.preFlopStrength (Present [t1; t2])
  = Math_max 0.05 (Math_min 0.98 (of_Z (pair_score (rank c1)) / 20)) /\
  pair_score 12 = 20 /\
  Node.preFlopStrength (Present [JsStr "As"; JsStr "Ah"]) = 0.98%float.
Proof.
  intros H1 H2 Hr. split; [| split; reflexivity].
  assert (Hv : valid_card c1).
  { destruct t1 as [| | b | x | str |];
      try (rewrite parseCard_not_string in H1 by reflexivity; discriminate).
    now apply (parseCard_numeric_valid str). }
  unfold Node.preFlopStrength. simpl. rewrite H1, H2. simpl.
  destruct c1 as [r s1], c2 as [r' s2]. simpl in *. subst r'.
  apply valid_card_cases in Hv. simpl in Hv. destruct Hv as [Hv _].
  repeat (destruct Hv as [<- | Hv]; [vm_compute; reflexivity |]).
  contradiction.
Qed.

Lemma preFlopStrength_pocket_pair_witness :
  Node.preFlopStrength (Present [JsStr "8d"; JsStr "8c"])
  = Math_max 0.05 (Math_min 0.98 (of_Z (pair_score 6) / 20)) /\
  pair_score 12 = 20 /\
  Node.preFlopStrength (Present [JsStr "As"; JsStr "Ah"]) = 0.98%float.
Proof.
  apply (preFlopStrength_pocket_pair (JsStr "8d") (JsStr "8c")
           (mkCard 6 2) (mkCard 6 3)); reflexivity.
Defined.

Section WinProbability.

(** [Math.pow] is only approximated by an implementation, except where
    the language fixes the result: a zero exponent gives 1. *)
Variable Math_pow : float -> float -> float.
Hypothesis Math_pow_zero : forall x, Math_pow x 0 = 1%float.

(** Before the flop and against one opponent nothing is discounted and
    the floor of 0.01 lies below every [preFlopStrength]: the result is
    [preFlopStrength] of the hole tokens, bit for bit. *)
Lemma winProbability_preflop_exact (t1 t2 : JsVal) (c1 c2 : Card)
      (n : option float) :
  Node.parseCard t1 = Some (parsed_of c1) ->
  Node.parseCard t2 = Some (parsed_of c2) ->
  n = None \/ n = Some 1%float ->
  Node.winProbability Math_pow
    (mkOpts (Present [t1; t2]) (Present []) (opponents_field n))
  = Returns (Node.preFlopStrength (Present [t1; t2])).
Proof.
  intros H1 H2 Hn.
  assert (Hv1 : valid_card c1).
  { destruct t1 as [| | b | x | str |];
      try (rewrite parseCard_not_string in H1 by reflexivity; discriminate).
    now apply (parseCard_numeric_valid str). }
  assert (Hv2 : valid_card c2).
  { destruct t2 as [| | b | x | str |];
      try (rewrite parseCard_not_string in H2 by reflexivity; discriminate).
    now apply (parseCard_numeric_valid str). }
  unfold Node.winProbability, Node.preFlopStrength.
  cbn [holeCards boardCards numOpponents List.length Nat.ltb Nat.leb Nat.eqb
       map filter_Boolean].
  rewrite H1, H2. cbn [filter_Boolean].
  assert (Hexp : Math_max 0 (match opponents_field n with
                             | Absent => 1
                             | IsNull => 0
                             | Present x => x
                             end - 1) = 0%float)
    by (destruct Hn as [-> | ->]; reflexivity).
  rewrite Hexp, Math_pow_zero. clear Hexp Hn H1 H2.
  f_equal.
  destruct c1 as [r1 s1], c2 as [r2 s2].
  apply valid_card_cases in Hv1, Hv2. simpl in Hv1, Hv2.
  destruct Hv1 as [Hr1 Hs1], Hv2 as [Hr2 Hs2]. unfold parsed_of. simpl.
  repeat (destruct Hs1 as [<- | Hs1]; [| ]); try contradiction;
    repeat (destruct Hs2 as [<- | Hs2]; [| ]); try contradiction;
    repeat (destruct Hr1 as [<- | Hr1]; [| ]); try contradiction;
    repeat (destruct Hr2 as [<- | Hr2]; [| ]); try contradiction;
    vm_compute; reflexivity.
Qed.

(** C8. [winProbability] returns 0.5 for fewer than two hole tokens.
    With a non-empty board it takes the entry of the table
    [0.10, 0.38, 0.55, 0.68, 0.72, 0.77, 0.86, 0.93, 0.97] at the
    category [evaluate7] finds for the hole and board tokens together
    (0.5 when [evaluate7] returns [null]); with an empty board it takes
    [preFlopStrength] of the hole tokens.  Either value is multiplied
    by 0.88 to the power max(0, numOpponents - 1), with one opponent
    when none is given, and the product is raised to at least 0.01.
    For two hole tokens that parse to cards, no board and one opponent
    the result is [preFlopStrength] of the hole tokens itself, as for
    2s 7h. *)
Theorem winProbability_spec (hc bc : list JsVal) (n : option float) :
  let discount (equity : float) :=
    Math_max 0.01
      (equity * Math_pow 0.88 (Math_max 0 (opponents n - 1)))%float in
  let call board :=
    Node.winProbability Math_pow (mkOpts (Present hc) board
                                         (opponents_field n)) in
  ((List.length hc < 2)%nat -> call (Present bc) = Returns 0.5%float) /\
  ((2 <= List.length hc)%nat -> bc <> [] ->
   forall result, Node.evaluate7 (hc ++ bc) = Returns result ->
                  call (Present bc) = Returns (discount (category_equity result))) /\
  ((2 <= List.length hc)%nat ->
   call (Present []) = Returns (discount (Node.preFlopStrength (Present hc))) /\
   call Absent = Returns (discount (Node.preFlopStrength (Present hc)))) /\
  opponents None = 1%float /\
  (forall t1 t2 c1 c2,
      Node.parseCard t1 = Some (parsed_of c1) ->
      Node.parseCard t2 = Some (parsed_of c2) ->
      Node.winProbability Math_pow
        (mkOpts (Present [t1; t2]) (Present []) (Present 1%float))
      = Returns (Node.preFlopStrength (Present [t1; t2]))) /\
  Node.winProbability Math_pow
    (mkOpts (Present [JsStr "2s"; JsStr "7h"]) (Present []) (Present 1%float))
  = Returns (Node.preFlopStrength (Present [JsStr "2s"; JsStr "7h"])).
Proof.
  intros discount call. unfold call, discount, Node.winProbability.
  cbn [holeCards boardCards numOpponents].
  assert (Hn : match opponents_field n with
               | Absent => 1%float
               | IsNull => 0%float
               | Present x => x
               end = opponents n) by now destruct n.
  rewrite Hn. clear Hn.
  repeat split.
  - intros H. apply Nat.ltb_lt in H. now rewrite H.
  - intros H Hne result Hr.
    apply Nat.ltb_ge in H. rewrite H.
    destruct bc as [| b bc']; [contradiction |].
    cbn [List.length Nat.eqb]. rewrite Hr.
    unfold category_equity.
    destruct result as [h |]; [| reflexivity].
    now rewrite TABLE_lookup.
  - apply Nat.ltb_ge in H. now rewrite H.
  - apply Nat.ltb_ge in H. now rewrite H.
  - intros t1 t2 c1 c2 H1 H2.
    apply (winProbability_preflop_exact t1 t2 c1 c2 (Some 1%float) H1 H2).
    now right.
  - cbn [List.length Nat.ltb Nat.leb Nat.eqb].
    change (Math_max 0 (1 - 1))%float with 0%float.
    rewrite Math_pow_zero. vm_compute. reflexivity.
Qed.

End WinProbability.

Lemma winProbability_spec_witness :
  Node.winProbability pow_by_products
    (mkOpts (Present [JsStr "As"; JsStr "Kh"])
            (Present [JsStr "Qs"; JsStr "Jd"; JsStr "Ts"])
            (Present 3%float))
  = Returns (Math_max 0.01
               (PrimFloat.mul
                  (category_equity
                     (Some (mkHand Node.HAND_RANK.STRAIGHT [12] "Straight")))
                  (pow_by_products 0.88 (Math_max 0 (3 - 1)%float)))).
Proof.
  destruct (winProbability_spec pow_by_products (fun x => eq_refl)
              [JsStr "As"; JsStr "Kh"]
              [JsStr "Qs"; JsStr "Jd"; JsStr "Ts"] (Some 3%float))
    as (_ & H & _).
  apply H.
  - simpl. lia.
  - discriminate.
  - vm_compute. reflexivity.
Defined.

(* ================================================================== *)
(** * The two builds *)
(* ================================================================== *)













(* ================================================================== *)
(** * Further properties of the card codec *)
(* ================================================================== *)

Lemma substring_length_le (s : string) (n m : nat) :
  (String.length (String.substring n m s) <= m)%nat.
Proof.
  revert n m. induction s as [| c s IH]; intros n m; simpl.
  - destruct n, m; simpl; lia.
  - destruct n as [| n].
    + destruct m as [| m]; simpl; [lia |].
      specialize (IH 0%nat m). lia.
    + apply IH.
Qed.

Lemma toLowerCase_length (s : string) :
  String.length (toLowerCase s) = String.length s.
Proof. induction s as [| c s IH]; simpl; [reflexivity | now rewrite IH]. Qed.

(** Every inherited member has a name of seven characters or more. *)
Lemma Object_prototype_names (key : string) :
  existsb (String.eqb key) Object_prototype = true ->
  In key Object_prototype /\ (7 <= String.length key)%nat.
Proof.
  intros H. apply existsb_exists in H. destruct H as (x & Hx & E).
  apply String.eqb_eq in E. subst x. split; [exact Hx |].
  simpl in Hx.
  repeat (destruct Hx as [<- | Hx]; [simpl; lia |]). contradiction.
Qed.

(** What a lookup in the two tables can yield. *)
Lemma get_RANK_IDX (key : string) (p : PropVal) :
  get Node.RANK_IDX key = Some p ->
  (exists r, p = Own r /\ 0 <= r <= 12 /\ String.length key = 1%nat) \/
  (exists name, p = Inherited name /\ In name Object_prototype /\
                key = name /\ (7 <= String.length key)%nat).
Proof.
  unfold get. destruct (own Node.RANK_IDX key) as [v |] eqn:E.
  - intros [= <-]. left. exists v.
    apply own_In, RANK_IDX_keys in E. intuition.
  - destruct (existsb _ _) eqn:Ex; [| discriminate].
    intros [= <-]. right. exists key.
    apply Object_prototype_names in Ex. intuition.
Qed.

Lemma get_SUIT_IDX_short (key : string) (p : PropVal) :
  (String.length key <= 1)%nat ->
  get Node.SUIT_IDX key = Some p ->
  exists s, p = Own s /\ 0 <= s <= 3.
Proof.
  intros Hlen. unfold get.
  destruct (own Node.SUIT_IDX key) as [v |] eqn:E.
  - intros [= <-]. exists v. apply own_In, SUIT_IDX_keys in E. auto.
  - destruct (existsb _ _) eqn:Ex; [| discriminate].
    apply Object_prototype_names in Ex. lia.
Qed.

Lemma suit_part_length (s : string) :
  (String.length (toLowerCase (slice s (-1) None)) <= 1)%nat.
Proof.
  rewrite toLowerCase_length. unfold slice, rel_index.
  change (-1 <? 0) with true. cbv iota.
  set (len := str_length s).
  assert (H : (Z.to_nat (Z.max (len - Z.max (len + -1) 0) 0) <= 1)%nat)
    by (unfold len, str_length; lia).
  eapply Nat.le_trans; [apply substring_length_le | exact H].
Qed.

(** The rank part [parseCard] looks up, and its length. *)
Lemma rank_part_cases (s : string) :
  2 <= str_length s ->
  let rk := if str_length s =? 3 then slice s 0 (Some 2)
            else slice s 0 (Some (-1)) in
  (str_length s = 3 /\ String.length rk = 2%nat) \/
  (str_length s <> 3 /\ String.length rk = (String.length s - 1)%nat).
Proof.
  intros H rk. unfold rk.
  destruct (str_length s =? 3) eqn:E.
  - apply Z.eqb_eq in E. left. split; [exact E |].
    rewrite slice_prefix_length; lia.
  - apply Z.eqb_neq in E. right. split; [exact E |].
    apply rank_part_length. unfold str_length in H. lia.
Qed.

(** Whatever [parseCard] returns other than [null] has a suit in 0..3
    and, as its rank, either a number in 0..12 or a member inherited
    from [Object.prototype]; the latter needs a token of eight
    characters or more, so a token of at most seven characters parses to
    [null] or to a card of the data model.  A token of exactly three
    characters always parses to [null]: its two-character rank part is
    no key of [RANK_IDX]. *)
Theorem parseCard_result (v : JsVal) (p : Parsed) :
  Node.parseCard v = Some p ->
  exists t, v = JsStr t /\
    (exists s, p_suit p = Own s /\ 0 <= s <= 3) /\
    ((exists r, p_rank p = Own r /\ 0 <= r <= 12 /\ str_length t = 2) \/
     (exists name, p_rank p = Inherited name /\ In name Object_prototype /\
                   8 <= str_length t)) /\
    str_length t <> 3.
Proof.
  intros H.
  destruct v as [| | b | x | t |];
    try (rewrite parseCard_not_string in H by reflexivity; discriminate).
  exists t. split; [reflexivity |].
  unfold Node.parseCard in H.
  destruct (negb (truthy (JsStr t)) || negb (is_string (JsStr t)));
    [discriminate |].
  destruct (str_length t <? 2) eqn:E2; [discriminate |].
  apply Z.ltb_ge in E2.
  pose proof (rank_part_cases t E2) as Hrk. cbv zeta in Hrk.
  destruct (get Node.RANK_IDX _) as [r |] eqn:Er; [| discriminate].
  destruct (get Node.SUIT_IDX _) as [s |] eqn:Es; [| discriminate].
  injection H as <-. simpl.
  apply get_SUIT_IDX_short in Es; [| apply suit_part_length].
  apply get_RANK_IDX in Er. unfold str_length in *.
  split; [exact Es |].
  destruct Er as [(r' & -> & Hr & Hl) | (name & -> & Hin & _ & Hl)].
  - split; [left; exists r'; repeat split; try lia |]; lia.
  - split; [right; exists name; repeat split; auto; lia | lia].
Qed.

Lemma parseCard_result_witness :
  exists t, JsStr "Qd" = JsStr t /\
    (exists s, p_suit (mkParsed (Own 10) (Own 2)) = Own s /\ 0 <= s <= 3) /\
    ((exists r, p_rank (mkParsed (Own 10) (Own 2)) = Own r /\ 0 <= r <= 12 /\
                str_length t = 2) \/
     (exists name, p_rank (mkParsed (Own 10) (Own 2)) = Inherited name /\
                   In name Object_prototype /\ 8 <= str_length t)) /\
    str_length t <> 3.
Proof.
  apply (parseCard_result (JsStr "Qd") (mkParsed (Own 10) (Own 2))).
  reflexivity.
Defined.

Lemma at_index_RANKS (z : Z) (r : string) :
  at_index Node.RANKS z = Some r -> In (r, z) Node.RANK_IDX.
Proof.
  unfold at_index. destruct (z <? 0) eqn:E; [discriminate |].
  apply Z.ltb_ge in E. intros H.
  assert (Hlt : (Z.to_nat z < List.length Node.RANKS)%nat)
    by (apply nth_error_Some; congruence).
  simpl in Hlt.
  assert (Hz : In z [0; 1; 2; 3; 4; 5; 6; 7; 8; 9; 10; 11; 12])
    by (simpl; lia).
  simpl in Hz.
  repeat (destruct Hz as [<- | Hz];
          [injection H as <-; simpl; intuition |]).
  contradiction.
Qed.

Lemma at_index_SUITS (z : Z) (s : string) :
  at_index Node.SUITS z = Some s -> In (s, z) Node.SUIT_IDX.
Proof.
  unfold at_index. destruct (z <? 0) eqn:E; [discriminate |].
  apply Z.ltb_ge in E. intros H.
  assert (Hlt : (Z.to_nat z < List.length Node.SUITS)%nat)
    by (apply nth_error_Some; congruence).
  simpl in Hlt.
  assert (Hz : In z [0; 1; 2; 3]) by (simpl; lia).
  simpl in Hz.
  repeat (destruct Hz as [<- | Hz];
          [injection H as <-; simpl; intuition |]).
  contradiction.
Qed.

Lemma parseCard_two_chars (a b : ascii) :
  Node.parseCard (JsStr (String a (String b EmptyString)))
  = match get Node.RANK_IDX (String a EmptyString),
          get Node.SUIT_IDX (String (lower_ascii b) EmptyString)
    with
    | Some r, Some s => Some (mkParsed r s)
    | _, _ => None
    end.
Proof. reflexivity. Qed.

(** The tokens [parseCard] reads as a given card are exactly the
    two-character strings that become [cardToString] of the card once
    their suit character is lower-cased: the canonical token and the one
    with an upper-case suit. *)
Theorem parseCard_accepts (t : string) (c : Card) :
  Node.parseCard (JsStr t) = Some (parsed_of c) <->
  exists a b,
    t = String a (String b EmptyString) /\
    Node.cardToString c
    = JsStr (String a (String (lower_ascii b) EmptyString)).
Proof.
  split.
  - intros H. apply parseCard_numeric_shape in H.
    destruct H as (a & b & -> & Hr & Hs). exists a, b.
    split; [reflexivity |].
    destruct c as [r s]. simpl in Hr, Hs.
    unfold Node.RANK_IDX, Node.RANKS in Hr.
    unfold Node.SUIT_IDX, Node.SUITS in Hs. simpl in Hr, Hs.
    repeat (destruct Hr as [[= <- <-] | Hr];
            [ repeat (destruct Hs as [[= <- <-] | Hs];
                      [ reflexivity |]); contradiction |]).
    contradiction.
  - intros (a & b & -> & H). rewrite parseCard_two_chars.
    unfold Node.cardToString in H. destruct c as [r s]. simpl in H.
    destruct (at_index Node.RANKS r) as [rs |] eqn:Er,
             (at_index Node.SUITS s) as [ss |] eqn:Es.
    + apply at_index_RANKS in Er. apply at_index_SUITS in Es.
      unfold Node.RANK_IDX, Node.RANKS in Er.
      unfold Node.SUIT_IDX, Node.SUITS in Es. simpl in Er, Es.
      repeat (destruct Er as [[= <- <-] | Er];
              [ repeat (destruct Es as [[= <- <-] | Es];
                        [ injection H as <- Hb; rewrite <- Hb; reflexivity |]);
                contradiction |]).
      contradiction.
    + apply at_index_RANKS in Er.
      unfold Node.RANK_IDX, Node.RANKS in Er. simpl in Er.
      repeat (destruct Er as [[= <- <-] | Er]; [discriminate |]).
      contradiction.
    + simpl in H. injection H as _ H.
      destruct ss; discriminate.
    + discriminate.
Qed.

(* ================================================================== *)
(** * Further properties of the classifier *)
(* ================================================================== *)

Section SortedBy.

Context {A : Type}.
Variable cmp : A -> A -> Z.
Hypothesis cmp_total : forall a b, 0 < cmp a b -> cmp b a <= 0.

Let le_cmp (a b : A) : Prop := cmp a b <= 0.

Lemma insert_by_HdRel (y x : A) (l : list A) :
  le_cmp y x -> HdRel le_cmp y l -> HdRel le_cmp y (insert_by cmp x l).
Proof.
  intros Hyx Hl. destruct l as [| z l]; simpl.
  - now constructor.
  - destruct (cmp x z <=? 0); constructor; [exact Hyx |].
    now inversion Hl.
Qed.

Lemma insert_by_sorted (x : A) (l : list A) :
  Sorted le_cmp l -> Sorted le_cmp (insert_by cmp x l).
Proof.
  induction 1 as [| y l Hs IH Hh]; simpl.
  - repeat constructor.
  - destruct (cmp x y <=? 0) eqn:E.
    + apply Z.leb_le in E. repeat constructor; auto.
    + apply Z.leb_gt in E. constructor; [exact IH |].
      apply insert_by_HdRel; [now apply cmp_total | exact Hh].
Qed.

(** For a comparator that orders every pair one way or the other, the
    sorted array is in order. *)
Lemma sort_by_sorted (l : list A) : Sorted le_cmp (sort_by cmp l).
Proof.
  induction l as [| x l IH]; simpl; [constructor |].
  now apply insert_by_sorted.
Qed.

End SortedBy.

Lemma Sorted_map {A B : Type} (R : B -> B -> Prop) (f : A -> B)
      (l : list A) :
  Sorted (fun a b => R (f a) (f b)) l -> Sorted R (map f l).
Proof.
  induction 1 as [| x l Hs IH Hh]; simpl; constructor; [exact IH |].
  destruct Hh; simpl; now constructor.
Qed.

Lemma freq_fold_keys (l : list Z) (acc : list (Z * Z)) (k : Z) :
  In k (map fst (fold_left freq_incr l acc)) <->
  In k l \/ In k (map fst acc).
Proof.
  revert acc. induction l as [| r l IH]; intros acc; simpl.
  - intuition.
  - rewrite IH, freq_incr_keys. intuition.
Qed.

Lemma groups_of_ranks (ranks : list Z) (r : Z) :
  In r (map g_rank (Node.groups_of ranks)) <-> In r ranks.
Proof.
  assert (H : map g_rank (Node.groups_of ranks)
              = map fst (map entry_of (Node.groups_of ranks)))
    by (rewrite map_map; reflexivity).
  rewrite H. clear H.
  assert (Hp : Permutation (map fst (map entry_of (Node.groups_of ranks)))
                           (map fst (freq_of ranks)))
    by (apply Permutation_map, groups_of_perm).
  split; intros Hin.
  - apply (Permutation_in _ Hp) in Hin.
    apply freq_fold_keys in Hin. simpl in Hin. intuition.
  - apply (Permutation_in _ (Permutation_sym Hp)).
    apply freq_fold_keys. now left.
Qed.

Lemma groups_of_NoDup (ranks : list Z) :
  NoDup (map g_rank (Node.groups_of ranks)).
Proof.
  assert (H : map g_rank (Node.groups_of ranks)
              = map fst (map entry_of (Node.groups_of ranks)))
    by (rewrite map_map; reflexivity).
  rewrite H.
  apply (Permutation_NoDup
           (l := map fst (freq_of ranks))).
  - apply Permutation_sym, Permutation_map, groups_of_perm.
  - apply freq_of_spec.
Qed.

Lemma groups_of_weakly_sorted (ranks : list Z) :
  Sorted (fun a b => count b < count a \/
                     (count a = count b /\ g_rank b <= g_rank a))
         (Node.groups_of ranks).
Proof.
  unfold Node.groups_of.
  set (cmpE := fun a b : Z * Z =>
                 if snd b - snd a =? 0 then fst b - fst a
                 else snd b - snd a).
  apply Sorted_map. simpl.
  assert (Htot : forall a b, 0 < cmpE a b -> cmpE b a <= 0).
  { intros a b. unfold cmpE.
    destruct (snd b - snd a =? 0) eqn:E1, (snd a - snd b =? 0) eqn:E2;
      rewrite ?Z.eqb_eq, ?Z.eqb_neq in *; lia. }
  eapply Sorted_ind with (P := fun l => Sorted _ l);
    [ constructor | | apply (sort_by_sorted cmpE Htot) ].
  intros a l _ IH Hh. constructor; [exact IH |].
  destruct Hh as [| b l Hab]; constructor.
  unfold cmpE in Hab.
  destruct (snd b - snd a =? 0) eqn:E;
    rewrite ?Z.eqb_eq, ?Z.eqb_neq in *; lia.
Qed.

(** The facts about [groups_of] the later proofs share. *)
Lemma groups_of_facts (ranks : list Z) :
  NoDup (map g_rank (Node.groups_of ranks)) /\
  (forall r, In r (map g_rank (Node.groups_of ranks)) <-> In r ranks) /\
  (forall g, In g (Node.groups_of ranks) ->
             count g = occ ranks (g_rank g) /\ 1 <= count g) /\
  fold_right Z.add 0 (map count (Node.groups_of ranks))
  = Z.of_nat (List.length ranks) /\
  StronglySorted group_before (Node.groups_of ranks).
Proof.
  split; [apply groups_of_NoDup |].
  split; [apply groups_of_ranks |].
  split; [| split].
  - intros g Hg. pose proof (groups_of_count ranks g Hg) as Hc.
    split; [exact Hc |]. rewrite Hc.
    assert (Hin : In (g_rank g) ranks)
      by (apply groups_of_ranks; now apply in_map).
    apply (count_occ_In Z.eq_dec) in Hin. lia.
  - rewrite <- (groups_of_total ranks). unfold total.
    now rewrite map_map.
  - pose proof (groups_of_NoDup ranks) as Hn.
    assert (Hs : StronglySorted
                   (fun a b => count b < count a \/
                               (count a = count b /\ g_rank b <= g_rank a))
                   (Node.groups_of ranks)).
    { apply Sorted_StronglySorted; [| apply groups_of_weakly_sorted].
      intros a b c Hab Hbc. lia. }
    induction Hs as [| g gs Hs IH Hall]; [constructor |].
    simpl in Hn. inversion Hn as [| ? ? Hnin Hn']; subst.
    constructor; [now apply IH |].
    rewrite Forall_forall in *. intros g' Hg'.
    specialize (Hall g' Hg').
    assert (g_rank g' <> g_rank g).
    { intros E. apply Hnin. rewrite <- E. now apply in_map. }
    unfold group_before. lia.
Qed.


Lemma sum_at_least (l : list Z) :
  Forall (fun c => 1 <= c) l ->
  Z.of_nat (List.length l) <= fold_right Z.add 0 l.
Proof.
  induction 1 as [| c l Hc _ IH]; simpl; lia.
Qed.

(** Positive sizes in descending order that add up to five. *)
Lemma profile_five (l : list Z) :
  Forall (fun c => 1 <= c) l ->
  Sorted (fun a b => b <= a) l ->
  fold_right Z.add 0 l = 5 ->
  In l profiles.
Proof.
  intros Hpos Hs Hsum. pose proof (sum_at_least l Hpos) as Hlen.
  rewrite Hsum in Hlen.
  destruct l as [| a [| b [| c [| d [| e [| f l']]]]]];
    simpl in Hlen, Hsum; try lia;
    repeat match goal with
           | H : Forall _ (_ :: _) |- _ => inversion_clear H
           | H : Sorted _ (_ :: _) |- _ => inversion_clear H
           | H : HdRel _ _ (_ :: _) |- _ => inversion_clear H
           end; unfold profiles; simpl.
  - assert (a = 5) by lia. subst. auto.
  - assert ((a = 4 /\ b = 1) \/ (a = 3 /\ b = 2)) as [[-> ->] | [-> ->]]
      by lia; auto.
  - assert ((a = 3 /\ b = 1 /\ c = 1) \/ (a = 2 /\ b = 2 /\ c = 1))
      as [(-> & -> & ->) | (-> & -> & ->)] by lia; auto 10.
  - assert (a = 2 /\ b = 1 /\ c = 1 /\ d = 1) as (-> & -> & -> & ->) by lia.
    auto 10.
  - assert (a = 1 /\ b = 1 /\ c = 1 /\ d = 1 /\ e = 1)
      as (-> & -> & -> & -> & ->) by lia.
    auto 10.
Qed.

Lemma occ_sorted (rs : list Z) (r : Z) :
  occ (sort_by desc rs) r = occ rs r.
Proof.
  unfold occ. f_equal.
  apply Permutation_count_occ, sort_by_perm.
Qed.

(** The groups of a five-card hand, against the multiplicities of its
    ranks. *)
Lemma hand_profile (cs : list Card) :
  List.length cs = 5%nat ->
  let gs := Node.groups_of (sort_by desc (map rank cs)) in
  In (map count gs) profiles /\
  NoDup (map g_rank gs) /\
  (forall g, In g gs -> count g = occ (map rank cs) (g_rank g)) /\
  (forall r, 1 <= occ (map rank cs) r -> exists g, In g gs /\ g_rank g = r).
Proof.
  intros Hlen gs.
  destruct (groups_of_facts (sort_by desc (map rank cs)))
    as (Hn & Hr & Hc & Hsum & Hs).
  fold gs in Hn, Hr, Hc, Hsum, Hs.
  rewrite sort_by_length, length_map, Hlen in Hsum.
  split; [| split; [exact Hn | split]].
  - apply profile_five.
    + apply Forall_forall. intros c Hin. apply in_map_iff in Hin.
      destruct Hin as (g & <- & Hg). now apply Hc.
    + apply Sorted_map. apply StronglySorted_Sorted.
      eapply StronglySorted_ind with (P := fun l => StronglySorted _ l);
        [constructor | | exact Hs].
      intros g l _ IH Hall. constructor; [exact IH |].
      eapply Forall_impl; [| exact Hall].
      intros g' Hb. unfold group_before in Hb. simpl. lia.
    + exact Hsum.
  - intros g Hg. rewrite <- occ_sorted. now apply Hc.
  - intros r Hocc. rewrite <- occ_sorted in Hocc.
    assert (Hin : In r (sort_by desc (map rank cs))).
    { apply (count_occ_In Z.eq_dec). unfold occ in Hocc. lia. }
    apply Hr, in_map_iff in Hin. destruct Hin as (g & Hg & Hin).
    now exists g.
Qed.

Lemma has_count_groups (cs : list Card) (k : Z) :
  List.length cs = 5%nat -> 1 <= k ->
  has_count (map rank cs) k <->
  In k (map count (Node.groups_of (sort_by desc (map rank cs)))).
Proof.
  intros Hlen Hk. destruct (hand_profile cs Hlen) as (_ & _ & Hc & Hex).
  unfold has_count. split.
  - intros (r & Hr). destruct (Hex r) as (g & Hg & E); [lia |].
    apply in_map_iff. exists g. split; [| exact Hg].
    rewrite (Hc g Hg), E. exact Hr.
  - intros Hin. apply in_map_iff in Hin. destruct Hin as (g & E & Hg).
    exists (g_rank g). now rewrite <- (Hc g Hg).
Qed.

Lemma two_pairs_groups (cs : list Card) :
  List.length cs = 5%nat ->
  two_pairs (map rank cs) <->
  map count (Node.groups_of (sort_by desc (map rank cs))) = [2; 2; 1].
Proof.
  intros Hlen. destruct (hand_profile cs Hlen) as (Hp & Hn & Hc & Hex).
  cbv zeta in *.
  set (gs := Node.groups_of (sort_by desc (map rank cs))) in *.
  unfold two_pairs. split.
  - intros (r & r' & Hne & Hr & Hr').
    destruct (Hex r) as (g & Hg & E); [lia |].
    destruct (Hex r') as (g' & Hg' & E'); [lia |].
    assert (Hcg : count g = 2) by (rewrite (Hc g Hg), E; exact Hr).
    assert (Hcg' : count g' = 2) by (rewrite (Hc g' Hg'), E'; exact Hr').
    assert (Hgg : g <> g') by congruence.
    clear Hc Hex Hn Hr Hr'.
    unfold profiles in Hp. simpl in Hp.
    destruct gs as [| g0 [| g1 [| g2 [| g3 [| g4 [| g5 l]]]]]];
      simpl in Hp;
      repeat (destruct Hp as [Hp | Hp]; try discriminate);
      try contradiction;
      injection Hp as ?; simpl in Hg, Hg';
      repeat (destruct Hg as [<- | Hg]; try contradiction);
      repeat (destruct Hg' as [<- | Hg']; try contradiction);
      try lia; try congruence; simpl; congruence.
  - intros HP.
    destruct gs as [| g0 [| g1 [| g2 [| g3 l]]]]; try discriminate.
    injection HP as H0 H1 H2.
    exists (g_rank g0), (g_rank g1).
    split; [| split].
    + simpl in Hn. inversion Hn as [| ? ? Hnin _]; subst.
      intros E. apply Hnin. rewrite E. now left.
    + rewrite <- (Hc g0); [exact H0 | now left].
    + rewrite <- (Hc g1); [exact H1 | right; now left].
Qed.

Lemma straight_flag (cs : list Card) (b : bool) (h : Z) :
  List.length cs = 5%nat ->
  Node.straight_of (sort_by desc (map rank cs))
                   (Set_size (sort_by desc (map rank cs))) = (b, h) ->
  (b = true <-> exists h', straight_shape cs h') /\
  (b = true ->
   forall c, In c (map count (Node.groups_of (sort_by desc (map rank cs)))) ->
             c <= 1).
Proof.
  intros Hlen Es.
  pose proof (fun h' => straight_of_spec cs h' Hlen) as Hspec.
  cbv zeta in Hspec.
  assert (Hb : b = true <-> exists h', straight_shape cs h').
  { split.
    - intros ->. exists h. now apply Hspec.
    - intros (h' & Hs). apply Hspec in Hs. congruence. }
  split; [exact Hb |].
  intros Ht c Hc. apply Hb in Ht. destruct Ht as (h' & Hn & _).
  apply in_map_iff in Hc. destruct Hc as (g & <- & Hg).
  apply (groups_of_distinct (sort_by desc (map rank cs))); [| exact Hg].
  apply (Permutation_NoDup' (sort_by_perm desc (map rank cs))). exact Hn.
Qed.

(** Which category five cards get, read off the number of cards per
    rank: four of a kind exactly when some rank occurs four times, full
    house exactly for three plus two, and so on down to high card.  A
    flush gives way to four of a kind and full house only; a rank that
    occurs five times (a repeated card) is reported as a flush or as
    high card, never as four of a kind. *)
Theorem evaluate5_by_multiplicity (cs : list Card) :
  List.length cs = 5%nat ->
  exists e,
    Node.evaluate5 cs = Returns e /\
    let rs := map rank cs in
    let flush := all_same_suit cs in
    let straight := exists h, straight_shape cs h in
    (hrank e = Node.HAND_RANK.FOUR_OF_A_KIND <-> has_count rs 4) /\
    (hrank e = Node.HAND_RANK.FULL_HOUSE <->
     has_count rs 3 /\ has_count rs 2) /\
    (hrank e = Node.HAND_RANK.FLUSH <->
     flush /\ ~ straight /\ ~ has_count rs 4 /\
     ~ (has_count rs 3 /\ has_count rs 2)) /\
    (hrank e = Node.HAND_RANK.THREE_OF_A_KIND <->
     has_count rs 3 /\ ~ has_count rs 2 /\ ~ flush) /\
    (hrank e = Node.HAND_RANK.TWO_PAIR <-> two_pairs rs /\ ~ flush) /\
    (hrank e = Node.HAND_RANK.ONE_PAIR <->
     has_count rs 2 /\ ~ two_pairs rs /\ ~ has_count rs 3 /\ ~ flush) /\
    (hrank e = Node.HAND_RANK.HIGH_CARD <->
     ~ flush /\ ~ straight /\ ~ has_count rs 2 /\ ~ has_count rs 3 /\
     ~ has_count rs 4) /\
    (has_count rs 5 ->
     hrank e = Node.HAND_RANK.HIGH_CARD \/ hrank e = Node.HAND_RANK.FLUSH).
Proof.
  intros Hlen.
  pose proof (has_count_groups cs 2 Hlen ltac:(lia)) as H2.
  pose proof (has_count_groups cs 3 Hlen ltac:(lia)) as H3.
  pose proof (has_count_groups cs 4 Hlen ltac:(lia)) as H4.
  pose proof (has_count_groups cs 5 Hlen ltac:(lia)) as H5.
  pose proof (two_pairs_groups cs Hlen) as Htp.
  pose proof (isFlush_spec cs (five_nonempty cs Hlen)) as Hf.
  destruct (hand_profile cs Hlen) as (Hp & _).
  cbv zeta in Hp.
  open_evaluate5 cs.
  destruct (Node.straight_of _ _) as [b h] eqn:Es.
  destruct (straight_flag cs b h Hlen Es) as (Hb & Hones).
  set (gs := Node.groups_of (sort_by desc (map rank cs))) in *.
  set (A2 := has_count (map rank cs) 2) in *.
  set (A3 := has_count (map rank cs) 3) in *.
  set (A4 := has_count (map rank cs) 4) in *.
  set (A5 := has_count (map rank cs) 5) in *.
  set (TP := two_pairs (map rank cs)) in *.
  set (F := all_same_suit cs) in *.
  set (S := exists h', straight_shape cs h') in *.
  cbv zeta.
  unfold profiles in Hp. simpl in Hp.
  unfold Node.and_second,
    Node.HAND_RANK.STRAIGHT_FLUSH, Node.HAND_RANK.FOUR_OF_A_KIND,
    Node.HAND_RANK.FULL_HOUSE, Node.HAND_RANK.FLUSH,
    Node.HAND_RANK.STRAIGHT, Node.HAND_RANK.THREE_OF_A_KIND,
    Node.HAND_RANK.TWO_PAIR, Node.HAND_RANK.ONE_PAIR,
    Node.HAND_RANK.HIGH_CARD.
  destruct gs as [| [r0 c0] [| [r1 c1] [| [r2 c2] [| [r3 c3]
                 [| [r4 c4] [| g5 l]]]]]];
    simpl in Hp;
    repeat (destruct Hp as [Hp | Hp]; try discriminate);
    try contradiction;
    injection Hp as ?; subst;
    simpl in H2, H3, H4, H5, Hones, Htp;
    first [ assert (a2 : A2) by (apply H2; lia)
          | assert (a2 : ~ A2) by (rewrite H2; lia) ];
    first [ assert (a3 : A3) by (apply H3; lia)
          | assert (a3 : ~ A3) by (rewrite H3; lia) ];
    first [ assert (a4 : A4) by (apply H4; lia)
          | assert (a4 : ~ A4) by (rewrite H4; lia) ];
    first [ assert (a5 : A5) by (apply H5; lia)
          | assert (a5 : ~ A5) by (rewrite H5; lia) ];
    first [ assert (tp : TP) by (apply Htp; reflexivity)
          | assert (tp : ~ TP) by (rewrite Htp; discriminate) ];
    clear H2 H3 H4 H5 Htp;
    destruct (Set_size (map suit cs) =? 1), b;
    try (exfalso; specialize (Hones eq_refl _ (or_introl eq_refl)); lia);
    clear Hones;
    first [ assert (f : F) by (apply Hf; reflexivity)
          | assert (f : ~ F) by (rewrite <- Hf; discriminate) ];
    first [ assert (s : S) by (apply Hb; reflexivity)
          | assert (s : ~ S) by (rewrite <- Hb; discriminate) ];
    clear Hf Hb Es; clearbody A2 A3 A4 A5 TP F S;
    simpl; (eexists; split; [reflexivity |]); simpl;
    repeat split; intros;
    repeat match goal with
           | H : _ /\ _ |- _ => destruct H
           end;
    try contradiction; try assumption; try discriminate; try lia;
    try (now left); try (now right); tauto.
Qed.

Lemma evaluate5_by_multiplicity_witness :
  exists e,
    Node.evaluate5 [mkCard 7 0; mkCard 7 1; mkCard 2 1; mkCard 7 3; mkCard 7 2]
      = Returns e /\
    (hrank e = Node.HAND_RANK.FOUR_OF_A_KIND <->
     has_count [7; 7; 2; 7; 7] 4).
Proof.
  destruct (evaluate5_by_multiplicity
              [mkCard 7 0; mkCard 7 1; mkCard 2 1; mkCard 7 3; mkCard 7 2]
              eq_refl) as (e & He & H4 & _).
  exists e. split; [exact He | exact H4].
Defined.






(** Name and tiebreaker length of a result, by category. *)
Lemma evaluate5_shape_facts (cs : list Card) (e : HandEvaluation) :
  List.length cs = 5%nat -> Node.evaluate5 cs = Returns e ->
  name e = name_of (hrank e) (tiebreaker e) /\
  List.length (tiebreaker e) = tiebreaker_length (hrank e).
Proof.
  intros Hlen. destruct (hand_profile cs Hlen) as (Hp & _).
  cbv zeta in Hp.
  assert (Hl : List.length (sort_by desc (map rank cs)) = 5%nat)
    by now rewrite sort_by_length, length_map.
  open_evaluate5 cs.
  destruct (Node.straight_of _ _) as [b h] eqn:Es.
  set (gs := Node.groups_of (sort_by desc (map rank cs))) in *.
  unfold profiles in Hp. simpl in Hp.
  unfold Node.and_second,
    Node.HAND_RANK.STRAIGHT_FLUSH, Node.HAND_RANK.FOUR_OF_A_KIND,
    Node.HAND_RANK.FULL_HOUSE, Node.HAND_RANK.FLUSH,
    Node.HAND_RANK.STRAIGHT, Node.HAND_RANK.THREE_OF_A_KIND,
    Node.HAND_RANK.TWO_PAIR, Node.HAND_RANK.ONE_PAIR,
    Node.HAND_RANK.HIGH_CARD.
  destruct gs as [| [r0 c0] [| [r1 c1] [| [r2 c2] [| [r3 c3]
                 [| [r4 c4] [| g5 l]]]]]];
    simpl in Hp;
    repeat (destruct Hp as [Hp | Hp]; try discriminate);
    try contradiction;
    injection Hp as ?; subst;
    destruct (Set_size (map suit cs) =? 1), b; simpl;
    intros [= <-]; simpl; rewrite ?Hl;
    (split; [| reflexivity]);
    try reflexivity;
    destruct (h =? 12) eqn:E;
    rewrite ?Z.eqb_eq, ?Z.eqb_neq in E; subst; try reflexivity;
    destruct h as [| p | p]; try reflexivity;
    do 4 (destruct p as [p | p |]; try reflexivity);
    contradiction.
Qed.

(** The name and the number of tiebreaker entries are fixed by the
    category: one entry for the straight categories, two for four of a
    kind and full house, three for three of a kind and two pair, four
    for one pair and five for flush and high card; the name is the
    category's, with "Royal Flush" for the straight flush whose only
    entry is 12. *)
Theorem evaluate5_output_shape (cs : list Card) (e : HandEvaluation) :
  List.length cs = 5%nat -> Node.evaluate5 cs = Returns e ->
  name e = name_of (hrank e) (tiebreaker e) /\
  List.length (tiebreaker e) = tiebreaker_length (hrank e).
Proof. exact (evaluate5_shape_facts cs e). Qed.

Lemma evaluate5_output_shape_witness :
  name (mkHand 6 [0; 12] "Full House")
  = name_of (hrank (mkHand 6 [0; 12] "Full House"))
            (tiebreaker (mkHand 6 [0; 12] "Full House")) /\
  List.length (tiebreaker (mkHand 6 [0; 12] "Full House"))
  = tiebreaker_length (hrank (mkHand 6 [0; 12] "Full House")).
Proof.
  apply (evaluate5_output_shape
           [mkCard 12 1; mkCard 12 2; mkCard 0 0; mkCard 0 3; mkCard 0 1]);
    reflexivity.
Defined.

Lemma nodup_length_le (l : list Z) :
  (List.length (nodup Z.eq_dec l) <= List.length l)%nat.
Proof.
  induction l as [| x l IH]; simpl; [lia |].
  destruct (in_dec Z.eq_dec x l); simpl; lia.
Qed.

Lemma straight_needs_five (ranks : list Z) (h : Z) :
  Node.straight_of ranks (Set_size ranks) = (true, h) ->
  (5 <= List.length ranks)%nat.
Proof.
  unfold Node.straight_of.
  destruct (Set_size ranks =? 5) eqn:E; [| discriminate].
  intros _. apply Z.eqb_eq in E. unfold Set_size in E.
  pose proof (nodup_length_le ranks). lia.
Qed.

(** One group only: the hand is not empty and all its cards have one
    rank; the group then holds all the cards. *)
Lemma single_group (cs : list Card) :
  (exists g0, Node.groups_of (sort_by desc (map rank cs)) = [g0]) <->
  cs <> [] /\ same_rank cs.
Proof.
  destruct (groups_of_facts (sort_by desc (map rank cs)))
    as (Hn & Hr & Hc & Hsum & _).
  assert (Hin : forall c, In c cs ->
                          In (rank c) (map g_rank (Node.groups_of
                                         (sort_by desc (map rank cs))))).
  { intros c Hc'. apply Hr.
    apply (Permutation_in _ (Permutation_sym (sort_by_perm desc _))).
    now apply in_map. }
  split.
  - intros (g0 & Eg). rewrite Eg in *. split.
    + intros ->. simpl in Hsum.
      destruct (Hc g0) as (_ & H1); [now left | lia].
    + intros c c' H H'. apply Hin in H, H'. simpl in H, H'.
      destruct H as [<- | []], H' as [<- | []]. reflexivity.
  - intros (Hne & Hsame).
    destruct cs as [| c cs']; [contradiction |].
    assert (Hall : forall g, In g (Node.groups_of
                                     (sort_by desc (map rank (c :: cs')))) ->
                             g_rank g = rank c).
    { intros g Hg.
      assert (H : In (g_rank g) (map rank (c :: cs'))).
      { apply (Permutation_in _ (sort_by_perm desc _)), Hr.
        now apply in_map. }
      apply in_map_iff in H. destruct H as (c' & <- & Hc').
      apply Hsame; [exact Hc' | now left]. }
    specialize (Hin c (or_introl eq_refl)).
    destruct (Node.groups_of _) as [| g0 [| g1 rest]].
    + contradiction.
    + now exists g0.
    + exfalso. simpl in Hn. inversion Hn as [| ? ? Hnin _]; subst.
      apply Hnin. left.
      rewrite (Hall g0), (Hall g1); simpl; auto.
Qed.

(** [evaluate5] does not check that it is given five cards.  It throws
    (reading [count] of a missing group) exactly for the empty list, for
    three cards of one rank, and for two cards of one rank that are not
    of one suit; every other list of cards of the data model gets a
    result. *)
Theorem evaluate5_throws (cs : list Card) :
  Node.evaluate5 cs = Throws <->
  cs = [] \/
  (same_rank cs /\
   (List.length cs = 3%nat \/
    (List.length cs = 2%nat /\ ~ all_same_suit cs))).
Proof.
  destruct (groups_of_facts (sort_by desc (map rank cs)))
    as (_ & _ & Hc & Hsum & _).
  rewrite sort_by_length, length_map in Hsum.
  pose proof (single_group cs) as Hsingle.
  pose proof (straight_needs_five (sort_by desc (map rank cs))) as Hfive.
  rewrite sort_by_length, length_map in Hfive.
  assert (Hflush : cs <> [] ->
                   ((Set_size (map suit cs) =? 1) = true <-> all_same_suit cs))
    by apply isFlush_spec.
  open_evaluate5 cs.
  destruct (Node.straight_of _ _) as [b h] eqn:Es.
  assert (Hb : b = true -> (5 <= List.length cs)%nat)
    by (intros ->; now apply (Hfive h)).
  clear Hfive Es.
  destruct (Node.groups_of (sort_by desc (map rank cs)))
    as [| g0 rest] eqn:Eg.
  - (* no group: no card *)
    simpl in Hsum. assert (cs = []) by (destruct cs; [reflexivity | simpl in Hsum; lia]).
    subst cs. simpl. destruct b; [specialize (Hb eq_refl); simpl in Hb; lia |].
    split; [now left | reflexivity].
  - assert (Hne : cs <> []).
    { intros ->. simpl in Hsum. destruct (Hc g0) as (_ & H1); [now left |].
      assert (0 <= fold_right Z.add 0 (map count rest)).
      { clear - Hc. induction rest as [| g r IH]; simpl; [lia |].
        assert (1 <= count g) by (apply Hc; right; now left).
        assert (0 <= fold_right Z.add 0 (map count r)).
        { apply IH. intros g' [<- | Hg']; apply Hc; [now left |].
          right. now right. }
        lia. }
      lia. }
    specialize (Hflush Hne).
    assert (Hone : rest = [] ->
                   same_rank cs /\ count g0 = Z.of_nat (List.length cs)).
    { intros ->. split.
      - apply Hsingle. now exists g0.
      - simpl in Hsum. lia. }
    assert (Hmany : rest <> [] -> ~ same_rank cs).
    { intros Hr Hs. destruct Hsingle as (_ & Hsg).
      destruct (Hsg (conj Hne Hs)) as (g & [= _ E]). now apply Hr. }
    unfold Node.and_second.
    destruct (Set_size (map suit cs) =? 1) eqn:Ef, b; simpl;
      try (split; [discriminate |];
           intros [-> | (Hs & [Hl | (Hl & Hnf)])];
           [ contradiction
           | specialize (Hb eq_refl); lia
           | specialize (Hb eq_refl); lia ]);
      destruct (count g0 =? 4) eqn:E4;
      try (split; [discriminate |];
           intros [-> | (Hs & Hl)]; [contradiction |];
           destruct rest as [| g1 rest'];
           [ destruct (Hone eq_refl) as (_ & Hcnt);
             apply Z.eqb_eq in E4; lia
           | exfalso; apply (Hmany ltac:(discriminate) Hs) ]);
      destruct rest as [| g1 rest'];
      try (destruct (Hone eq_refl) as (Hs & Hcnt));
      try (assert (Hns : ~ same_rank cs)
             by (apply Hmany; discriminate));
      destruct (count g0 =? 3) eqn:E3;
      try destruct (count g1 =? 2) eqn:E12;
      try destruct (count g0 =? 2) eqn:E2;
      rewrite ?Z.eqb_eq, ?Z.eqb_neq in *;
      try (split; [discriminate | tauto]);
      try (split; [discriminate |];
           intros [-> | (_ & [Hl | (Hl & Hnf)])];
           [ contradiction | lia | first [ lia | tauto ] ]);
      try (split; [intros _ | reflexivity]; right;
           split; [exact Hs |]; first [ left; lia | right; split; [lia |];
           rewrite <- Hflush; discriminate ]).
Qed.

(* ================================================================== *)
(** * Further properties of the comparator *)
(* ================================================================== *)

Lemma tb_at_cons (x : Z) (t : list Z) (j : nat) :
  tb_at (x :: t) (S j) = tb_at t j.
Proof. reflexivity. Qed.

Lemma lex_eq_same_length (a b : list Z) :
  List.length a = List.length b -> lex_eq a b -> a = b.
Proof.
  revert b. induction a as [| x a IH]; intros [| y b] Hl He;
    try discriminate; [reflexivity |].
  simpl in Hl. f_equal.
  - exact (He 0%nat).
  - apply IH; [lia |]. intros j. specialize (He (S j)).
    now rewrite !tb_at_cons in He.
Qed.

(** A tie between two results of [evaluate5] is an equality. *)
Lemma compareHands_zero_eq (cs1 cs2 : list Card) (e1 e2 : HandEvaluation) :
  List.length cs1 = 5%nat -> List.length cs2 = 5%nat ->
  Node.evaluate5 cs1 = Returns e1 -> Node.evaluate5 cs2 = Returns e2 ->
  (Node.compareHands e1 e2 = 0 <-> e1 = e2).
Proof.
  intros Hl1 Hl2 H1 H2. split; [| intros ->; apply compareHands_refl].
  intros Hc.
  destruct (evaluate5_shape_facts cs1 e1 Hl1 H1) as (Hn1 & Ht1).
  destruct (evaluate5_shape_facts cs2 e2 Hl2 H2) as (Hn2 & Ht2).
  rewrite compareHands_eq in Hc.
  destruct (hrank e1 =? hrank e2) eqn:E.
  - apply Z.eqb_eq in E. apply compare_tb_zero in Hc.
    assert (Ht : tiebreaker e1 = tiebreaker e2).
    { apply lex_eq_same_length; [| exact Hc]. now rewrite Ht1, Ht2, E. }
    destruct e1 as [k1 t1 n1], e2 as [k2 t2 n2]. simpl in *.
    subst. reflexivity.
  - apply Z.eqb_neq in E. lia.
Qed.

(** On the results of [evaluate5] for five cards, [compareHands]
    returns 0 only for one and the same result: hands that tie have the
    same category, tiebreaker and name. *)
Theorem compareHands_tie (cs1 cs2 : list Card) (e1 e2 : HandEvaluation) :
  List.length cs1 = 5%nat -> List.length cs2 = 5%nat ->
  Node.evaluate5 cs1 = Returns e1 -> Node.evaluate5 cs2 = Returns e2 ->
  (Node.compareHands e1 e2 = 0 <-> e1 = e2).
Proof. exact (compareHands_zero_eq cs1 cs2 e1 e2). Qed.

Lemma compareHands_tie_witness :
  Node.compareHands (mkHand 1 [5; 12; 9; 2] "One Pair")
                    (mkHand 1 [5; 12; 9; 2] "One Pair") = 0
  <-> mkHand 1 [5; 12; 9; 2] "One Pair" = mkHand 1 [5; 12; 9; 2] "One Pair".
Proof.
  apply (compareHands_tie
           [mkCard 5 0; mkCard 12 1; mkCard 5 2; mkCard 9 3; mkCard 2 0]
           [mkCard 9 1; mkCard 5 3; mkCard 2 2; mkCard 5 1; mkCard 12 0]);
    reflexivity.
Defined.

(** Among straights, and among straight flushes, the wheel A-5-4-3-2 is
    the lowest: its straight-high is 3, and every other straight of
    valid cards has a straight-high of at least 4. *)
Theorem wheel_is_lowest_straight (wheel cs : list Card)
        (ew e : HandEvaluation) :
  List.length wheel = 5%nat -> List.length cs = 5%nat ->
  Forall valid_card cs ->
  Permutation (map rank wheel) [12; 3; 2; 1; 0] ->
  ~ Permutation (map rank cs) [12; 3; 2; 1; 0] ->
  Node.evaluate5 wheel = Returns ew -> Node.evaluate5 cs = Returns e ->
  hrank e = hrank ew ->
  hrank e = Node.HAND_RANK.STRAIGHT \/
  hrank e = Node.HAND_RANK.STRAIGHT_FLUSH ->
  tiebreaker ew = [3] /\ Node.compareHands e ew > 0.
Proof.
  intros Hlw Hlc Hv Hw Hnw Hew He Hk Hcat.
  destruct (evaluate5_returns wheel Hlw) as (ew' & Hew' & _ & Hsw).
  rewrite Hew in Hew'. injection Hew' as <-.
  destruct (evaluate5_returns cs Hlc) as (e' & He' & _ & Hs).
  rewrite He in He'. injection He' as <-.
  destruct (Hs Hcat) as (h & Hsh & Ht).
  destruct (Hsw ltac:(rewrite <- Hk; exact Hcat)) as (hw & Hshw & Htw).
  assert (Ehw : hw = 3).
  { destruct Hshw as (_ & [(hi & lo & (Hhi & Hmax) & (Hlo & Hmin) & Hd & _)
                          | (_ & ->)]); [| reflexivity].
    exfalso.
    assert (H12 : 12 <= hi).
    { apply Hmax. apply (Permutation_in _ (Permutation_sym Hw)).
      simpl. auto. }
    assert (H0 : lo <= 0).
    { apply Hmin. apply (Permutation_in _ (Permutation_sym Hw)).
      simpl. auto 10. }
    lia. }
  subst hw.
  assert (Eh : 4 <= h).
  { destruct Hsh as (_ & [(hi & lo & _ & (Hlo & _) & Hd & ->)
                         | (Hp & _)]); [| contradiction].
    apply in_map_iff in Hlo. destruct Hlo as (c & <- & Hc).
    rewrite Forall_forall in Hv. destruct (Hv c Hc) as ((H0 & _) & _). lia. }
  split; [exact Htw |].
  rewrite compareHands_eq. apply Z.eqb_eq in Hk. rewrite Hk.
  rewrite Ht, Htw. unfold compare_tb. simpl. unfold tb_at. simpl.
  destruct (h =? 3) eqn:E; rewrite ?Z.eqb_eq, ?Z.eqb_neq in E; simpl; lia.
Qed.

Lemma wheel_is_lowest_straight_witness :
  tiebreaker (mkHand 4 [3] "Straight") = [3] /\
  Node.compareHands (mkHand 4 [4] "Straight") (mkHand 4 [3] "Straight") > 0.
Proof.
  apply (wheel_is_lowest_straight
           [mkCard 3 0; mkCard 2 1; mkCard 1 2; mkCard 0 3; mkCard 12 0]
           [mkCard 4 0; mkCard 3 1; mkCard 2 2; mkCard 1 3; mkCard 0 0]).
  - reflexivity.
  - reflexivity.
  - repeat constructor; simpl; lia.
  - change (Permutation ([3; 2; 1; 0] ++ [12]) ([12] ++ [3; 2; 1; 0])).
    apply Permutation_app_comm.
  - intros H.
    assert (H12 : In 12 [4; 3; 2; 1; 0])
      by (apply (Permutation_in _ (Permutation_sym H)); simpl; auto).
    simpl in H12. lia.
  - reflexivity.
  - reflexivity.
  - reflexivity.
  - now left.
Defined.

(* ================================================================== *)
(** * Further properties of the best-hand selector *)
(* ================================================================== *)

Lemma plain_tokens_cards (tokens : list JsVal) :
  plain_tokens tokens ->
  cards_of (filter_Boolean (map Node.parseCard tokens))
  = Some (kept_cards tokens) /\
  List.length (filter_Boolean (map Node.parseCard tokens))
  = List.length (kept_cards tokens).
Proof.
  induction 1 as [| t tokens Ht _ (IH1 & IH2)]; simpl; [now split |].
  destruct Ht as [-> | (c & ->)]; simpl; [now split |].
  rewrite IH1, IH2. destruct c. now split.
Qed.

(** The scan of [evaluate7] over five or more cards: it returns a hand,
    the classification of one of the combinations, and that hand is not
    below the classification of any combination. *)
Lemma best_of_returns (cards : list Card) :
  (5 <= List.length cards)%nat ->
  exists E t,
    Node.best_of cards = Returns (Some E) /\
    In t (combos (List.length cards)) /\
    Node.evaluate5 (pick cards t) = Returns E /\
    (forall t' h, In t' (combos (List.length cards)) ->
                  Node.evaluate5 (pick cards t') = Returns h ->
                  Node.compareHands E h >= 0).
Proof.
  intros Hlen.
  destruct (run_consider cards (combos (List.length cards)) None)
    as (hands & Hhands & Hrun); [auto |].
  destruct (combos_first (List.length cards)) as (ts & Hts); [lia |].
  destruct hands as [| h0 hs];
    [rewrite Hts in Hhands; inversion Hhands |].
  destruct (running_best_first_maximum h0 hs)
    as (E & k & HE & Hk & _ & Hdom).
  assert (Hin : In E (h0 :: hs)) by (eapply nth_error_In; eassumption).
  assert (Hback : forall h, In h (h0 :: hs) ->
            exists t, In t (combos (List.length cards)) /\
                      Node.evaluate5 (pick cards t) = Returns h).
  { clear - Hhands. induction Hhands as [| t h ts hs' Hth _ IH];
      intros x Hx; [contradiction |].
    destruct Hx as [<- | Hx].
    - exists t. split; [now left | exact Hth].
    - destruct (IH x Hx) as (t' & Ht' & Hev). exists t'.
      split; [now right | exact Hev]. }
  destruct (Hback E Hin) as (t & Ht & Hev).
  exists E, t. split; [| split; [exact Ht | split; [exact Hev |]]].
  - rewrite best_of_run, Hrun, HE. reflexivity.
  - intros t' h Ht' Hh.
    destruct (Forall2_In_left _ _ _ _ Hhands Ht') as (h' & Hh' & Hev').
    rewrite Hh in Hev'. injection Hev' as <-. now apply Hdom.
Qed.

Lemma pick_five (cards : list Card) (t : nat * nat * nat * nat * nat) :
  In t (combos (List.length cards)) -> List.length (pick cards t) = 5%nat.
Proof.
  destruct t as [[[[a b] c] d] e]. rewrite combos_In. intros H.
  destruct (pick_in_range cards a b c d e H)
    as (ca & cb & cc & cd & ce & _ & _ & _ & _ & _ & ->).
  reflexivity.
Qed.


(** With exactly five cards [evaluate7] is [evaluate5] on them. *)
Theorem evaluate7_five_cards (tokens : list JsVal) (cards : list Card) :
  cards_of (filter_Boolean (map Node.parseCard tokens)) = Some cards ->
  List.length cards = 5%nat ->
  exists e, Node.evaluate5 cards = Returns e /\
            Node.evaluate7 tokens = Returns (Some e).
Proof.
  intros Hc Hl.
  assert (Hk : List.length (filter_Boolean (map Node.parseCard tokens))
               = 5%nat).
  { rewrite <- Hl. clear Hl. revert cards Hc.
    induction (filter_Boolean (map Node.parseCard tokens)) as [| p ps IH];
      intros cards; simpl.
    - now intros [= <-].
    - destruct (card_of p); [| discriminate].
      destruct (cards_of ps) as [cs |]; [| discriminate].
      intros [= <-]. simpl. f_equal. now apply IH. }
  destruct (evaluate5_returns cards Hl) as (e & He & _).
  exists e. split; [exact He |].
  unfold Node.evaluate7. rewrite Hk, Hc. simpl.
  destruct cards as [| c0 [| c1 [| c2 [| c3 [| c4 [| c5 l]]]]]];
    try discriminate.
  unfold Node.best_of, for_range. simpl.
  unfold Node.consider. simpl. rewrite He. reflexivity.
Qed.

Lemma evaluate7_five_cards_witness :
  exists e,
    Node.evaluate5 [mkCard 12 0; mkCard 12 1; mkCard 5 2; mkCard 5 3; mkCard 0 0]
      = Returns e /\
    Node.evaluate7 (map JsStr ["As"; "Ah"; "7d"; "7c"; "2s"]%string)
      = Returns (Some e).
Proof.
  apply (evaluate7_five_cards
           (map JsStr ["As"; "Ah"; "7d"; "7c"; "2s"]%string)
           [mkCard 12 0; mkCard 12 1; mkCard 5 2; mkCard 5 3; mkCard 0 0]);
    reflexivity.
Defined.

Lemma evaluate7_plain (tokens : list JsVal) :
  plain_tokens tokens ->
  Node.evaluate7 tokens
  = if (List.length (kept_cards tokens) <? 5)%nat then Returns None
    else Node.best_of (kept_cards tokens).
Proof.
  intros H. destruct (plain_tokens_cards tokens H) as (Hc & Hl).
  unfold Node.evaluate7. now rewrite Hl, Hc.
Qed.

Lemma kept_cards_app (tokens extra : list JsVal) :
  kept_cards (tokens ++ extra) = kept_cards tokens ++ kept_cards extra.
Proof. apply flat_map_app. Qed.

Lemma pick_app (cards more : list Card) (t : nat * nat * nat * nat * nat) :
  In t (combos (List.length cards)) ->
  In t (combos (List.length (cards ++ more))) /\
  pick (cards ++ more) t = pick cards t.
Proof.
  destruct t as [[[[a b] c] d] e]. rewrite !combos_In, length_app.
  intros H. split; [lia |].
  unfold pick. rewrite !nth_error_app1 by lia. reflexivity.
Qed.

(** More cards never give a lower hand: with five or more cards among
    the tokens, the hand found after further tokens are appended (as
    [winProbability] appends the board to the hole cards) compares
    greater than or equal to the hand found before. *)
Theorem evaluate7_more_tokens (tokens extra : list JsVal) :
  plain_tokens tokens -> plain_tokens extra ->
  (5 <= List.length (kept_cards tokens))%nat ->
  exists E E',
    Node.evaluate7 tokens = Returns (Some E) /\
    Node.evaluate7 (tokens ++ extra) = Returns (Some E') /\
    Node.compareHands E' E >= 0.
Proof.
  intros Ht Hx Hlen.
  assert (Hall : plain_tokens (tokens ++ extra))
    by (apply Forall_app; now split).
  rewrite (evaluate7_plain tokens Ht), (evaluate7_plain _ Hall).
  rewrite kept_cards_app.
  set (cards := kept_cards tokens) in *.
  set (more := kept_cards extra).
  assert (Hlen' : (5 <= List.length (cards ++ more))%nat)
    by (rewrite length_app; lia).
  replace (List.length cards <? 5)%nat with false
    by (symmetry; apply Nat.ltb_ge; lia).
  replace (List.length (cards ++ more) <? 5)%nat with false
    by (symmetry; apply Nat.ltb_ge; lia).
  destruct (best_of_returns cards Hlen) as (E & t & HE & Hin & Hev & _).
  destruct (best_of_returns (cards ++ more) Hlen')
    as (E' & _ & HE' & _ & _ & Hdom).
  exists E, E'. split; [exact HE | split; [exact HE' |]].
  destruct (pick_app cards more t Hin) as (Hin' & Hp).
  apply (Hdom t); [exact Hin' | now rewrite Hp].
Qed.

(** Decides [plain_tokens] on a list of given tokens. *)
Ltac plain_tokens_by_parsing :=
  unfold plain_tokens; simpl;
  repeat (apply Forall_cons;
          [ first
              [ left; reflexivity
              | right;
                match goal with
                | |- exists c, Node.parseCard ?t = _ =>
                    let r := eval vm_compute in (Node.parseCard t) in
                    match r with
                    | Some (mkParsed (Own ?a) (Own ?b)) =>
                        exists (mkCard a b); reflexivity
                    end
                end ]
          | ]);
  apply Forall_nil.

Lemma evaluate7_more_tokens_witness :
  exists E E',
    Node.evaluate7 (map JsStr ["As"; "Kh"; "Qd"; "Jc"; "9s"]%string)
      = Returns (Some E) /\
    Node.evaluate7 (map JsStr ["As"; "Kh"; "Qd"; "Jc"; "9s"]%string
                    ++ map JsStr ["Ts"; "XX"]%string)
      = Returns (Some E') /\
    Node.compareHands E' E >= 0.
Proof.
  apply evaluate7_more_tokens.
  - plain_tokens_by_parsing.
  - plain_tokens_by_parsing.
  - simpl. lia.
Defined.

(** ** The order of the tokens does not matter *)

Lemma filter_Boolean_perm {A : Type} (l l' : list (option A)) :
  Permutation l l' -> Permutation (filter_Boolean l) (filter_Boolean l').
Proof.
  induction 1 as [| x l l' _ IH | x y l | l l' l'' _ IH1 _ IH2]; simpl.
  - reflexivity.
  - destruct x; [now constructor | exact IH].
  - destruct x, y; try reflexivity. apply perm_swap.
  - now transitivity (filter_Boolean l').
Qed.

Lemma asc_sorted (l : list nat) :
  NoDup l -> StronglySorted lt (sort_by asc l).
Proof.
  intros Hn.
  assert (Hs : StronglySorted le (sort_by asc l)).
  { apply Sorted_StronglySorted; [intros x y z; lia |].
    assert (Htot : forall a b, 0 < asc a b -> asc b a <= 0)
      by (unfold asc; lia).
    pose proof (sort_by_sorted asc Htot l) as H.
    eapply Sorted_ind with (P := fun l => Sorted le l); [constructor | | exact H].
    intros a l0 _ IH Hh. constructor; [exact IH |].
    destruct Hh as [| b l1 Hab]; constructor. unfold asc in Hab. lia. }
  assert (Hn' : NoDup (sort_by asc l))
    by (apply (Permutation_NoDup (Permutation_sym (sort_by_perm asc l))), Hn).
  induction Hs as [| a l0 Hs IH Hall]; [constructor |].
  inversion Hn' as [| ? ? Hnin Hn'']; subst.
  constructor; [now apply IH |].
  rewrite Forall_forall in *. intros b Hb. specialize (Hall b Hb).
  assert (a <> b) by (intros ->; contradiction). lia.
Qed.

(** A combination of a permuted hand is, up to order, a combination of
    the hand. *)
Lemma pick_perm (cards cards' : list Card)
      (t : nat * nat * nat * nat * nat) :
  Permutation cards cards' ->
  In t (combos (List.length cards)) ->
  exists t', In t' (combos (List.length cards')) /\
             Permutation (pick cards t) (pick cards' t').
Proof.
  intros Hp Ht. destruct t as [[[[a b] c] d] e].
  apply combos_In in Ht.
  apply Permutation_sym, Permutation_nth_error in Hp.
  destruct Hp as (Hlen & f & Hinj & Hf).
  set (idx := [f a; f b; f c; f d; f e]).
  assert (Hrange : forall i, (i < List.length cards)%nat ->
                             (f i < List.length cards')%nat).
  { intros i Hi. apply nth_error_Some. rewrite <- Hf.
    now apply nth_error_Some. }
  assert (Hnd : NoDup idx).
  { unfold idx. repeat constructor; simpl;
      intros H; repeat (destruct H as [H | H]; [apply Hinj in H; lia |]);
      exact H. }
  pose proof (asc_sorted idx Hnd) as Hs.
  pose proof (sort_by_perm asc idx) as Hperm.
  pose proof (Permutation_length Hperm) as Hl.
  assert (Hin : forall i, In i (sort_by asc idx) ->
                          (i < List.length cards')%nat).
  { intros i Hi. apply (Permutation_in _ Hperm) in Hi.
    unfold idx in Hi. simpl in Hi.
    repeat (destruct Hi as [<- | Hi]; [apply Hrange; lia |]).
    contradiction. }
  destruct (sort_by asc idx) as [| a' [| b' [| c' [| d' [| e' [| x l]]]]]];
    try discriminate.
  exists (a', b', c', d', e'). split.
  - apply combos_In.
    repeat match goal with
           | H : StronglySorted _ (_ :: _) |- _ =>
               apply StronglySorted_inv in H; destruct H
           | H : Forall _ (_ :: _) |- _ => inversion_clear H
           end.
    assert (e' < List.length cards')%nat by (apply Hin; simpl; auto 10).
    lia.
  - change (pick cards (a, b, c, d, e))
      with (filter_Boolean (map (nth_error cards) [a; b; c; d; e])).
    change (pick cards' (a', b', c', d', e'))
      with (filter_Boolean (map (nth_error cards') [a'; b'; c'; d'; e'])).
    apply filter_Boolean_perm.
    transitivity (map (nth_error cards') idx).
    + unfold idx. simpl. rewrite !Hf. reflexivity.
    + apply Permutation_map, Permutation_sym, Hperm.
Qed.

Lemma best_of_perm (cards cards' : list Card) :
  (5 <= List.length cards)%nat -> Permutation cards cards' ->
  Node.best_of cards = Node.best_of cards'.
Proof.
  intros Hlen Hp.
  assert (Hlen' : (5 <= List.length cards')%nat)
    by (rewrite <- (Permutation_length Hp); exact Hlen).
  destruct (best_of_returns cards Hlen) as (E & t & HE & Ht & Hev & Hdom).
  destruct (best_of_returns cards' Hlen')
    as (E' & t' & HE' & Ht' & Hev' & Hdom').
  rewrite HE, HE'. do 2 f_equal.
  assert (H1 : Node.compareHands E' E >= 0).
  { destruct (pick_perm cards cards' t Hp Ht) as (u & Hu & Hpu).
    apply (Hdom' u); [exact Hu |].
    now rewrite <- (evaluate5_perm _ _ Hpu). }
  assert (H2 : Node.compareHands E E' >= 0).
  { destruct (pick_perm cards' cards t' (Permutation_sym Hp) Ht')
      as (u & Hu & Hpu).
    apply (Hdom u); [exact Hu |].
    now rewrite <- (evaluate5_perm _ _ Hpu). }
  apply (compareHands_zero_eq (pick cards t) (pick cards' t'));
    try assumption; try now apply pick_five.
  rewrite (compareHands_antisym E' E) in H1. lia.
Qed.

(** The hand [evaluate7] finds does not depend on the order of the
    tokens: any rearrangement of tokens that parse to [null] or to cards
    gives the same category, tiebreaker and name. *)
Theorem evaluate7_permutation (tokens tokens' : list JsVal) :
  plain_tokens tokens -> Permutation tokens tokens' ->
  Node.evaluate7 tokens = Node.evaluate7 tokens'.
Proof.
  intros Ht Hp.
  assert (Ht' : plain_tokens tokens')
    by (unfold plain_tokens; now rewrite <- Hp).
  rewrite (evaluate7_plain tokens Ht), (evaluate7_plain tokens' Ht').
  assert (Hk : Permutation (kept_cards tokens) (kept_cards tokens'))
    by (unfold kept_cards; now rewrite Hp).
  rewrite <- (Permutation_length Hk).
  destruct (List.length (kept_cards tokens) <? 5)%nat eqn:E;
    [reflexivity |].
  apply Nat.ltb_ge in E. now apply best_of_perm.
Qed.

Lemma evaluate7_permutation_witness :
  Node.evaluate7 (map JsStr ["As"; "Kh"; "Qd"; "Jc"; "Ts"; "3h"]%string)
  = Node.evaluate7 (map JsStr ["Kh"; "As"; "Qd"; "Jc"; "Ts"; "3h"]%string).
Proof.
  apply evaluate7_permutation.
  - plain_tokens_by_parsing.
  - simpl. apply perm_swap.
Defined.

(* ================================================================== *)
(** * Further properties of the equity estimator *)
(* ================================================================== *)

Lemma kept_cards_valid (tokens : list JsVal) :
  Forall valid_card (kept_cards tokens).
Proof.
  unfold kept_cards. apply Forall_forall. intros c Hc.
  apply in_flat_map in Hc. destruct Hc as (t & _ & Hc).
  destruct (Node.parseCard t) as [p |] eqn:Ep; [| contradiction].
  destruct (card_of p) as [c' |] eqn:Ec; [| contradiction].
  destruct Hc as [<- | []].
  assert (Hp : p = parsed_of c').
  { destruct p as [[r | n] [s | m]]; try discriminate.
    injection Ec as <-. reflexivity. }
  subst p.
  destruct t as [| | b | x | str |];
    try (rewrite parseCard_not_string in Ep by reflexivity; discriminate).
  now apply (parseCard_numeric_valid str).
Qed.

Lemma plain_tokens_parsed (tokens : list JsVal) :
  plain_tokens tokens ->
  filter_Boolean (map Node.parseCard tokens)
  = map parsed_of (kept_cards tokens).
Proof.
  induction 1 as [| t tokens Ht _ IH]; simpl; [reflexivity |].
  destruct Ht as [-> | (c & ->)]; simpl; [exact IH |].
  rewrite IH. destruct c. reflexivity.
Qed.

(** [preFlopStrength] on tokens that parse to [null] or to cards: the
    neutral 0.5 unless two tokens are given and two cards are kept, and
    then the value for the first two kept cards. *)
Lemma preFlopStrength_plain (hc : list JsVal) :
  plain_tokens hc ->
  Node.preFlopStrength (Present hc)
  = if (List.length hc <? 2)%nat then 0.5%float
    else match kept_cards hc with
         | c1 :: c2 :: _ =>
             strength_by (rank c1) (rank c2) (suit c1 =? suit c2)
         | _ => 0.5%float
         end.
Proof.
  intros H. unfold Node.preFlopStrength.
  rewrite (plain_tokens_parsed hc H).
  destruct (List.length hc <? 2)%nat; [reflexivity |].
  destruct (kept_cards hc) as [| c1 [| c2 rest]]; reflexivity.
Qed.

Lemma for_all_ranks_spec (test : Z -> Z -> bool) (r1 r2 : Z) :
  for_all_ranks test = true ->
  0 <= r1 <= 12 -> 0 <= r2 <= 12 -> test r1 r2 = true.
Proof.
  unfold for_all_ranks. intros H H1 H2.
  rewrite forallb_forall in H.
  assert (In1 : In r1 ranks13) by (unfold ranks13; simpl; lia).
  assert (In2 : In r2 ranks13) by (unfold ranks13; simpl; lia).
  specialize (H r1 In1). rewrite forallb_forall in H. now apply H.
Qed.

Lemma strength_by_range :
  for_all_ranks (fun r1 r2 =>
    forallb (fun s => PrimFloat.leb 0.05 (strength_by r1 r2 s)
                      && PrimFloat.leb (strength_by r1 r2 s) 0.98)
            [true; false]) = true.
Proof. vm_compute. reflexivity. Qed.

Lemma strength_by_suited :
  for_all_ranks (fun r1 r2 =>
    forallb (fun s => PrimFloat.leb (strength_by r1 r2 s)
                                    (strength_by r1 r2 true))
            [true; false]) = true.
Proof. vm_compute. reflexivity. Qed.

(** [preFlopStrength] stays within [0.05, 0.98] on every input whose
    tokens parse to [null] or to cards, whatever their number. *)
Theorem preFlopStrength_range (hole : Field (list JsVal)) :
  (forall hc, hole = Present hc -> plain_tokens hc) ->
  fle 0.05 (Node.preFlopStrength hole) /\
  fle (Node.preFlopStrength hole) 0.98.
Proof.
  intros H. unfold fle.
  destruct hole as [| | hc]; try (split; reflexivity).
  rewrite (preFlopStrength_plain hc (H hc eq_refl)).
  destruct (List.length hc <? 2)%nat; [split; reflexivity |].
  pose proof (kept_cards_valid hc) as Hv.
  destruct (kept_cards hc) as [| c1 [| c2 rest]];
    try (split; reflexivity).
  inversion Hv as [| ? ? (Hr1 & _) Hv']; subst.
  inversion Hv' as [| ? ? (Hr2 & _) _]; subst.
  pose proof (for_all_ranks_spec _ (rank c1) (rank c2)
                strength_by_range Hr1 Hr2) as Ht.
  cbv beta in Ht. simpl in Ht.
  apply andb_prop in Ht. destruct Ht as [Ht Hf].
  apply andb_prop in Hf. destruct Hf as [Hf _].
  apply andb_prop in Ht, Hf.
  destruct (suit c1 =? suit c2); [exact Ht | exact Hf].
Qed.

Lemma preFlopStrength_range_witness :
  fle 0.05 (Node.preFlopStrength (Present [JsStr "Ts"; JsStr "9s"; JsStr "?"]))
  /\ fle (Node.preFlopStrength (Present [JsStr "Ts"; JsStr "9s"; JsStr "?"]))
         0.98.
Proof.
  apply preFlopStrength_range.
  intros hc [= <-]. plain_tokens_by_parsing.
Defined.

Lemma card_of_parsed (c : Card) : card_of (parsed_of c) = Some c.
Proof. now destruct c. Qed.

Lemma preFlopStrength_two (t1 t2 : JsVal) (c1 c2 : Card) :
  Node.parseCard t1 = Some (parsed_of c1) ->
  Node.parseCard t2 = Some (parsed_of c2) ->
  Node.preFlopStrength (Present [t1; t2])
  = strength_by (rank c1) (rank c2) (suit c1 =? suit c2) /\
  0 <= rank c1 <= 12 /\ 0 <= rank c2 <= 12.
Proof.
  intros H1 H2.
  assert (Hk : kept_cards [t1; t2] = [c1; c2]).
  { unfold kept_cards. simpl. rewrite H1, H2, !card_of_parsed. reflexivity. }
  assert (Hp : plain_tokens [t1; t2]).
  { constructor; [right; now exists c1 |].
    constructor; [right; now exists c2 | constructor]. }
  split.
  - rewrite (preFlopStrength_plain _ Hp), Hk. reflexivity.
  - pose proof (kept_cards_valid [t1; t2]) as Hv. rewrite Hk in Hv.
    inversion Hv as [| ? ? (Hr1 & _) Hv']; subst.
    inversion Hv' as [| ? ? (Hr2 & _) _]; subst.
    split; assumption.
Qed.

(** The order of the two hole cards does not matter. *)
Theorem preFlopStrength_symmetric (t1 t2 : JsVal) (c1 c2 : Card) :
  Node.parseCard t1 = Some (parsed_of c1) ->
  Node.parseCard t2 = Some (parsed_of c2) ->
  Node.preFlopStrength (Present [t1; t2])
  = Node.preFlopStrength (Present [t2; t1]).
Proof.
  intros H1 H2.
  destruct (preFlopStrength_two t1 t2 c1 c2 H1 H2) as (-> & Hr1 & Hr2).
  destruct (preFlopStrength_two t2 t1 c2 c1 H2 H1) as (-> & _).
  rewrite (Z.eqb_sym (suit c2)).
  assert (In1 : In (rank c1) ranks13) by (unfold ranks13; simpl; lia).
  assert (In2 : In (rank c2) ranks13) by (unfold ranks13; simpl; lia).
  unfold ranks13 in In1, In2. simpl in In1, In2.
  destruct (suit c1 =? suit c2);
    repeat (destruct In1 as [<- | In1]; [| ]); try contradiction;
    repeat (destruct In2 as [<- | In2]; [| ]); try contradiction;
    vm_compute; reflexivity.
Qed.

Lemma preFlopStrength_symmetric_witness :
  Node.preFlopStrength (Present [JsStr "Kd"; JsStr "4d"])
  = Node.preFlopStrength (Present [JsStr "4d"; JsStr "Kd"]).
Proof.
  apply (preFlopStrength_symmetric (JsStr "Kd") (JsStr "4d")
           (mkCard 11 2) (mkCard 2 2)); reflexivity.
Defined.

(** Two cards of one suit never score below two cards of the same
    ranks in different suits. *)
Theorem preFlopStrength_suited (t1 t2 u1 u2 : JsVal) (c1 c2 d1 d2 : Card) :
  Node.parseCard t1 = Some (parsed_of c1) ->
  Node.parseCard t2 = Some (parsed_of c2) ->
  Node.parseCard u1 = Some (parsed_of d1) ->
  Node.parseCard u2 = Some (parsed_of d2) ->
  rank d1 = rank c1 -> rank d2 = rank c2 ->
  suit c1 = suit c2 ->
  fle (Node.preFlopStrength (Present [u1; u2]))
      (Node.preFlopStrength (Present [t1; t2])).
Proof.
  intros H1 H2 G1 G2 E1 E2 Es. unfold fle.
  destruct (preFlopStrength_two t1 t2 c1 c2 H1 H2) as (-> & Hr1 & Hr2).
  destruct (preFlopStrength_two u1 u2 d1 d2 G1 G2) as (-> & _).
  rewrite E1, E2, Es, Z.eqb_refl.
  pose proof (for_all_ranks_spec _ (rank c1) (rank c2)
                strength_by_suited Hr1 Hr2) as Ht.
  cbv beta in Ht. simpl in Ht.
  apply andb_prop in Ht. destruct Ht as [Ht Hf].
  apply andb_prop in Hf. destruct Hf as [Hf _].
  destruct (suit d1 =? suit d2); assumption.
Qed.

Lemma preFlopStrength_suited_witness :
  fle (Node.preFlopStrength (Present [JsStr "Ah"; JsStr "Kd"]))
      (Node.preFlopStrength (Present [JsStr "As"; JsStr "Ks"])).
Proof.
  apply (preFlopStrength_suited (JsStr "As") (JsStr "Ks")
           (JsStr "Ah") (JsStr "Kd")
           (mkCard 12 0) (mkCard 11 0) (mkCard 12 1) (mkCard 11 2));
    reflexivity.
Defined.

(** A token whose rank is an inherited member of the rank table makes
    the strength [NaN], whichever card it is paired with. *)
Theorem preFlopStrength_not_a_number (t1 t2 : JsVal) (p1 p2 : Parsed) :
  Node.parseCard t1 = Some p1 ->
  Node.parseCard t2 = Some p2 ->
  (exists m, p_rank p1 = Inherited m) \/ (exists m, p_rank p2 = Inherited m) ->
  PrimFloat.is_nan (Node.preFlopStrength (Present [t1; t2])) = true.
Proof.
  intros H1 H2 Hin. unfold Node.preFlopStrength.
  cbn [List.length Nat.ltb Nat.leb map filter_Boolean].
  rewrite H1, H2. cbn [filter_Boolean]. cbv zeta.
  assert (Hhi : Math_max (to_number (p_rank p1)) (to_number (p_rank p2))
                = PrimFloat.nan).
  { unfold Math_max.
    destruct Hin as [(m & ->) | (m & ->)]; simpl to_number.
    - reflexivity.
    - now rewrite orb_true_r. }
  assert (Hlo : Math_min (to_number (p_rank p1)) (to_number (p_rank p2))
                = PrimFloat.nan).
  { unfold Math_min.
    destruct Hin as [(m & ->) | (m & ->)]; simpl to_number.
    - reflexivity.
    - now rewrite orb_true_r. }
  rewrite Hhi, Hlo.
  destruct (propval_eqb (p_suit p1) (p_suit p2)); vm_compute; reflexivity.
Qed.

Lemma preFlopStrength_not_a_number_witness :
  PrimFloat.is_nan
    (Node.preFlopStrength (Present [JsStr "constructors"; JsStr "Kh"]))
  = true.
Proof.
  apply (preFlopStrength_not_a_number (JsStr "constructors") (JsStr "Kh")
           (mkParsed (Inherited "constructor") (Own 0))
           (mkParsed (Own 11) (Own 1)));
    [reflexivity | reflexivity | left; now exists "constructor"%string].
Defined.

(* ------------------------------------------------------------------ *)
(** ** Further properties of [winProbability] *)






